(** * Yosai authentication engine: a shallow embedding

    Two source files are embedded:
    - [yosai/authc/strategy.py]: the authentication attempt and the three
      realm-combination strategies (module [Strategy]);
    - [yosai/core/authc/authc.py]: the tokens, the token registry and the
      [DefaultAuthenticator] (module [Authc]).

    Python calls that may raise are functions into [result]; calls whose
    side effects matter (a realm consulted, a message sent on the event bus,
    an account locked) are recorded, in order, in a trace. *)

From stdpp Require Import base strings list gmap.
From Stdlib Require Import ZArith Lia.

Local Open Scope string_scope.
Local Open Scope list_scope.
Set Warnings "-register-all".

(** ** Outcomes of Python calls *)

(** A call either returns a value or raises an exception. *)
Inductive result (E A : Type) : Type :=
| Return (a : A)
| Raise (e : E).
Arguments Return {E A} a.
Arguments Raise {E A} e.

(** A computation with observable effects: the effects it performed, in
    order, and how it ended. *)
Definition traced (Ev E A : Type) : Type := (list Ev * result E A)%type.

Definition ret {Ev E A} (a : A) : traced Ev E A := ([], Return a).

Definition raise {Ev E A} (e : E) : traced Ev E A := ([], Raise e).

Definition emit {Ev E} (ev : Ev) : traced Ev E unit := ([ev], Return tt).

Definition lift {Ev E A} (r : result E A) : traced Ev E A := ([], r).

(** Sequencing: an exception skips the rest, the trace so far is kept. *)
Definition bind {Ev E A B} (c : traced Ev E A) (k : A -> traced Ev E B)
  : traced Ev E B :=
  match c with
  | (t, Return a) => let '(t', r) := k a in ((t ++ t')%list, r)
  | (t, Raise e) => (t, Raise e)
  end.

(** [try: c  except Exception as e: h e].  A handler that does not apply to
    [e] re-raises it. *)
Definition try_except {Ev E A} (c : traced Ev E A) (h : E -> traced Ev E A)
  : traced Ev E A :=
  match c with
  | (t, Raise e) => let '(t', r) := h e in ((t ++ t')%list, r)
  | (t, Return a) => (t, Return a)
  end.

Notation "'let!' x ':=' c 'in' k" := (bind c (fun x => k))
  (at level 10, x name, c at level 100, k at level 200, only parsing).
Notation "'exec' c 'then' k" := (bind c (fun _ => k))
  (at level 10, c at level 100, k at level 200, only parsing).

(** ** Python dictionaries with string keys

    Insertion-ordered: assigning to an existing key keeps its position. *)
Section Dict.
Context {V : Type}.

Fixpoint dict_set (d : list (string * V)) (k : string) (v : V)
  : list (string * V) :=
  match d with
  | [] => [(k, v)]
  | (k', v') :: d' =>
      if String.eqb k' k then (k, v) :: d' else (k', v') :: dict_set d' k v
  end.

Fixpoint dict_get (d : list (string * V)) (k : string) : option V :=
  match d with
  | [] => None
  | (k', v') :: d' => if String.eqb k' k then Some v' else dict_get d' k
  end.

Definition dict_truthy (d : list (string * V)) : bool :=
  match d with [] => false | _ :: _ => true end.
End Dict.

(** * yosai/authc/strategy.py *)
Module Strategy.

(** Exceptions seen by the strategies.  [RealmException] stands for any
    exception object a realm raises; the strategies build the other
    ones.  [AttributeError] and [RecursionError] are the interpreter's. *)
Inductive exn : Type :=
| RealmException (cls : string) (msg : string)
| AuthenticationException (msg : string) (inner : exn)
| MultiRealmAuthenticationException (realm_errors : list (string * exn))
| AttributeError (msg : string)
| RecursionError.

(** The only effect of a strategy: which realm was asked to
    authenticate. *)
Inductive event : Type :=
| Consulted (realm_name : string).

Section WithCollaborators.
(** Tokens and accounts are opaque to the strategies. *)
Context {Token Account : Type}.

(** The class hierarchy of the exceptions is declared in package
    [yosai], outside this file: [isinstance(exc,
    AuthenticationException)] is a parameter. *)
Variable isinstance_AuthenticationException : exn -> bool.

(** The realm contract, as the strategies use it.  A realm returns an
    account or [None].  An account object is true in a condition (per the
    data model it is a mapping with two keys), so [if (account):] and
    [if (account is not None):] are both the match on [Some]. *)
Record Realm : Type := {
  name : string;
  supports : Token -> bool;
  authenticate_account : Token -> result exn (option Account);
}.

(** What a strategy reads from its [authc_attempt] argument. *)
Record AuthenticationAttempt : Type := {
  authentication_token : Token;
  realms : list Realm;
}.

(** [DefaultCompositeAccount] is imported from the package and is not
    part of the source.  A composite is represented by the calls of
    [append_realm_account] it has received, oldest first: whatever the
    class does with them, this is all the strategies hand to it. *)
Record DefaultCompositeAccount : Type := {
  appended : list (string * Account);
}.

(** [DefaultCompositeAccount()] *)
Definition new_composite : DefaultCompositeAccount :=
  {| appended := [] |}.

(** [composite_account.append_realm_account(realm_name, account)] *)
Definition append_realm_account (c : DefaultCompositeAccount)
    (realm_name : string) (account : Account) : DefaultCompositeAccount :=
  {| appended := appended c ++ [(realm_name, account)] |}.

(** Modelled from the spec: the sub-accounts of a composite, which the
    class [DefaultCompositeAccount] (not in the source) keeps; per the
    data model it "accumulates per-realm sub-accounts keyed by realm
    name". *)
Definition sub_accounts (c : DefaultCompositeAccount)
  : list (string * Account) :=
  foldl (fun d entry => dict_set d entry.1 entry.2) [] (appended c).

(** The value a strategy returns: a realm's account or the composite. *)
Inductive account_value : Type :=
| RealmAccount (a : Account)
| Composite (c : DefaultCompositeAccount).

(** [realm.authenticate_account(token)], recorded in the trace. *)
Definition call_authenticate (realm : Realm) (token : Token)
  : traced event exn (option Account) :=
  ([Consulted (name realm)], authenticate_account realm token).

(** *** AllRealmsSuccessfulStrategy.execute (lines 40-78) *)

(** Loop state.  [first_account] and [first_account_realm_name] are
    assigned together (lines 64-65) and nowhere else: one optional
    pair. *)
Record all_state : Type := {
  all_first : option (string * Account);
  all_composite : option DefaultCompositeAccount;
}.

Definition all_step (realm : Realm) (account : option Account)
    (st : all_state) : all_state :=
  match account with
  | Some acc =>                                  (* if (account): *)
      match all_first st with
      | None =>                                  (* if (not first_account): *)
          {| all_first := Some (name realm, acc);
             all_composite := all_composite st |}
      | Some (first_account_realm_name, first_account) =>
          let composite_account :=
            match all_composite st with
            | None =>                            (* if (not composite_account): *)
                append_realm_account new_composite
                  first_account_realm_name first_account
            | Some c => c
            end in
          {| all_first := all_first st;
             all_composite :=
               Some (append_realm_account composite_account
                       (name realm) acc) |}
      end
  | None => st
  end.

Fixpoint all_loop (token : Token) (rs : list Realm) (st : all_state)
  : traced event exn all_state :=
  match rs with
  | [] => ret st
  | realm :: rest =>
      if supports realm token then
        let! account := call_authenticate realm token in
        all_loop token rest (all_step realm account st)
      else all_loop token rest st
  end.

Definition AllRealmsSuccessfulStrategy_execute
    (authc_attempt : AuthenticationAttempt)
  : traced event exn (option account_value) :=
  let token := authentication_token authc_attempt in
  let! st := all_loop token (realms authc_attempt)
               {| all_first := None; all_composite := None |} in
  match all_composite st with
  | Some c => ret (Some (Composite c))           (* if (composite_account): *)
  | None => ret (RealmAccount <$> (snd <$> all_first st))
  end.

(** *** AtLeastOneRealmSuccessfulStrategy.execute (lines 83-120) *)

(** The strategy object.  The class body defines [execute] only, so an
    instance has an attribute [realm_errors] only if a caller stored
    one on it; [None] is the attribute being absent, the state of
    every instance the class itself creates. *)
Record AtLeastOneRealmSuccessfulStrategy : Type := {
  self_realm_errors : option (list (string * exn));
}.

Record alo_state : Type := {
  alo_realm_errors : list (string * exn);
  alo_account : option Account;
  alo_first_account : option Account;
  alo_composite : option DefaultCompositeAccount;
}.

Definition alo_init : alo_state :=
  {| alo_realm_errors := []; alo_account := None;
     alo_first_account := None; alo_composite := None |}.

(** Lines 96-100: the [try] around the realm call.  On an exception
    [account] keeps the value of the previous iteration. *)
Definition alo_try (realm_name : string)
    (r : result exn (option Account)) (st : alo_state) : alo_state :=
  match r with
  | Return account =>
      {| alo_realm_errors := alo_realm_errors st;
         alo_account := account;
         alo_first_account := alo_first_account st;
         alo_composite := alo_composite st |}
  | Raise ex =>
      {| alo_realm_errors := dict_set (alo_realm_errors st) realm_name ex;
         alo_account := alo_account st;
         alo_first_account := alo_first_account st;
         alo_composite := alo_composite st |}
  end.

(** Lines 102-109. *)
Definition alo_collect (realm_name : string) (st : alo_state)
  : alo_state :=
  match alo_account st with
  | Some account =>                              (* if (account is not None): *)
      match alo_first_account st with
      | None =>                                  (* if (first_account is None): *)
          {| alo_realm_errors := alo_realm_errors st;
             alo_account := alo_account st;
             alo_first_account := Some account;
             alo_composite := alo_composite st |}
      | Some _ =>
          let composite_account :=
            match alo_composite st with
            | None => new_composite              (* if (composite_account is None): *)
            | Some c => c
            end in
          {| alo_realm_errors := alo_realm_errors st;
             alo_account := alo_account st;
             alo_first_account := alo_first_account st;
             alo_composite :=
               Some (append_realm_account composite_account
                       realm_name account) |}
      end
  | None => st
  end.

Fixpoint alo_loop (authc_token : Token) (rs : list Realm)
    (st : alo_state) : list event * alo_state :=
  match rs with
  | [] => ([], st)
  | realm :: rest =>
      if supports realm authc_token then
        let realm_name := name realm in
        let st1 :=
          alo_try realm_name (authenticate_account realm authc_token) st in
        let '(t, st') :=
          alo_loop authc_token rest (alo_collect realm_name st1) in
        (Consulted realm_name :: t, st')
      else alo_loop authc_token rest st
  end.

(** [self.realm_errors] (line 117). *)
Definition get_self_realm_errors (self : AtLeastOneRealmSuccessfulStrategy)
  : result exn (list (string * exn)) :=
  match self_realm_errors self with
  | Some d => Return d
  | None =>
      Raise (AttributeError
               "'AtLeastOneRealmSuccessfulStrategy' object has no attribute 'realm_errors'")
  end.

(** [copy.copy] of the token yields an equal token. *)
Definition AtLeastOneRealmSuccessfulStrategy_execute
    (self : AtLeastOneRealmSuccessfulStrategy)
    (authc_attempt : AuthenticationAttempt)
  : traced event exn (option account_value) :=
  let authc_token := authentication_token authc_attempt in
  let '(t, st) := alo_loop authc_token (realms authc_attempt) alo_init in
  exec (t, Return tt) then
  match alo_composite st with
  | Some c => ret (Some (Composite c))           (* line 111 *)
  | None =>
      match alo_first_account st with
      | Some a => ret (Some (RealmAccount a))    (* line 114 *)
      | None =>
          let! errs := lift (get_self_realm_errors self) in
          if dict_truthy errs                    (* line 117 *)
          then raise (MultiRealmAuthenticationException
                        (alo_realm_errors st))
          else ret None
      end
  end.

(** *** FirstRealmSuccessfulStrategy.execute (lines 144-179) *)

(** How the [for] loop ends: by the [return] of line 164, or by running
    out of realms with the errors collected so far. *)
Inductive first_exit : Type :=
| Returned (account : Account)
| Exhausted (realm_errors : list (string * exn)).

Fixpoint first_loop (authc_token : Token) (rs : list Realm)
    (realm_errors : list (string * exn)) : list event * first_exit :=
  match rs with
  | [] => ([], Exhausted realm_errors)
  | realm :: rest =>
      if supports realm authc_token then
        match authenticate_account realm authc_token with
        | Raise ex =>
            let '(t, e) :=
              first_loop authc_token rest
                (dict_set realm_errors (name realm) ex) in
            (Consulted (name realm) :: t, e)
        | Return (Some account) =>               (* if (account): return *)
            ([Consulted (name realm)], Returned account)
        | Return None =>
            let '(t, e) := first_loop authc_token rest realm_errors in
            (Consulted (name realm) :: t, e)
        end
      else first_loop authc_token rest realm_errors
  end.

(** Lines 166-179, after the loop. *)
Definition first_conclude (realm_errors : list (string * exn))
  : result exn (option Account) :=
  match realm_errors with
  | [] => Return None
  | [(_, exc)] =>                                (* len(realm_errors) == 1 *)
      if isinstance_AuthenticationException exc
      then Raise exc
      else Raise (AuthenticationException
                    "Unable to authenticate realm account." exc)
  | _ => Raise (MultiRealmAuthenticationException realm_errors)
  end.

Definition FirstRealmSuccessfulStrategy_execute
    (authc_attempt : AuthenticationAttempt)
  : traced event exn (option Account) :=
  let authc_token := authentication_token authc_attempt in
  match first_loop authc_token (realms authc_attempt) [] with
  | (t, Returned account) => (t, Return (Some account))
  | (t, Exhausted realm_errors) => (t, first_conclude realm_errors)
  end.

(** *** DefaultAuthenticationAttempt (lines 15-35) *)

(** Objects stored in attributes of an attempt. *)
Inductive pyobj : Type :=
| TokenObj (t : Token)
| RealmsObj (rs : list Realm).

(** An instance is its [__dict__]. *)
Definition instance : Type := list (string * pyobj).

(** A [property] in a class body.  The getter receives the attribute
    lookup on [self]; [fset = None] is a property without setter. *)
Record property : Type := {
  fget : (string -> result exn pyobj) -> result exn pyobj;
  fset : option (instance -> pyobj -> result exn instance);
}.

(** Lines 29-35: two properties, each declared with [@property] only,
    each getter reading the attribute of its own name. *)
Definition DefaultAuthenticationAttempt_class (attr : string)
  : option property :=
  if String.eqb attr "authentication_token" then
    Some {| fget := fun self_getattr => self_getattr "authentication_token";
            fset := None |}
  else if String.eqb attr "realms" then
    Some {| fget := fun self_getattr => self_getattr "realms";
            fset := None |}
  else None.

(** [self.attr = value]: a property of the class takes precedence over
    the instance dictionary, and without setter the assignment
    fails. *)
Definition setattr (cls : string -> option property) (self : instance)
    (attr : string) (value : pyobj) : result exn instance :=
  match cls attr with
  | Some p =>
      match fset p with
      | Some set => set self value
      | None => Raise (AttributeError "can't set attribute")
      end
  | None => Return (dict_set self attr value)
  end.

(** [self.attr], with the interpreter's bound on nested calls. *)
Fixpoint getattr (depth : nat) (cls : string -> option property)
    (self : instance) (attr : string) : result exn pyobj :=
  match depth with
  | O => Raise RecursionError
  | S d =>
      match cls attr with
      | Some p => fget p (getattr d cls self)
      | None =>
          match dict_get self attr with
          | Some v => Return v
          | None => Raise (AttributeError attr)
          end
      end
  end.

(** [__init__] (lines 24-25). *)
Definition DefaultAuthenticationAttempt_init (self : instance)
    (authc_token : Token) (realms : list Realm) : result exn instance :=
  match setattr DefaultAuthenticationAttempt_class self
          "authentication_token" (TokenObj authc_token) with
  | Return self1 =>
      setattr DefaultAuthenticationAttempt_class self1
        "realms" (RealmsObj realms)
  | Raise e => Raise e
  end.

(** [DefaultAuthenticationAttempt(authc_token, realms)]: a fresh
    instance is initialised and returned. *)
Definition DefaultAuthenticationAttempt_new
    (authc_token : Token) (realms : list Realm) : result exn instance :=
  DefaultAuthenticationAttempt_init [] authc_token realms.

End WithCollaborators.

Arguments Realm : clear implicits.
Arguments AuthenticationAttempt : clear implicits.
Arguments DefaultCompositeAccount : clear implicits.
Arguments account_value : clear implicits.

End Strategy.

(** * yosai/core/authc/authc.py *)
Module Authc.

Local Open Scope Z_scope.

(** A Python [float] by its value: a finite float is [mantissa * 2 ^
    exponent] for two integers ([float.hex], [math.frexp]); the others are
    the two infinities and NaN. *)
Inductive pyfloat : Type :=
| FloatFinite (mantissa exponent : Z)
| FloatInf (negative : bool)
| FloatNaN.

(** Python values of the builtin kinds a caller may pass as
    credentials. *)
Inductive pyval : Type :=
| PyNone
| PyBool (b : bool)
| PyInt (z : Z)
| PyFloat (x : pyfloat)
| PyStr (code_points : list Z)
| PyBytes (octets : list Z).

(** Modelled from the spec: the identifier collection is declared outside
    the source; it is "an ordered set of (realm_name, identifier) pairs
    with a primary_identifier (first-inserted)". *)
Record IdentifierCollection : Type := {
  primary_identifier : string;
  source_identifiers : list (string * string);
}.

(** Exceptions, by class.  [Raised] is an exception object of any other
    class, as a realm or a strategy may raise; it may carry a
    [failed_attempts] attribute. *)
Inductive exn : Type :=
| KeyError (args : list string)
| IndexError (msg : string)
| TypeError (msg : string)
| AttributeError (msg : string)
| ValueError (msg : string)
| AssertionError (msg : string)
| UnicodeEncodeError (code_point : Z)
| InvalidAuthenticationSequenceException (msg : string)
| AccountException (msg : string)
| LockedAccountException (msg : string)
| IncorrectCredentialsException (failed_attempts : option (list Z))
| AdditionalAuthenticationRequired (account_id : IdentifierCollection)
| Raised (cls : string) (failed_attempts : option (list Z)).

Definition class_of (e : exn) : string :=
  match e with
  | KeyError _ => "KeyError"
  | IndexError _ => "IndexError"
  | TypeError _ => "TypeError"
  | AttributeError _ => "AttributeError"
  | ValueError _ => "ValueError"
  | AssertionError _ => "AssertionError"
  | UnicodeEncodeError _ => "UnicodeEncodeError"
  | InvalidAuthenticationSequenceException _ =>
      "InvalidAuthenticationSequenceException"
  | AccountException _ => "AccountException"
  | LockedAccountException _ => "LockedAccountException"
  | IncorrectCredentialsException _ => "IncorrectCredentialsException"
  | AdditionalAuthenticationRequired _ => "AdditionalAuthenticationRequired"
  | Raised cls _ => cls
  end.

(** [exc.failed_attempts] *)
Definition get_failed_attempts (e : exn) : result exn (list Z) :=
  match e with
  | IncorrectCredentialsException (Some l) | Raised _ (Some l) => Return l
  | _ => Raise (AttributeError
                  (class_of e +:+ " object has no attribute 'failed_attempts'"))
  end.

(** ** Tokens (lines 41-122) *)

Record TokenInfo : Type := {
  tier : Z;
  cred_type : string;
}.

(** A token object.  [token_class] is [authc_token.__class__], by name;
    [identifier = None] is the attribute not being set, as on a fresh
    [TOTPToken]; [token_info_attr] is the attribute [token_info], set by
    [authenticate_account]. *)
Record AuthenticationToken : Type := {
  token_class : string;
  identifier : option string;
  credentials : pyval;
  host : option string;
  is_remember_me : bool;
  token_info_attr : option TokenInfo;
}.

(** [bytes(s, 'utf-8')] for a string given by its code points: surrogates
    cannot be encoded. *)
Definition utf8_encode_char (c : Z) : result exn (list Z) :=
  if c <? 0x80 then Return [c]
  else if c <? 0x800 then
    Return [Z.lor 0xC0 (Z.shiftr c 6); Z.lor 0x80 (Z.land c 0x3F)]
  else if (0xD800 <=? c) && (c <=? 0xDFFF) then
    Raise (UnicodeEncodeError c)
  else if c <? 0x10000 then
    Return [Z.lor 0xE0 (Z.shiftr c 12);
            Z.lor 0x80 (Z.land (Z.shiftr c 6) 0x3F);
            Z.lor 0x80 (Z.land c 0x3F)]
  else
    Return [Z.lor 0xF0 (Z.shiftr c 18);
            Z.lor 0x80 (Z.land (Z.shiftr c 12) 0x3F);
            Z.lor 0x80 (Z.land (Z.shiftr c 6) 0x3F);
            Z.lor 0x80 (Z.land c 0x3F)].

Fixpoint utf8_encode (s : list Z) : result exn (list Z) :=
  match s with
  | [] => Return []
  | c :: s' =>
      match utf8_encode_char c with
      | Raise e => Raise e
      | Return b =>
          match utf8_encode s' with
          | Raise e => Raise e
          | Return bs => Return (b ++ bs)%list
          end
      end
  end.

(** [UsernamePasswordToken.identifier] setter (lines 67-72); the user
    name is a [str]. *)
Definition UsernamePasswordToken_set_identifier (identifier : string)
  : result exn string :=
  if String.eqb identifier "" then Raise (ValueError "Username must be defined")
  else Return identifier.

(** [UsernamePasswordToken.credentials] setter (lines 78-85).  The first
    [if] stores a [bytes] value; the second [if] has the [else] branch. *)
Definition UsernamePasswordToken_set_credentials
    (_credentials : option pyval) (credentials : pyval)
  : result exn (option pyval) :=
  let _credentials1 :=
    match credentials with
    | PyBytes _ => Some credentials               (* line 80-81 *)
    | _ => _credentials
    end in
  match credentials with
  | PyStr s =>                                    (* line 82-83 *)
      match utf8_encode s with
      | Return b => Return (Some (PyBytes b))
      | Raise e => Raise e
      end
  | _ => Raise (ValueError "Password must be a str or bytes")
  end.

(** [UsernamePasswordToken(username, password, remember_me, host)] *)
Definition UsernamePasswordToken (username : string) (password : pyval)
    (remember_me : bool) (host : option string)
  : result exn AuthenticationToken :=
  match UsernamePasswordToken_set_identifier username with
  | Raise e => Raise e
  | Return ident =>
      match UsernamePasswordToken_set_credentials None password with
      | Raise e => Raise e
      | Return None => Raise (AttributeError "_credentials")
      | Return (Some c) =>
          Return {| token_class := "UsernamePasswordToken";
                    identifier := Some ident;
                    credentials := c;
                    host := host;
                    is_remember_me := remember_me;
                    token_info_attr := None |}
      end
  end.

(** [n < x] and [x < n] for an [int] [n] and a [float] [x]: Python
    compares the two exact values, here after scaling both sides by the
    power of two that makes them integers. *)
Definition int_lt_float (n : Z) (x : pyfloat) : bool :=
  match x with
  | FloatFinite m e => n * 2 ^ Z.max 0 (- e) <? m * 2 ^ Z.max 0 e
  | FloatInf negative => negb negative
  | FloatNaN => false
  end.

Definition float_lt_int (x : pyfloat) (n : Z) : bool :=
  match x with
  | FloatFinite m e => m * 2 ^ Z.max 0 e <? n * 2 ^ Z.max 0 (- e)
  | FloatInf negative => negative
  | FloatNaN => false
  end.

(** [n < v] and [v < n] for an [int] literal [n]: a [bool] is an [int],
    a [float] is compared by value, and the other kinds raise
    [TypeError]. *)
Definition int_lt (n : Z) (v : pyval) : result exn bool :=
  match v with
  | PyInt z => Return (n <? z)
  | PyBool b => Return (n <? (if b then 1 else 0))
  | PyFloat x => Return (int_lt_float n x)
  | _ => Raise (TypeError "'<' not supported between these instances")
  end.

Definition lt_int (v : pyval) (n : Z) : result exn bool :=
  match v with
  | PyInt z => Return (z <? n)
  | PyBool b => Return ((if b then 1 else 0) <? n)
  | PyFloat x => Return (float_lt_int x n)
  | _ => Raise (TypeError "'<' not supported between these instances")
  end.

(** [assert 99999 < credentials < 1000000]: the chained comparison
    evaluates the second one only if the first holds.  There is no test
    of the type. *)
Definition TOTPToken_assert (credentials : pyval) : result exn unit :=
  match int_lt 99999 credentials with
  | Raise e => Raise e
  | Return false => Raise (AssertionError "")
  | Return true =>
      match lt_int credentials 1000000 with
      | Raise e => Raise e
      | Return false => Raise (AssertionError "")
      | Return true => Return tt
      end
  end.

(** [TOTPToken.credentials] setter (lines 110-117): both exceptions are
    re-created in their own class around the message (the message is a
    pair whose second component, [str(credentials)], is left out). *)
Definition TOTPToken_set_credentials (credentials : pyval)
  : result exn pyval :=
  match TOTPToken_assert credentials with
  | Return _ => Return credentials
  | Raise (TypeError _) =>
      Raise (TypeError "TOTPToken must be a 6-digit int. Got: ")
  | Raise (AssertionError _) =>
      Raise (AssertionError "TOTPToken must be a 6-digit int. Got: ")
  | Raise e => Raise e
  end.

(** [TOTPToken(totp_token, remember_me)]: no identifier is set. *)
Definition TOTPToken (totp_token : pyval) (remember_me : bool)
  : result exn AuthenticationToken :=
  match TOTPToken_set_credentials totp_token with
  | Raise e => Raise e
  | Return c =>
      Return {| token_class := "TOTPToken";
                identifier := None;
                credentials := c;
                host := None;
                is_remember_me := remember_me;
                token_info_attr := None |}
  end.

(** The registry [token_info] (lines 121-122), keyed by class. *)
Definition token_info : gmap string TokenInfo :=
  <["UsernamePasswordToken" := {| tier := 1; cred_type := "password" |}]>
  (<["TOTPToken" := {| tier := 2; cred_type := "totp_key" |}]> ∅).

(** [str(authc_token)]: [__repr__] of lines 87-92 for a
    [UsernamePasswordToken]; the default representation of other classes
    shows a memory address, which is left out. *)
Definition str_token (t : AuthenticationToken) : string :=
  if String.eqb (token_class t) "UsernamePasswordToken" then
    token_class t +:+ " - " +:+ default "" (identifier t)
      +:+ ", remember_me=" +:+ (if is_remember_me t then "True" else "False")
      +:+ match host t with
          | Some h => if String.eqb h "" then "" else ", (" +:+ h +:+ ")"
          | None => ""
          end
  else "<" +:+ token_class t +:+ " object>".

(** ** Accounts *)

(** An entry of [authc_info]; [failed_attempts = None] is the key being
    absent from the entry. *)
Record CredInfo : Type := {
  credential : list Z;
  failed_attempts : option (list Z);
}.

(** An account: the mapping with keys [account_id] and [authc_info]. *)
Record Account : Type := {
  account_id : IdentifierCollection;
  authc_info : gmap string CredInfo;
}.

(** Side effects of the authenticator on its collaborators. *)
Inductive event : Type :=
| SendMessage (topic : string) (identifier : string)
| Subscribe (topic : string)
| IsSubscribed (topic : string)
| LockAccount (realm_name : string) (identifier : string)
| SendChallenge (identifier : string)
| AuthenticateAccount (realm_name : string)
| LogMessage (level : string) (msg : string).

(** The realm contract, as the authenticator uses it. *)
Record Realm : Type := {
  realm_name : string;
  is_authenticating_realm : bool;
  supported_authc_tokens : list string;
  realm_authenticate_account :
    AuthenticationToken -> result exn (option Account);
  has_lock_account : bool;
}.

(** [AuthenticationAttempt(authc_token, realms)] of [yosai.core]. *)
Record AuthenticationAttempt : Type := {
  attempt_token : AuthenticationToken;
  attempt_realms : list Realm;
}.

Section WithCollaborators.
(** The event bus and the MFA challenger are external objects. *)
Context {EventBus MFAChallenger : Type}.

(** [issubclass] between distinct exception classes: the hierarchy is
    declared in [yosai.core], outside the source. *)
Variable subclass_of : string -> string -> bool.

Definition isinstance (e : exn) (cls : string) : bool :=
  String.eqb (class_of e) cls || subclass_of (class_of e) cls.

Record AuthenticationSettings : Type := {
  account_lock_threshold : option Z;
  settings_mfa_challenger : option MFAChallenger;
}.

(** The authenticator's fields.  [None] is Python's [None], except for
    [mfa_challenger], where it is the attribute never being set
    (lines 135-136). *)
Record DefaultAuthenticator : Type := {
  authc_settings : AuthenticationSettings;
  authentication_strategy :
    AuthenticationAttempt -> result exn (option Account);
  mfa_challenger : option MFAChallenger;
  realms : option (list Realm);
  token_realm_resolver : option (gmap string (list Realm));
  locking_realm : option Realm;
  locking_limit : option Z;
  event_bus : option EventBus;
}.

(** [__init__] (lines 128-142) *)
Definition new_authenticator (settings : AuthenticationSettings)
    (strategy : AuthenticationAttempt -> result exn (option Account))
  : DefaultAuthenticator :=
  {| authc_settings := settings;
     authentication_strategy := strategy;
     mfa_challenger := settings_mfa_challenger settings;
     realms := None;
     token_realm_resolver := None;
     locking_realm := None;
     locking_limit := None;
     event_bus := None |}.

(** [init_token_resolution] (lines 160-166): a [defaultdict(list)]. *)
Definition resolver_append (realm : Realm)
    (resolver : gmap string (list Realm)) (token_class : string)
  : gmap string (list Realm) :=
  <[token_class := (default [] (resolver !! token_class) ++ [realm])%list]>
    resolver.

Definition init_token_resolution (rs : list Realm)
  : gmap string (list Realm) :=
  foldl (fun resolver realm =>
           if is_authenticating_realm realm then
             foldl (resolver_append realm) resolver
               (supported_authc_tokens realm)
           else resolver)
        ∅ rs.

(** [locate_locking_realm] (lines 168-176) *)
Definition locate_locking_realm (rs : list Realm) : option Realm :=
  List.find has_lock_account rs.

(** A Python number used as a condition. *)
Definition limit_truthy (l : option Z) : bool :=
  match l with
  | Some z => negb (z =? 0)%Z
  | None => false
  end.

(** [register_cache_clear_listener] (lines 295-304) *)
Definition register_cache_clear_listener (self : DefaultAuthenticator)
  : traced event exn unit :=
  match event_bus self with
  | Some _ =>
      ([Subscribe "SESSION.EXPIRE"; IsSubscribed "SESSION.EXPIRE";
        Subscribe "SESSION.STOP"; IsSubscribed "SESSION.STOP"],
       Return tt)
  | None =>
      emit (LogMessage "debug"
              "Authenticator failed to register listeners to event bus")
  end.

(** [init_realms] with [init_locking] (lines 144-158) *)
Definition init_realms (self : DefaultAuthenticator) (rs : list Realm)
  : traced event exn DefaultAuthenticator :=
  let realms1 := List.filter is_authenticating_realm rs in
  exec register_cache_clear_listener self then
  let locking_limit1 := account_lock_threshold (authc_settings self) in
  ret {| authc_settings := authc_settings self;
         authentication_strategy := authentication_strategy self;
         mfa_challenger := mfa_challenger self;
         realms := Some realms1;
         token_realm_resolver := Some (init_token_resolution realms1);
         locking_realm :=
           if limit_truthy locking_limit1
           then locate_locking_realm realms1 else locking_realm self;
         locking_limit :=
           if limit_truthy locking_limit1
           then locking_limit1 else locking_limit self;
         event_bus := event_bus self |}.

(** [authc_token.identifier] *)
Definition get_identifier (t : AuthenticationToken) : result exn string :=
  match identifier t with
  | Some i => Return i
  | None =>
      Raise (AttributeError
               (token_class t +:+ " object has no attribute 'identifier'"))
  end.

(** [notify_event] (lines 306-311) *)
Definition notify_event (self : DefaultAuthenticator)
    (identifier : string) (topic : string) : traced event exn unit :=
  try_except
    match event_bus self with
    | Some _ => emit (SendMessage topic identifier)
    | None =>
        raise (AttributeError
                 "'NoneType' object has no attribute 'sendMessage'")
    end
    (fun e =>
       if isinstance e "AttributeError" then
         raise (AttributeError ("Could not publish " +:+ topic +:+ " event"))
       else raise e).

(** [self.locking_realm.lock_account(identifier)] *)
Definition lock_account (self : DefaultAuthenticator) (identifier : string)
  : traced event exn unit :=
  match locking_realm self with
  | Some realm =>
      if has_lock_account realm
      then emit (LockAccount (realm_name realm) identifier)
      else raise (AttributeError
                    "realm object has no attribute 'lock_account'")
  | None =>
      raise (AttributeError
               "'NoneType' object has no attribute 'lock_account'")
  end.

(** [validate_locked] (lines 313-322) *)
Definition validate_locked (self : DefaultAuthenticator)
    (authc_token : AuthenticationToken) (failed_attempts : list Z)
  : traced event exn unit :=
  if limit_truthy (locking_limit self)
     && (default 0 (locking_limit self) <? Z.of_nat (length failed_attempts))%Z
  then
    let! ident := lift (get_identifier authc_token) in
    let msg := "Authentication attempts breached threshold.  Account"
               +:+ " is now locked for: " +:+ ident in
    exec lock_account self ident then
    exec notify_event self ident "AUTHENTICATION.ACCOUNT_LOCKED" then
    raise (LockedAccountException msg)
  else ret tt.

(** [self.token_realm_resolver[authc_token.__class__]]: on a
    [defaultdict(list)] a missing key yields the empty list. *)
Definition resolver_getitem (self : DefaultAuthenticator)
    (token_class : string) : result exn (list Realm) :=
  match token_realm_resolver self with
  | Some resolver => Return (default [] (resolver !! token_class))
  | None => Raise (TypeError "'NoneType' object is not subscriptable")
  end.

(** [authenticate_single_realm_account] (lines 178-179) *)
Definition authenticate_single_realm_account (realm : Realm)
    (authc_token : AuthenticationToken)
  : traced event exn (option Account) :=
  ([AuthenticateAccount (realm_name realm)],
   realm_authenticate_account realm authc_token).

(** [authenticate_multi_realm_account] (lines 181-183) *)
Definition authenticate_multi_realm_account (self : DefaultAuthenticator)
    (rs : list Realm) (authc_token : AuthenticationToken)
  : traced event exn (option Account) :=
  let attempt :=
    {| attempt_token := authc_token; attempt_realms := rs |} in
  lift (authentication_strategy self attempt).

(** Lines 254-262 of [do_authenticate_account]: the candidate realms of
    the token's class, then the one realm or the strategy. *)
Definition dispatch_account (self : DefaultAuthenticator)
    (authc_token : AuthenticationToken)
  : traced event exn (option Account) :=
  let! candidates :=
    try_except
      (lift (resolver_getitem self (token_class authc_token)))
      (fun e =>
         if isinstance e "KeyError" then
           raise (KeyError ["Unsupported Token Type Provided: ";
                            token_class authc_token])
         else raise e) in
  let! all_realms :=
    match realms self with
    | Some rs => ret rs
    | None => raise (TypeError "object of type 'NoneType' has no len()")
    end in
  if (length all_realms =? 1)%nat then
    match candidates with
    | realm :: _ => authenticate_single_realm_account realm authc_token
    | [] => raise (IndexError "list index out of range")
    end
  else authenticate_multi_realm_account self all_realms authc_token.

(** [do_authenticate_account] (lines 245-274) *)
Definition do_authenticate_account (self : DefaultAuthenticator)
    (authc_token : AuthenticationToken)
  : traced event exn (option Account) :=
  let! account := dispatch_account self authc_token in
  let! info :=                                   (* line 264 *)
    match token_info_attr authc_token with
    | Some info => ret info
    | None =>
        raise (AttributeError
                 (token_class authc_token
                    +:+ " object has no attribute 'token_info'"))
    end in
  let cred_type := cred_type info in
  let! acc :=                                    (* account['authc_info'] *)
    match account with
    | Some acc => ret acc
    | None => raise (TypeError "'NoneType' object is not subscriptable")
    end in
  let! entry :=                                  (* [cred_type] *)
    match authc_info acc !! cred_type with
    | Some entry => ret entry
    | None => raise (KeyError [cred_type])
    end in
  let attempts := default [] (failed_attempts entry) in
  exec validate_locked self authc_token attempts then
  if (tier info <? Z.of_nat (size (authc_info acc)))%Z then   (* line 269 *)
    let! ident := lift (get_identifier authc_token) in
    exec notify_event self ident "AUTHENTICATION.PROGRESS" then
    raise (AdditionalAuthenticationRequired (account_id acc))
  else ret (Some acc).

(** [self.mfa_challenger.send_challenge(identifier)] inside
    [try ... except AttributeError: pass] (lines 217-221) *)
Definition send_challenge (self : DefaultAuthenticator)
    (identifier : string) : traced event exn unit :=
  match mfa_challenger self with
  | Some _ => emit (SendChallenge identifier)
  | None => ret tt
  end.

(** [authenticate_account] (lines 185-243) *)
Definition authenticate_account (self : DefaultAuthenticator)
    (identifiers : option IdentifierCollection)
    (authc_token : AuthenticationToken)
  : traced event exn IdentifierCollection :=
  let! token1 :=
    match identifier authc_token with
    | Some (String _ _) => ret authc_token
    | _ =>                    (* not getattr(authc_token, 'identifier', None) *)
        match identifiers with
        | None =>
            raise (InvalidAuthenticationSequenceException
                     "Authentication must be performed in expected sequence.")
        | Some ids =>
            ret {| token_class := token_class authc_token;
                   identifier := Some (primary_identifier ids);
                   credentials := credentials authc_token;
                   host := host authc_token;
                   is_remember_me := is_remember_me authc_token;
                   token_info_attr := token_info_attr authc_token |}
        end
    end in
  let! info :=                                   (* line 204 *)
    match token_info !! token_class token1 with
    | Some info => ret info
    | None => raise (KeyError [token_class token1])
    end in
  let token2 :=
    {| token_class := token_class token1;
       identifier := identifier token1;
       credentials := credentials token1;
       host := host token1;
       is_remember_me := is_remember_me token1;
       token_info_attr := Some info |} in
  let! account :=
    try_except
      (let! account := do_authenticate_account self token2 in
       match account with
       | None =>
           raise (AccountException
                    ("No account returned by any configured realms for "
                       +:+ "submitted authentication token ["
                       +:+ str_token token2 +:+ "]"))
       | Some acc => ret acc
       end)
      (fun exc =>
         if isinstance exc "AdditionalAuthenticationRequired" then
           let! ident := lift (get_identifier token2) in
           exec notify_event self ident "AUTHENTICATION.PROGRESS" then
           exec send_challenge self ident then
           raise exc
         else if isinstance exc "AccountException" then
           let! ident := lift (get_identifier token2) in
           exec notify_event self ident "AUTHENTICATION.ACCOUNT_NOT_FOUND" then
           raise exc
         else if isinstance exc "LockedAccountException" then
           let! ident := lift (get_identifier token2) in
           exec notify_event self ident "AUTHENTICATION.FAILED" then
           exec notify_event self ident "AUTHENTICATION.ACCOUNT_LOCKED" then
           raise exc
         else if isinstance exc "IncorrectCredentialsException" then
           let! ident := lift (get_identifier token2) in
           exec notify_event self ident "AUTHENTICATION.FAILED" then
           let! attempts := lift (get_failed_attempts exc) in
           exec validate_locked self token2 attempts then
           raise (IncorrectCredentialsException None)
         else raise exc) in
  exec notify_event self (primary_identifier (account_id account))
         "AUTHENTICATION.SUCCEEDED" then
  ret (account_id account).

End WithCollaborators.

Arguments AuthenticationSettings : clear implicits.
Arguments DefaultAuthenticator : clear implicits.

End Authc.

(** * Vocabulary of the statements *)

Section StrategyVocabulary.
Context {Token Account : Type}.

(** Realm [r] is consulted for [token] and returns the account [acc]. *)
Definition succeeds (token : Token) (r : Strategy.Realm Token Account)
    (acc : Account) : Prop :=
  Strategy.supports r token = true
  /\ Strategy.authenticate_account r token = Return (Some acc).

(** Realm [r] is consulted for [token] and raises [e]. *)
Definition fails (token : Token) (r : Strategy.Realm Token Account)
    (e : Strategy.exn) : Prop :=
  Strategy.supports r token = true
  /\ Strategy.authenticate_account r token = Raise e.

(** No realm of [rs] returns an account for [token]. *)
Definition no_success (token : Token)
    (rs : list (Strategy.Realm Token Account)) : Prop :=
  Forall (fun r => forall acc, ~ succeeds token r acc) rs.

(** The realms of [rs] that support [token], in iteration order. *)
Definition consulted (token : Token)
    (rs : list (Strategy.Realm Token Account)) : list Strategy.event :=
  List.map (fun r => Strategy.Consulted (Strategy.name r))
    (List.filter (fun r => Strategy.supports r token) rs).

(** The exceptions raised by the supporting realms of [rs], by realm name,
    in iteration order. *)
Fixpoint raised_by (token : Token)
    (rs : list (Strategy.Realm Token Account))
  : list (string * Strategy.exn) :=
  match rs with
  | [] => []
  | r :: rest =>
      if Strategy.supports r token then
        match Strategy.authenticate_account r token with
        | Raise e => (Strategy.name r, e) :: raised_by token rest
        | Return _ => raised_by token rest
        end
      else raised_by token rest
  end.

(** The accounts returned by the supporting realms of [rs], by realm name,
    in iteration order. *)
Fixpoint returned_by (token : Token)
    (rs : list (Strategy.Realm Token Account))
  : list (string * Account) :=
  match rs with
  | [] => []
  | r :: rest =>
      if Strategy.supports r token then
        match Strategy.authenticate_account r token with
        | Return (Some acc) => (Strategy.name r, acc) :: returned_by token rest
        | _ => returned_by token rest
        end
      else returned_by token rest
  end.

(** No supporting realm of [rs] raises. *)
Definition no_failure (token : Token)
    (rs : list (Strategy.Realm Token Account)) : Prop :=
  Forall (fun r => forall e, ~ fails token r e) rs.

End StrategyVocabulary.

(** * Stub collaborators for the concrete scenarios *)

(** A realm that supports every token and always ends the same way. *)
Definition stub_realm (n : string)
    (outcome : result Strategy.exn (option string))
  : Strategy.Realm unit string :=
  {| Strategy.name := n;
     Strategy.supports := fun _ => true;
     Strategy.authenticate_account := fun _ => outcome |}.

Definition incorrect_credentials : Strategy.exn :=
  Strategy.RealmException "IncorrectCredentialsException" "wrong password".

Definition account_error : Strategy.exn :=
  Strategy.RealmException "AccountException" "no such account".

(** A strategy object as the class creates it. *)
Definition fresh_strategy : Strategy.AtLeastOneRealmSuccessfulStrategy :=
  {| Strategy.self_realm_errors := None |}.

(** A hierarchy in which exactly the exceptions named
    [IncorrectCredentialsException] are authentication exceptions. *)
Definition credentials_are_authc (e : Strategy.exn) : bool :=
  match e with
  | Strategy.RealmException cls _ =>
      String.eqb cls "IncorrectCredentialsException"
  | _ => false
  end.

(** The state of the all-successful loop after the realms consulted so far
    returned the accounts [s] (by realm name, in order). *)
Section LoopStates.
Context {Account : Type}.

Definition all_state_of (s : list (string * Account))
  : Strategy.all_state (Account := Account) :=
  match s with
  | [] => {| Strategy.all_first := None; Strategy.all_composite := None |}
  | [x] => {| Strategy.all_first := Some x; Strategy.all_composite := None |}
  | x :: _ =>
      {| Strategy.all_first := Some x;
         Strategy.all_composite := Some {| Strategy.appended := s |} |}
  end.

End LoopStates.

(** Stub collaborators of the authenticator. *)

(** A hierarchy in which no two distinct exception classes are related. *)
Definition no_subclasses (c1 c2 : string) : bool := false.

Definition alice_id : Authc.IdentifierCollection :=
  {| Authc.primary_identifier := "alice";
     Authc.source_identifiers := [("R1", "alice")] |}.

Definition password_entry (attempts : list Z) : Authc.CredInfo :=
  {| Authc.credential := [36%Z; 50%Z];
     Authc.failed_attempts := Some attempts |}.

(** An account with a password only, and one with a second factor. *)
Definition alice_account (attempts : list Z) : Authc.Account :=
  {| Authc.account_id := alice_id;
     Authc.authc_info := {[ "password" := password_entry attempts ]} |}.

Definition alice_mfa_account : Authc.Account :=
  {| Authc.account_id := alice_id;
     Authc.authc_info :=
       <["totp_key" := {| Authc.credential := [7%Z];
                          Authc.failed_attempts := None |}]>
         {[ "password" := password_entry [] ]} |}.

(** A locking realm for password tokens that returns [acc]. *)
Definition password_realm (acc : Authc.Account) : Authc.Realm :=
  {| Authc.realm_name := "R1";
     Authc.is_authenticating_realm := true;
     Authc.supported_authc_tokens := ["UsernamePasswordToken"];
     Authc.realm_authenticate_account := fun _ => Return (Some acc);
     Authc.has_lock_account := true |}.

Definition stub_settings (threshold : option Z)
  : Authc.AuthenticationSettings unit :=
  {| Authc.account_lock_threshold := threshold;
     Authc.settings_mfa_challenger := None |}.

Definition null_strategy (attempt : Authc.AuthenticationAttempt)
  : result Authc.exn (option Authc.Account) :=
  Return None.

(** The owner stores the event bus on the authenticator. *)
Definition with_event_bus (self : Authc.DefaultAuthenticator unit unit)
  : Authc.DefaultAuthenticator unit unit :=
  {| Authc.authc_settings := Authc.authc_settings self;
     Authc.authentication_strategy := Authc.authentication_strategy self;
     Authc.mfa_challenger := Authc.mfa_challenger self;
     Authc.realms := Authc.realms self;
     Authc.token_realm_resolver := Authc.token_realm_resolver self;
     Authc.locking_realm := Authc.locking_realm self;
     Authc.locking_limit := Authc.locking_limit self;
     Authc.event_bus := Some tt |}.

(** The authenticator after [init_realms]. *)
Definition initialised (self : Authc.DefaultAuthenticator unit unit)
    (rs : list Authc.Realm) : Authc.DefaultAuthenticator unit unit :=
  match Authc.init_realms self rs with
  | (_, Return self') => self'
  | (_, Raise _) => self
  end.

(** One password realm, an event bus, and the given lock threshold. *)
Definition single_realm_authenticator (acc : Authc.Account)
    (threshold : option Z) : Authc.DefaultAuthenticator unit unit :=
  initialised
    (with_event_bus (Authc.new_authenticator (stub_settings threshold)
                       null_strategy))
    [password_realm acc].

(** The same without event bus. *)
Definition unwired_authenticator (acc : Authc.Account)
  : Authc.DefaultAuthenticator unit unit :=
  initialised (Authc.new_authenticator (stub_settings None) null_strategy)
    [password_realm acc].

(** A password token and a TOTP token as [authenticate_account] passes
    them on: identifier and registry entry attached. *)
Definition password_token : Authc.AuthenticationToken :=
  {| Authc.token_class := "UsernamePasswordToken";
     Authc.identifier := Some "alice";
     Authc.credentials := Authc.PyBytes [112%Z; 119%Z];
     Authc.host := None;
     Authc.is_remember_me := false;
     Authc.token_info_attr :=
       Some {| Authc.tier := 1; Authc.cred_type := "password" |} |}.

Definition totp_token : Authc.AuthenticationToken :=
  {| Authc.token_class := "TOTPToken";
     Authc.identifier := Some "alice";
     Authc.credentials := Authc.PyInt 123456;
     Authc.host := None;
     Authc.is_remember_me := false;
     Authc.token_info_attr :=
       Some {| Authc.tier := 2; Authc.cred_type := "totp_key" |} |}.

(** [lo < x < hi] for a float [x], by value: for [x = m * 2 ^ e] with
    [e < 0] the bounds are scaled by [2 ^ (- e)] instead. *)
Definition float_between (lo hi : Z) (x : Authc.pyfloat) : Prop :=
  match x with
  | Authc.FloatFinite m e =>
      if (0 <=? e)%Z then (lo < m * 2 ^ e < hi)%Z
      else (lo * 2 ^ (- e) < m < hi * 2 ^ (- e))%Z
  | _ => False
  end.

(** Case analysis on what a realm does with a token. *)
Ltac case_realm r token :=
  let Hs := fresh "Hsup" in
  let Ha := fresh "Hauth" in
  destruct (Strategy.supports r token) eqn:Hs;
  [destruct (Strategy.authenticate_account r token) as [[?|]|?] eqn:Ha|].

(** * yosai/core/authc/authc.py: clearing the caches (lines 279-293) *)
Module CacheClearing.

(** Effects of [clear_cache] on its collaborators. *)
Inductive event : Type :=
| ClearCachedAuthcInfo (realm_name : string) (identifier : string)
| LogWarn (msg : string).

Section WithCollaborators.
Context {EventBus MFAChallenger Identifiers : Type}.

Variable subclass_of : string -> string -> bool.

(** [identifiers.from_source(realm_name)]: the identifier collection is
    declared outside the source; the call yields an identifier or
    [None]. *)
Variable from_source : Identifiers -> string -> option string.

(** The payload [items] of a session event.  [identifiers = None] is the
    attribute being absent or [None]: reading [from_source] through it
    raises [AttributeError] either way. *)
Record Items : Type := {
  identifiers : option Identifiers;
}.

(** [items.identifiers], with [items] defaulting to [None]. *)
Definition get_identifiers (items : option Items)
  : result Authc.exn Identifiers :=
  match items with
  | Some it =>
      match identifiers it with
      | Some ids => Return ids
      | None =>
          Raise (Authc.AttributeError "object has no attribute 'from_source'")
      end
  | None =>
      Raise (Authc.AttributeError
               "'NoneType' object has no attribute 'identifiers'")
  end.

(** The loop of lines 286-289.  [clear_cached_authc_info] belongs to the
    realm interface, declared outside the source; the call is recorded
    and taken to return. *)
Fixpoint clear_cache_loop (items : option Items) (rs : list Authc.Realm)
  : traced event Authc.exn unit :=
  match rs with
  | [] => ret tt
  | realm :: rest =>
      let! ids := lift (get_identifiers items) in
      let identifier := from_source ids (Authc.realm_name realm) in
      exec match identifier with
           | Some (String c s) =>                     (* if identifier: *)
               emit (ClearCachedAuthcInfo (Authc.realm_name realm) (String c s))
           | _ => ret tt
           end then
      clear_cache_loop items rest
  end.

(** [clear_cache]; the warning ends with [str(items)], which is left
    out. *)
Definition clear_cache (self : Authc.DefaultAuthenticator EventBus MFAChallenger)
    (items : option Items) : traced event Authc.exn unit :=
  try_except
    match Authc.realms self with
    | Some rs => clear_cache_loop items rs
    | None => raise (Authc.TypeError "'NoneType' object is not iterable")
    end
    (fun e =>
       if Authc.isinstance subclass_of e "AttributeError" then
         emit (LogWarn
                 "Could not clear authc_info from cache after event. items: ")
       else raise e).

End WithCollaborators.

Arguments Items : clear implicits.

End CacheClearing.

(** * yosai/core/authc/authc.py: PasslibVerifier (lines 329-375) *)
Module Verifier.

Section WithLibrary.
(** The stored form of a credential is opaque. *)
Context {Stored : Type}.

Variable subclass_of : string -> string -> bool.

(** The verifier, by what it asks of passlib: [verify] of the password
    [CryptContext] built by [create_password_crypt_context], and
    [TOTP(key=stored).verify(submitted)], whose result is not used. *)
Record PasslibVerifier : Type := {
  password_cc_verify : Authc.pyval -> Stored -> result Authc.exn bool;
  totp_verify : Stored -> Authc.pyval -> result Authc.exn unit;
}.

(** An entry of the [authc_info] passed to the verifier;
    [entry_credential = None] is the key ['credential'] being absent. *)
Record StoredEntry : Type := {
  entry_credential : option Stored;
}.

(** [get_stored_credentials] (lines 356-365) *)
Definition get_stored_credentials (authc_token : Authc.AuthenticationToken)
    (authc_info : gmap string StoredEntry) : result Authc.exn Stored :=
  match Authc.token_info_attr authc_token with
  | None =>
      Raise (Authc.AttributeError
               (Authc.token_class authc_token
                  +:+ " object has no attribute 'token_info'"))
  | Some info =>
      let cred_type := Authc.cred_type info in
      match authc_info !! cred_type ≫= entry_credential with
      | Some stored => Return stored
      | None =>                                       (* except KeyError: *)
          Raise (Authc.KeyError
                   [cred_type +:+ " is required but unavailable from authc_info"])
      end
  end.

(** The two values of [cc_token_resolver] (lines 333-336): the password
    context, and what [create_totp_crypt_context] returns, which is
    [None] (its body is [pass]). *)
Inductive service : Type :=
| password_cc
| totp_cc.

(** [self.cc_token_resolver[authc_token.__class__]] *)
Definition cc_token_resolver (token_class : string)
  : result Authc.exn service :=
  if String.eqb token_class "UsernamePasswordToken" then Return password_cc
  else if String.eqb token_class "TOTPToken" then Return totp_cc
  else Raise (Authc.KeyError [token_class]).

(** [service.verify(submitted, stored)] *)
Definition service_verify (self : PasslibVerifier) (s : service)
    (submitted : Authc.pyval) (stored : Stored) : result Authc.exn bool :=
  match s with
  | password_cc => password_cc_verify self submitted stored
  | totp_cc =>
      Raise (Authc.AttributeError "'NoneType' object has no attribute 'verify'")
  end.

(** [verify_credentials] (lines 339-354).  The class of the token is a
    key of the resolver when line 345 is reached, so
    [isinstance(authc_token, UsernamePasswordToken)] is the test on the
    class itself. *)
Definition verify_credentials (self : PasslibVerifier)
    (authc_token : Authc.AuthenticationToken)
    (authc_info : gmap string StoredEntry) : result Authc.exn unit :=
  let submitted := Authc.credentials authc_token in
  match get_stored_credentials authc_token authc_info with
  | Raise e => Raise e
  | Return stored =>
      match cc_token_resolver (Authc.token_class authc_token) with
      | Raise e => Raise e
      | Return service =>
          let attempt :=                              (* try: *)
            if String.eqb (Authc.token_class authc_token)
                 "UsernamePasswordToken"
            then
              match service_verify self service submitted stored with
              | Return true => Return tt
              | Return false =>                       (* if not result: *)
                  Raise (Authc.IncorrectCredentialsException None)
              | Raise e => Raise e
              end
            else totp_verify self stored submitted in
          match attempt with
          | Return u => Return u
          | Raise e =>                  (* except (ValueError, TokenError): *)
              if Authc.isinstance subclass_of e "ValueError"
                 || Authc.isinstance subclass_of e "TokenError"
              then Raise (Authc.IncorrectCredentialsException None)
              else Raise e
          end
      end
  end.

End WithLibrary.

Arguments PasslibVerifier : clear implicits.
Arguments StoredEntry : clear implicits.

End Verifier.

(** The state of the at-least-one loop when no realm has raised: after the
    realms consulted so far returned the accounts [s] (by realm name, in
    order), the last of them leaving [account] in the variable of that
    name. *)
Section MoreLoopStates.
Context {Account : Type}.

Definition alo_state_after (errs : list (string * Strategy.exn))
    (s : list (string * Account)) (account : option Account)
  : Strategy.alo_state (Account := Account) :=
  {| Strategy.alo_realm_errors := errs;
     Strategy.alo_account := account;
     Strategy.alo_first_account := snd <$> head s;
     Strategy.alo_composite :=
       match tail s with
       | [] => None
       | l => Some {| Strategy.appended := l |}
       end |}.

End MoreLoopStates.

(** * Vocabulary for the authenticator *)

(** The token as [authenticate_account] hands it to
    [do_authenticate_account]: a token without identifier of its own has
    received the primary one of the earlier identifiers (line 201), and
    the registry entry [info] is attached (line 204). *)
Definition dispatched_token
    (identifiers : option Authc.IdentifierCollection)
    (authc_token : Authc.AuthenticationToken) (info : Authc.TokenInfo)
  : Authc.AuthenticationToken :=
  {| Authc.token_class := Authc.token_class authc_token;
     Authc.identifier :=
       match Authc.identifier authc_token with
       | Some (String _ _) => Authc.identifier authc_token
       | _ => Authc.primary_identifier <$> identifiers
       end;
     Authc.credentials := Authc.credentials authc_token;
     Authc.host := Authc.host authc_token;
     Authc.is_remember_me := Authc.is_remember_me authc_token;
     Authc.token_info_attr := Some info |}.

(** The sequence check of lines 197-200 passes: the token has a non-empty
    identifier, or earlier identifiers are given. *)
Definition in_sequence (identifiers : option Authc.IdentifierCollection)
    (authc_token : Authc.AuthenticationToken) : Prop :=
  (exists c s, Authc.identifier authc_token = Some (String c s))
  \/ is_Some identifiers.

(** The realms that list the class [cls] among their supported tokens,
    once for each time they list it, in the order of [rs]; realms that
    are not authenticating realms are left out. *)
Definition candidates (cls : string) (rs : list Authc.Realm)
  : list Authc.Realm :=
  flat_map
    (fun realm =>
       if Authc.is_authenticating_realm realm then
         flat_map (fun c => if String.eqb c cls then [realm] else [])
           (Authc.supported_authc_tokens realm)
       else [])
    rs.

(** The realm through which accounts are locked: an authenticating realm
    that has [lock_account]. *)
Definition can_lock (realm : Authc.Realm) : bool :=
  Authc.is_authenticating_realm realm && Authc.has_lock_account realm.

(** The calls of [clear_cached_authc_info] due for the identifiers [ids]:
    one for each realm of [rs] for which [from_source] yields a non-empty
    identifier, in the order of [rs]. *)
Section Cleared.
Context {Identifiers : Type}.
Variable from_source : Identifiers -> string -> option string.

Fixpoint cleared (ids : Identifiers) (rs : list Authc.Realm)
  : list CacheClearing.event :=
  match rs with
  | [] => []
  | realm :: rest =>
      match from_source ids (Authc.realm_name realm) with
      | Some (String c s) =>
          CacheClearing.ClearCachedAuthcInfo (Authc.realm_name realm)
            (String c s) :: cleared ids rest
      | _ => cleared ids rest
      end
  end.

End Cleared.

(** * Further stub collaborators *)

(** A token as its constructor leaves it, before [authenticate_account]
    has attached anything. *)
Definition fresh_password_token : Authc.AuthenticationToken :=
  {| Authc.token_class := "UsernamePasswordToken";
     Authc.identifier := Some "alice";
     Authc.credentials := Authc.PyBytes [112%Z; 119%Z];
     Authc.host := None;
     Authc.is_remember_me := false;
     Authc.token_info_attr := None |}.



(** An authenticating realm for password tokens with the given outcome,
    with or without [lock_account]. *)
Definition outcome_realm (n : string) (locks : bool)
    (outcome : result Authc.exn (option Authc.Account)) : Authc.Realm :=
  {| Authc.realm_name := n;
     Authc.is_authenticating_realm := true;
     Authc.supported_authc_tokens := ["UsernamePasswordToken"];
     Authc.realm_authenticate_account := fun _ => outcome;
     Authc.has_lock_account := locks |}.

(** A realm that is not an authenticating realm. *)
Definition plain_realm (n : string) : Authc.Realm :=
  {| Authc.realm_name := n;
     Authc.is_authenticating_realm := false;
     Authc.supported_authc_tokens := ["UsernamePasswordToken"];
     Authc.realm_authenticate_account := fun _ => Return None;
     Authc.has_lock_account := true |}.

(** An authenticator with event bus over the given realms. *)
Definition authenticator_over (rs : list Authc.Realm) (threshold : option Z)
  : Authc.DefaultAuthenticator unit unit :=
  initialised
    (with_event_bus (Authc.new_authenticator (stub_settings threshold)
                       null_strategy))
    rs.

(** Identifiers of a session event, by realm name. *)
Definition lookup_source (ids : list (string * string)) (realm_name : string)
  : option string :=
  dict_get ids realm_name.

(** A verifier whose password context accepts the stored bytes themselves
    and refuses anything that is not [bytes] with [ValueError], and whose
    TOTP check accepts the stored code. *)
Definition stub_verifier : Verifier.PasslibVerifier (list Z) :=
  {| Verifier.password_cc_verify := fun submitted stored =>
       match submitted with
       | Authc.PyBytes b => Return (bool_decide (b = stored))
       | _ => Raise (Authc.ValueError "hash could not be identified")
       end;
     Verifier.totp_verify := fun stored submitted =>
       match submitted with
       | Authc.PyInt z =>
           if bool_decide ([z] = stored) then Return tt
           else Raise (Authc.Raised "TokenError" None)
       | _ => Raise (Authc.Raised "TokenError" None)
       end |}.

Definition stored_info : gmap string (Verifier.StoredEntry (list Z)) :=
  {[ "password" := {| Verifier.entry_credential := Some [112%Z; 119%Z] |} ]}.

(** An account with a second factor and the given failed password
    attempts. *)
Definition alice_mfa_account_with (attempts : list Z) : Authc.Account :=
  {| Authc.account_id := alice_id;
     Authc.authc_info :=
       <["totp_key" := {| Authc.credential := [7%Z];
                          Authc.failed_attempts := None |}]>
         {[ "password" := password_entry attempts ]} |}.

(** A password token with the wrong password. *)
Definition wrong_password_token : Authc.AuthenticationToken :=
  {| Authc.token_class := "UsernamePasswordToken";
     Authc.identifier := Some "alice";
     Authc.credentials := Authc.PyBytes [0%Z];
     Authc.host := None;
     Authc.is_remember_me := false;
     Authc.token_info_attr :=
       Some {| Authc.tier := 1; Authc.cred_type := "password" |} |}.


(** A hierarchy in which [LockedAccountException] is an
    [AccountException] and no other two distinct classes are related. *)
Definition locked_is_account_exception (c1 c2 : string) : bool :=
  String.eqb c1 "LockedAccountException" && String.eqb c2 "AccountException".

(** Entering [authenticate_account]: with the sequence check passed and
    the class registered, what remains is determined by what
    [do_authenticate_account] does with the dispatched token. *)
Ltac enter_authenticate_account token Hseq Hreg Hdo :=
  unfold Authc.authenticate_account;
  unfold dispatched_token in Hdo;
  let c := fresh "c" in
  let s := fresh "s" in
  let ids := fresh "ids" in
  let Hid := fresh "Hid" in
  destruct Hseq as [(c & s & Hid)|[ids ->]];
  [|destruct (Authc.identifier token) as [[|c s]|] eqn:Hid];
  rewrite ?Hid in Hdo; rewrite ?Hid;
  cbn [bind ret raise fst snd app Authc.token_class Authc.identifier
       Authc.credentials Authc.host Authc.is_remember_me
       Authc.token_info_attr fmap option_fmap option_map] in Hdo |- *;
  rewrite Hreg;
  cbn [bind ret raise fst snd app Authc.token_class Authc.identifier
       Authc.credentials Authc.host Authc.is_remember_me
       Authc.token_info_attr];
  rewrite ?Hid; rewrite Hdo.


(** * Dictionaries *)

Section DictFacts.
Context {V : Type}.
Implicit Types (d l : list (string * V)) (k : string) (v : V).

Lemma dict_set_fresh d k v :
  k ∉ d.*1 -> dict_set d k v = (d ++ [(k, v)])%list.
Proof.
  induction d as [|[k' v'] d IH]; simpl; intros Hk; [done|].
  apply not_elem_of_cons in Hk as [Hne Hk].
  destruct (String.eqb_spec k' k) as [->|_]; [done|].
  by rewrite IH.
Qed.

Lemma dict_get_set d k k' v :
  dict_get (dict_set d k v) k' =
  if String.eqb k k' then Some v else dict_get d k'.
Proof.
  induction d as [|[k0 v0] d IH]; simpl.
  - done.
  - destruct (String.eqb_spec k0 k) as [->|Hne]; simpl.
    + destruct (String.eqb_spec k k'); done.
    + rewrite IH. destruct (String.eqb_spec k0 k') as [->|]; [|done].
      destruct (String.eqb_spec k k'); congruence.
Qed.

(** Storing entries with fresh, distinct keys appends them. *)
Lemma dict_store_fresh d l :
  NoDup (d ++ l).*1 ->
  foldl (fun acc kv => dict_set acc kv.1 kv.2) d l = (d ++ l)%list.
Proof.
  revert d. induction l as [|[k v] l IH]; intros d Hnd; simpl.
  - by rewrite app_nil_r.
  - rewrite dict_set_fresh.
    + rewrite IH; rewrite <- app_assoc; done.
    + rewrite fmap_app in Hnd. apply NoDup_app in Hnd as (_ & Hd & _).
      intros Hin. apply (Hd k Hin). simpl. left.
  Qed.
End DictFacts.

Section StrategyFacts.
Context {Token Account : Type}.
Implicit Types (token : Token) (r : Strategy.Realm Token Account)
  (rs pre post : list (Strategy.Realm Token Account)).

Lemma raised_by_names token rs k :
  k ∈ (raised_by token rs).*1 -> k ∈ Strategy.name <$> rs.
Proof.
  induction rs as [|r rs IH]; simpl; [done|].
  case_realm r token; simpl; rewrite ?elem_of_cons; intuition.
Qed.

Lemma raised_by_NoDup token rs :
  NoDup (Strategy.name <$> rs) -> NoDup (raised_by token rs).*1.
Proof.
  induction rs as [|r rs IH]; simpl; [constructor|].
  rewrite NoDup_cons. intros [Hr Hnd].
  case_realm r token; simpl; auto.
  apply NoDup_cons. split; [|auto].
  intros Hin. by apply Hr, (raised_by_names token).
Qed.

Lemma returned_by_names token rs k :
  k ∈ (returned_by token rs).*1 -> k ∈ Strategy.name <$> rs.
Proof.
  induction rs as [|r rs IH]; simpl; [done|].
  case_realm r token; simpl; rewrite ?elem_of_cons; intuition.
Qed.

(** The loop of the first-successful strategy when no realm succeeds:
    every supporting realm is consulted and every exception is stored. *)
Lemma first_loop_exhausted token rs errs :
  no_success token rs ->
  Strategy.first_loop token rs errs =
  (consulted token rs,
   Strategy.Exhausted
     (foldl (fun d ke => dict_set d ke.1 ke.2) errs (raised_by token rs))).
Proof.
  unfold no_success, consulted.
  revert errs. induction rs as [|r rs IH]; intros errs Hno; simpl; [done|].
  apply Forall_cons in Hno as [Hr Hno].
  case_realm r token; simpl.
  - exfalso. by apply (Hr a).
  - by rewrite IH.
  - by rewrite IH.
  - by rewrite IH.
Qed.

(** ... and when a realm succeeds after realms that did not. *)
Lemma first_loop_returned token pre r post acc errs :
  no_success token pre -> succeeds token r acc ->
  Strategy.first_loop token (pre ++ r :: post) errs =
  (consulted token pre ++ [Strategy.Consulted (Strategy.name r)],
   Strategy.Returned acc).
Proof.
  unfold no_success, consulted. intros Hno [Hs Ha].
  revert errs. induction pre as [|p pre IH]; intros errs; simpl.
  - by rewrite Hs, Ha.
  - apply Forall_cons in Hno as [Hp Hno].
    case_realm p token; simpl.
    + exfalso. by apply (Hp a).
    + by rewrite IH.
    + by rewrite IH.
    + by rewrite IH.
Qed.

(** C5: [FirstRealmSuccessfulStrategy.execute].  When a supporting realm
    returns an account and no realm before it did, that account is
    returned and the realms consulted are the supporting realms up to and
    including that one: no later realm is asked.  When no realm returns
    an account, every supporting realm is consulted and the outcome
    follows the exceptions raised: none, [None] is returned; exactly one,
    it is re-raised if it is an [AuthenticationException] and otherwise
    raised wrapped in
    [AuthenticationException("Unable to authenticate realm account.", exc)];
    more than one, for realms with distinct names,
    [MultiRealmAuthenticationException] is raised with the exceptions by
    realm name. *)
Theorem FirstRealmSuccessful_execute_spec
    (isinstance_AuthenticationException : Strategy.exn -> bool) token rs :
  let execute :=
    Strategy.FirstRealmSuccessfulStrategy_execute
      isinstance_AuthenticationException
      {| Strategy.authentication_token := token; Strategy.realms := rs |} in
  (forall pre r post acc,
      rs = pre ++ r :: post -> no_success token pre -> succeeds token r acc ->
      execute =
      (consulted token pre ++ [Strategy.Consulted (Strategy.name r)],
       Return (Some acc)))
  /\ (no_success token rs ->
      exists outcome,
        execute = (consulted token rs, outcome)
        /\ (raised_by token rs = [] -> outcome = Return None)
        /\ (forall n exc, raised_by token rs = [(n, exc)] ->
              outcome =
              if isinstance_AuthenticationException exc then Raise exc
              else Raise (Strategy.AuthenticationException
                            "Unable to authenticate realm account." exc))
        /\ ((1 < length (raised_by token rs))%nat ->
            NoDup (Strategy.name <$> rs) ->
            outcome =
            Raise (Strategy.MultiRealmAuthenticationException
                     (raised_by token rs)))).
Proof.
  intros execute. subst execute.
  unfold Strategy.FirstRealmSuccessfulStrategy_execute; simpl. split.
  - intros pre r post acc -> Hno Hok.
    by rewrite (first_loop_returned token pre r post acc [] Hno Hok).
  - intros Hno. rewrite (first_loop_exhausted token rs [] Hno).
    eexists; split; [reflexivity|].
    repeat split.
    + by intros ->.
    + by intros n exc ->.
    + intros Hlen Hnd.
      rewrite dict_store_fresh by (simpl; by apply raised_by_NoDup).
      simpl.
      destruct (raised_by token rs) as [|[n1 e1] [|[n2 e2] l]]; simpl in *;
        [lia|lia|done].
Qed.

(** *** At least one realm successful *)

Lemma alo_loop_app token rs1 rs2 st :
  Strategy.alo_loop token (rs1 ++ rs2) st =
  let '(t1, st1) := Strategy.alo_loop token rs1 st in
  let '(t2, st2) := Strategy.alo_loop token rs2 st1 in
  (t1 ++ t2, st2).
Proof.
  revert st. induction rs1 as [|r rs1 IH]; intros st; simpl.
  - by destruct (Strategy.alo_loop token rs2 st).
  - destruct (Strategy.supports r token); [|apply IH].
    rewrite IH.
    destruct (Strategy.alo_loop token rs1 _) as [t1 st1].
    by destruct (Strategy.alo_loop token rs2 st1).
Qed.

(** Without any success the loop leaves [account], [first_account] and
    [composite_account] at [None] and stores every exception. *)
Lemma alo_loop_no_success token rs errs :
  no_success token rs ->
  Strategy.alo_loop token rs
    {| Strategy.alo_realm_errors := errs; Strategy.alo_account := None;
       Strategy.alo_first_account := None; Strategy.alo_composite := None |} =
  (consulted token rs,
   {| Strategy.alo_realm_errors :=
        foldl (fun d ke => dict_set d ke.1 ke.2) errs (raised_by token rs);
      Strategy.alo_account := None;
      Strategy.alo_first_account := None; Strategy.alo_composite := None |}).
Proof.
  unfold no_success, consulted.
  revert errs. induction rs as [|r rs IH]; intros errs Hno; simpl; [done|].
  apply Forall_cons in Hno as [Hr Hno].
  case_realm r token; simpl.
  - exfalso. by apply (Hr a).
  - unfold Strategy.alo_collect; simpl. by rewrite IH.
  - unfold Strategy.alo_collect; simpl. by rewrite IH.
  - by rewrite IH.
Qed.

(** X25: what the code does when no realm succeeds: line 117 reads an attribute
    the strategy object does not have. *)
Lemma AtLeastOne_no_success_AttributeError token rs :
  no_success token rs ->
  Strategy.AtLeastOneRealmSuccessfulStrategy_execute
    {| Strategy.self_realm_errors := None |}
    {| Strategy.authentication_token := token; Strategy.realms := rs |} =
  (consulted token rs,
   Raise (Strategy.AttributeError
            "'AtLeastOneRealmSuccessfulStrategy' object has no attribute 'realm_errors'")).
Proof.
  intros Hno. unfold Strategy.AtLeastOneRealmSuccessfulStrategy_execute.
  simpl. unfold Strategy.alo_init.
  rewrite (alo_loop_no_success token rs [] Hno). simpl.
  by rewrite app_nil_r.
Qed.

(** While every supporting realm raises, [account] keeps its value. *)
Lemma alo_loop_failures_keep_account token rs st a :
  Forall (fun m => Strategy.supports m token = true ->
                   exists e, fails token m e) rs ->
  Strategy.alo_account st = Some a ->
  is_Some (Strategy.alo_first_account st) ->
  Strategy.alo_account (Strategy.alo_loop token rs st).2 = Some a
  /\ is_Some (Strategy.alo_first_account (Strategy.alo_loop token rs st).2).
Proof.
  revert st. induction rs as [|r rs IH]; intros st Hall Hacc Hfirst; simpl.
  - done.
  - apply Forall_cons in Hall as [Hr Hall].
    destruct (Strategy.supports r token) eqn:Hs; [|by apply IH].
    destruct (Hr eq_refl) as [e [_ He]]. rewrite He.
    destruct (Strategy.alo_loop token rs _) as [t st'] eqn:Hloop.
    simpl. change st' with (t, st').2. rewrite <- Hloop.
    apply IH; [done| |].
    + unfold Strategy.alo_collect, Strategy.alo_try; simpl. rewrite Hacc.
      by destruct Hfirst as [f ->].
    + unfold Strategy.alo_collect, Strategy.alo_try; simpl. rewrite Hacc.
      by destruct Hfirst as [f ->].
Qed.

(** What has been appended to the composite stays appended. *)
Lemma alo_loop_keeps_appended token rs st c entry :
  Strategy.alo_composite st = Some c ->
  entry ∈ Strategy.appended c ->
  exists c', Strategy.alo_composite (Strategy.alo_loop token rs st).2 = Some c'
             /\ entry ∈ Strategy.appended c'.
Proof.
  revert st c. induction rs as [|r rs IH]; intros st c Hc Hin; simpl.
  - eauto.
  - destruct (Strategy.supports r token); [|by eapply IH].
    destruct (Strategy.alo_loop token rs _) as [t st'] eqn:Hloop.
    simpl. change st' with (t, st').2. rewrite <- Hloop.
    set (st1 := Strategy.alo_try _ _ st).
    assert (Hc1 : Strategy.alo_composite st1 = Some c).
    { unfold st1, Strategy.alo_try.
      by destruct (Strategy.authenticate_account r token). }
    unfold Strategy.alo_collect.
    destruct (Strategy.alo_account st1) as [acc|]; [|by eapply IH].
    destruct (Strategy.alo_first_account st1); [|by eapply IH].
    eapply IH; [reflexivity|].
    rewrite Hc1. simpl. apply elem_of_app. by left.
Qed.

(** C9 (amended): in [AtLeastOneRealmSuccessfulStrategy.execute] the
    variable [account] is not reset between iterations.  When a realm [r0]
    returns an account [a], every supporting realm after it up to a
    supporting realm [r] raises, and [r] raises too, then the strategy
    returns a composite account to which [a] has been appended under the
    name of [r]: the failing realm is credited with the account of
    [r0]. *)
Theorem AtLeastOne_stale_account_credited
    (self : Strategy.AtLeastOneRealmSuccessfulStrategy)
    token pre r0 mid r post a e :
  succeeds token r0 a ->
  Forall (fun m => Strategy.supports m token = true ->
                   exists e', fails token m e') mid ->
  fails token r e ->
  exists t c,
    Strategy.AtLeastOneRealmSuccessfulStrategy_execute self
      {| Strategy.authentication_token := token;
         Strategy.realms := pre ++ r0 :: mid ++ r :: post |} =
    (t, Return (Some (Strategy.Composite c)))
    /\ (Strategy.name r, a) ∈ Strategy.appended c.
Proof.
  intros [Hs0 Ha0] Hmid [Hs He].
  unfold Strategy.AtLeastOneRealmSuccessfulStrategy_execute. simpl.
  rewrite alo_loop_app.
  destruct (Strategy.alo_loop token pre Strategy.alo_init) as [t1 st1].
  change (r0 :: mid ++ r :: post) with ([r0] ++ (mid ++ r :: post)).
  rewrite alo_loop_app. simpl. rewrite Hs0, Ha0. simpl.
  set (st2 := Strategy.alo_collect _ _).
  assert (Hinv : Strategy.alo_account st2 = Some a
                 /\ is_Some (Strategy.alo_first_account st2)).
  { unfold st2, Strategy.alo_collect; simpl.
    destruct (Strategy.alo_first_account st1); simpl; eauto. }
  destruct Hinv as [Hacc2 Hfirst2].
  rewrite alo_loop_app.
  pose proof (alo_loop_failures_keep_account token mid st2 a Hmid Hacc2 Hfirst2)
    as [Hacc3 Hfirst3].
  destruct (Strategy.alo_loop token mid st2) as [t3 st3]. simpl in Hacc3, Hfirst3.
  simpl. rewrite Hs, He.
  set (st4 := Strategy.alo_collect _ _).
  assert (Hc4 : exists c, Strategy.alo_composite st4 = Some c
            /\ (Strategy.name r, a) ∈ Strategy.appended c).
  { unfold st4, Strategy.alo_collect, Strategy.alo_try; simpl. rewrite Hacc3.
    destruct Hfirst3 as [f ->]. simpl. eexists; split; [reflexivity|].
    simpl. apply elem_of_app. right. left. }
  destruct Hc4 as (c & Hc4 & Hin).
  destruct (alo_loop_keeps_appended token post st4 c _ Hc4 Hin)
    as (c' & Hc' & Hin').
  destruct (Strategy.alo_loop token post st4) as [t5 st5]. simpl in Hc'.
  simpl. rewrite Hc'. simpl. eauto.
Qed.

(** *** All realms successful *)

Lemma all_step_of r acc (s : list (string * Account)) :
  Strategy.all_step r (Some acc) (all_state_of s) =
  all_state_of (s ++ [(Strategy.name r, acc)]).
Proof. by destruct s as [|[n a] [|y s]]. Qed.

#[local] Arguments Strategy.all_step : simpl never.

Lemma all_loop_no_failure token rs (s : list (string * Account)) :
  no_failure token rs ->
  Strategy.all_loop token rs (all_state_of s) =
  (consulted token rs, Return (all_state_of (s ++ returned_by token rs))).
Proof.
  unfold no_failure, consulted.
  revert s. induction rs as [|r rs IH]; intros s Hno; simpl.
  - by rewrite app_nil_r.
  - apply Forall_cons in Hno as [Hr Hno].
    case_realm r token; simpl.
    + rewrite all_step_of. rewrite (IH _ Hno). by rewrite <- app_assoc.
    + change (Strategy.all_step r None (all_state_of s)) with (all_state_of s).
      by rewrite (IH _ Hno).
    + exfalso. by apply (Hr e).
    + by apply IH.
Qed.

(** When no supporting realm raises, the all-successful strategy returns
    the accounts of all realms that returned one: none, the single
    account, or the composite to which all of them were appended in
    iteration order. *)
Lemma AllRealmsSuccessful_execute_returned token rs :
  no_failure token rs ->
  Strategy.AllRealmsSuccessfulStrategy_execute
    {| Strategy.authentication_token := token; Strategy.realms := rs |} =
  (consulted token rs,
   Return
     match returned_by token rs with
     | [] => None
     | [(_, acc)] => Some (Strategy.RealmAccount acc)
     | l => Some (Strategy.Composite {| Strategy.appended := l |})
     end).
Proof.
  intros Hno. unfold Strategy.AllRealmsSuccessfulStrategy_execute. simpl.
  change {| Strategy.all_first := None; Strategy.all_composite := None |}
    with (all_state_of (Account := Account) []).
  rewrite (all_loop_no_failure token rs [] Hno). simpl.
  destruct (returned_by token rs) as [|[n a] [|y l]]; simpl;
    by rewrite app_nil_r.
Qed.

Lemma returned_by_NoDup token rs :
  NoDup (Strategy.name <$> rs) -> NoDup (returned_by token rs).*1.
Proof.
  induction rs as [|r rs IH]; simpl; [constructor|].
  rewrite NoDup_cons. intros [Hr Hnd].
  case_realm r token; simpl; auto.
  apply NoDup_cons. split; [|auto].
  intros Hin. by apply Hr, (returned_by_names token).
Qed.

(** The composite of the all-successful strategy when at least two realms
    return accounts: every returned account was appended, the first
    realm's first, so there are at least two; and for realms with
    distinct names the names are distinct and the keyed sub-accounts are
    those same entries. *)
Lemma AllRealmsSuccessful_composite token rs :
  no_failure token rs ->
  (2 <= length (returned_by token rs))%nat ->
  exists c,
    Strategy.AllRealmsSuccessfulStrategy_execute
      {| Strategy.authentication_token := token; Strategy.realms := rs |} =
    (consulted token rs, Return (Some (Strategy.Composite c)))
    /\ Strategy.appended c = returned_by token rs
    /\ (2 <= length (Strategy.appended c))%nat
    /\ (NoDup (Strategy.name <$> rs) ->
        NoDup (Strategy.appended c).*1
        /\ Strategy.sub_accounts c = returned_by token rs).
Proof.
  intros Hno Hlen.
  rewrite (AllRealmsSuccessful_execute_returned token rs Hno).
  pose proof (returned_by_NoDup token rs) as Hnd.
  destruct (returned_by token rs) as [|[n a] [|y l]] eqn:Hret; simpl in Hlen;
    [lia|lia|].
  eexists; split; [reflexivity|]. simpl. repeat split; [lia|auto|].
  unfold Strategy.sub_accounts. cbn [Strategy.appended].
  by rewrite (dict_store_fresh [] _ (Hnd H)).
Qed.

(** *** The authentication attempt *)

Lemma DefaultAuthenticationAttempt_getter_recursion depth
    (self : Strategy.instance (Token := Token) (Account := Account)) attr :
  attr = "authentication_token" \/ attr = "realms" ->
  Strategy.getattr depth Strategy.DefaultAuthenticationAttempt_class self attr
  = Raise Strategy.RecursionError.
Proof.
  intros Hattr. induction depth as [|d IH]; simpl; [done|].
  destruct Hattr as [-> | ->]; simpl; exact IH.
Qed.

(** C10: constructing a [DefaultAuthenticationAttempt] raises
    [AttributeError] for every token and every list of realms, so no
    instance is ever produced: [authentication_token] and [realms] are
    properties without setter, and [__init__] assigns to them.  Their
    getters read the attribute of their own name, so within any bound on
    nested calls they end in [RecursionError]. *)
Theorem DefaultAuthenticationAttempt_cannot_be_constructed
    token (rs : list (Strategy.Realm Token Account)) :
  Strategy.DefaultAuthenticationAttempt_new token rs =
  Raise (Strategy.AttributeError "can't set attribute")
  /\ (forall self,
        Strategy.DefaultAuthenticationAttempt_new token rs <> Return self)
  /\ (Strategy.fset <$>
        Strategy.DefaultAuthenticationAttempt_class
          (Token := Token) (Account := Account) "authentication_token")
     = Some None
  /\ (Strategy.fset <$>
        Strategy.DefaultAuthenticationAttempt_class
          (Token := Token) (Account := Account) "realms")
     = Some None
  /\ (forall depth (self : Strategy.instance (Token := Token) (Account := Account)),
        Strategy.getattr depth Strategy.DefaultAuthenticationAttempt_class
          self "authentication_token" = Raise Strategy.RecursionError
        /\ Strategy.getattr depth Strategy.DefaultAuthenticationAttempt_class
             self "realms" = Raise Strategy.RecursionError).
Proof.
  split; [reflexivity|]. split; [discriminate|].
  split; [reflexivity|]. split; [reflexivity|].
  intros depth self.
  split; apply DefaultAuthenticationAttempt_getter_recursion; auto.
Qed.

End StrategyFacts.

(** * The authenticator *)

Section AuthcFacts.
Context {EventBus MFAChallenger : Type}.
Variable subclass_of : string -> string -> bool.
Implicit Types (self : Authc.DefaultAuthenticator EventBus MFAChallenger)
  (authc_token : Authc.AuthenticationToken) (topic ident : string).

Lemma notify_event_wired self ident topic bus :
  Authc.event_bus self = Some bus ->
  Authc.notify_event subclass_of self ident topic =
  ([Authc.SendMessage topic ident], Return tt).
Proof. intros Hbus. unfold Authc.notify_event. by rewrite Hbus. Qed.

(** C6 (amended): when the authenticator has no event bus, [notify_event]
    sends nothing and raises [AttributeError] with the message
    "Could not publish <topic> event" to its caller. *)
Theorem notify_event_absent_bus self ident topic :
  Authc.event_bus self = None ->
  Authc.notify_event subclass_of self ident topic =
  ([], Raise (Authc.AttributeError
                ("Could not publish " +:+ topic +:+ " event"))).
Proof. intros Hbus. unfold Authc.notify_event. by rewrite Hbus. Qed.



(** The end of [do_authenticate_account] (lines 264-274) once the realm
    or the strategy has returned an account and the lock check has
    passed. *)
Lemma do_authenticate_account_gate self authc_token t account info entry :
  Authc.dispatch_account subclass_of self authc_token = (t, Return (Some account)) ->
  Authc.token_info_attr authc_token = Some info ->
  Authc.authc_info account !! Authc.cred_type info = Some entry ->
  Authc.validate_locked subclass_of self authc_token
    (default [] (Authc.failed_attempts entry)) = ([], Return tt) ->
  Authc.do_authenticate_account subclass_of self authc_token =
  if (Authc.tier info <? Z.of_nat (size (Authc.authc_info account)))%Z then
    match Authc.identifier authc_token, Authc.event_bus self with
    | Some ident, Some _ =>
        (t ++ [Authc.SendMessage "AUTHENTICATION.PROGRESS" ident],
         Raise (Authc.AdditionalAuthenticationRequired
                  (Authc.account_id account)))
    | Some ident, None =>
        (t, Raise (Authc.AttributeError
                     "Could not publish AUTHENTICATION.PROGRESS event"))
    | None, _ =>
        (t, Raise (Authc.AttributeError
                     (Authc.token_class authc_token
                        +:+ " object has no attribute 'identifier'")))
    end
  else (t, Return (Some account)).
Proof.
  intros Hdisp Hinfo Hentry Hlock.
  unfold Authc.do_authenticate_account.
  rewrite Hdisp, Hinfo. unfold bind at 1 2. unfold ret at 1. cbn iota.
  unfold bind at 1 2. unfold ret at 1. cbn iota.
  rewrite Hentry. unfold bind at 1 2. unfold ret at 1. cbn iota.
  rewrite Hlock. unfold bind at 1. cbn iota.
  destruct (_ <? _)%Z.
  - unfold Authc.get_identifier, Authc.notify_event.
    destruct (Authc.identifier authc_token) as [ident|];
      [destruct (Authc.event_bus self)|]; simpl; by rewrite ?app_nil_r.
  - simpl. by rewrite app_nil_r.
Qed.

(** C1 (amended): the MFA gate of [do_authenticate_account].  Once the
    realm or the strategy has returned an account, [authc_info] of the
    account has the entry of the token's [cred_type] and the lock check
    has let it pass: if the account has at most [tier] entries in [authc_info], the
    account is returned and nothing is published; if it has more, then on
    an authenticator with an event bus [AUTHENTICATION.PROGRESS] is
    published for the token's identifier and
    [AdditionalAuthenticationRequired] is raised with the account's
    [account_id]; and that exception is raised only if the account has
    more than [tier] entries. *)
Theorem do_authenticate_account_mfa_gate self authc_token
    t account info entry :
  Authc.dispatch_account subclass_of self authc_token = (t, Return (Some account)) ->
  Authc.token_info_attr authc_token = Some info ->
  Authc.authc_info account !! Authc.cred_type info = Some entry ->
  Authc.validate_locked subclass_of self authc_token
    (default [] (Authc.failed_attempts entry)) = ([], Return tt) ->
  let outcome := Authc.do_authenticate_account subclass_of self authc_token in
  ((Z.of_nat (size (Authc.authc_info account)) <= Authc.tier info)%Z ->
   outcome = (t, Return (Some account)))
  /\ ((Authc.tier info < Z.of_nat (size (Authc.authc_info account)))%Z ->
      forall ident bus,
        Authc.identifier authc_token = Some ident ->
        Authc.event_bus self = Some bus ->
        outcome =
        (t ++ [Authc.SendMessage "AUTHENTICATION.PROGRESS" ident],
         Raise (Authc.AdditionalAuthenticationRequired
                  (Authc.account_id account))))
  /\ (forall t' id,
        outcome = (t', Raise (Authc.AdditionalAuthenticationRequired id)) ->
        (Authc.tier info < Z.of_nat (size (Authc.authc_info account)))%Z
        /\ id = Authc.account_id account).
Proof.
  intros Hdisp Hinfo Hentry Hlock outcome. subst outcome.
  rewrite (do_authenticate_account_gate _ _ _ _ _ _ Hdisp Hinfo Hentry Hlock).
  split; [|split].
  - intros Hle. apply Z.ltb_ge in Hle. by rewrite Hle.
  - intros Hlt ident bus Hid Hbus. apply Z.ltb_lt in Hlt.
    by rewrite Hlt, Hid, Hbus.
  - intros t' id Hout.
    destruct (Authc.tier info <? _)%Z eqn:Hcmp; [|done].
    apply Z.ltb_lt in Hcmp. split; [done|].
    destruct (Authc.identifier authc_token); [|done].
    destruct (Authc.event_bus self); congruence.
Qed.

End AuthcFacts.

(** * Tokens *)

Lemma utf8_encode_char_defined c :
  ~ (0xD800 <= c <= 0xDFFF)%Z ->
  exists b, Authc.utf8_encode_char c = Return b.
Proof.
  intros Hc. unfold Authc.utf8_encode_char.
  destruct (c <? 128)%Z; [eauto|].
  destruct (c <? 2048)%Z; [eauto|].
  destruct ((55296 <=? c)%Z && (c <=? 57343)%Z) eqn:Hsur.
  - apply andb_true_iff in Hsur as [H1 H2].
    apply Z.leb_le in H1, H2. lia.
  - destruct (c <? 65536)%Z; eauto.
Qed.

Lemma utf8_encode_defined s :
  Forall (fun c => ~ (0xD800 <= c <= 0xDFFF)%Z) s ->
  exists b, Authc.utf8_encode s = Return b.
Proof.
  induction 1 as [|c s Hc _ [bs IH]]; simpl; [eauto|].
  destruct (utf8_encode_char_defined c Hc) as [b ->]. rewrite IH. eauto.
Qed.

(** A [str] password without surrogate code points is stored as its UTF-8
    encoding. *)
Lemma UsernamePasswordToken_str_password username s remember_me host :
  username <> "" ->
  Forall (fun c => ~ (0xD800 <= c <= 0xDFFF)%Z) s ->
  exists b,
    Authc.utf8_encode s = Return b
    /\ Authc.UsernamePasswordToken username (Authc.PyStr s) remember_me host =
       Return {| Authc.token_class := "UsernamePasswordToken";
                 Authc.identifier := Some username;
                 Authc.credentials := Authc.PyBytes b;
                 Authc.host := host;
                 Authc.is_remember_me := remember_me;
                 Authc.token_info_attr := None |}.
Proof.
  intros Hname Hs. destruct (utf8_encode_defined s Hs) as [b Hb].
  exists b. split; [done|].
  unfold Authc.UsernamePasswordToken, Authc.UsernamePasswordToken_set_identifier.
  apply String.eqb_neq in Hname. rewrite Hname. simpl. by rewrite Hb.
Qed.

(** An [int] of six digits is stored as it is; any other [int] fails the
    assertion. *)
Lemma TOTPToken_six_digits z remember_me :
  (100000 <= z <= 999999)%Z ->
  Authc.TOTPToken (Authc.PyInt z) remember_me =
  Return {| Authc.token_class := "TOTPToken";
            Authc.identifier := None;
            Authc.credentials := Authc.PyInt z;
            Authc.host := None;
            Authc.is_remember_me := remember_me;
            Authc.token_info_attr := None |}.
Proof.
  intros Hz. unfold Authc.TOTPToken, Authc.TOTPToken_set_credentials,
    Authc.TOTPToken_assert. simpl.
  replace (99999 <? z)%Z with true by (symmetry; apply Z.ltb_lt; lia).
  replace (z <? 1000000)%Z with true by (symmetry; apply Z.ltb_lt; lia).
  done.
Qed.

Lemma TOTPToken_other_int z remember_me :
  (z < 100000 \/ 999999 < z)%Z ->
  Authc.TOTPToken (Authc.PyInt z) remember_me =
  Raise (Authc.AssertionError "TOTPToken must be a 6-digit int. Got: ").
Proof.
  intros Hz. unfold Authc.TOTPToken, Authc.TOTPToken_set_credentials,
    Authc.TOTPToken_assert. simpl.
  destruct Hz as [Hz|Hz].
  - replace (99999 <? z)%Z with false by (symmetry; apply Z.ltb_ge; lia).
    done.
  - replace (99999 <? z)%Z with true by (symmetry; apply Z.ltb_lt; lia).
    by replace (z <? 1000000)%Z with false
      by (symmetry; apply Z.ltb_ge; lia).
Qed.

(** C8: what the code does with a [bytes] password.  The setter stores the
    bytes (line 81) and then, the value not being a [str], raises
    [ValueError] (line 85): constructing a [UsernamePasswordToken] from a
    [bytes] password fails for every user name and every byte string. *)
Theorem UsernamePasswordToken_bytes_password_refused :
  (forall _credentials octets,
      Authc.UsernamePasswordToken_set_credentials _credentials
        (Authc.PyBytes octets) =
      Raise (Authc.ValueError "Password must be a str or bytes"))
  /\ (forall username octets remember_me host,
        exists msg,
          Authc.UsernamePasswordToken username (Authc.PyBytes octets)
            remember_me host = Raise (Authc.ValueError msg))
  /\ Authc.UsernamePasswordToken "alice" (Authc.PyBytes [112%Z; 119%Z])
       false None =
     Raise (Authc.ValueError "Password must be a str or bytes").
Proof.
  split; [reflexivity|]. split; [|reflexivity].
  intros username octets remember_me host.
  unfold Authc.UsernamePasswordToken, Authc.UsernamePasswordToken_set_identifier.
  destruct (String.eqb username ""); simpl; eauto.
Qed.

(** * Unsupported tokens *)

Section UnsupportedTokens.
Context {EventBus MFAChallenger : Type}.
Variable subclass_of : string -> string -> bool.

(** A token of a class that is not in the registry is refused at line 204
    with [KeyError], provided the sequence check before it passes: the
    token has a non-empty identifier, or earlier identifiers are given. *)
Lemma authenticate_account_unregistered_class
    (self : Authc.DefaultAuthenticator EventBus MFAChallenger)
    identifiers authc_token :
  Authc.token_info !! Authc.token_class authc_token = None ->
  (exists c s, Authc.identifier authc_token = Some (String c s))
  \/ is_Some identifiers ->
  Authc.authenticate_account subclass_of self identifiers authc_token =
  ([], Raise (Authc.KeyError [Authc.token_class authc_token])).
Proof.
  intros Hreg Hseq. unfold Authc.authenticate_account.
  destruct (Authc.identifier authc_token) as [[|c s]|] eqn:Hid.
  - destruct Hseq as [(c & s & [=])|[ids ->]]. simpl. by rewrite Hreg.
  - simpl. by rewrite Hreg.
  - destruct Hseq as [(c & s & [=])|[ids ->]]. simpl. by rewrite Hreg.
Qed.

(** The lookup in the resolver never raises: a class without candidate
    realm yields the empty list. *)
Lemma resolver_getitem_total
    (self : Authc.DefaultAuthenticator EventBus MFAChallenger) resolver cls :
  Authc.token_realm_resolver self = Some resolver ->
  Authc.resolver_getitem self cls = Return (default [] (resolver !! cls)).
Proof. intros H. unfold Authc.resolver_getitem. by rewrite H. Qed.

End UnsupportedTokens.

(** * Concrete scenarios *)

(** C3: [AtLeastOneRealmSuccessfulStrategy.execute] when no realm
    succeeds.  Line 117 reads [self.realm_errors], which the strategy
    object does not have, so [AttributeError] is raised: with one
    supporting realm that raises, instead of
    [MultiRealmAuthenticationException] with the error of that realm; with
    no realm at all, instead of returning [None]. *)
Theorem AtLeastOne_without_success_raises_AttributeError :
  Strategy.AtLeastOneRealmSuccessfulStrategy_execute fresh_strategy
    {| Strategy.authentication_token := tt;
       Strategy.realms := [stub_realm "R1" (Raise incorrect_credentials)] |} =
  ([Strategy.Consulted "R1"],
   Raise (Strategy.AttributeError
            "'AtLeastOneRealmSuccessfulStrategy' object has no attribute 'realm_errors'"))
  /\ Strategy.AtLeastOneRealmSuccessfulStrategy_execute (Account := string)
       fresh_strategy
       {| Strategy.authentication_token := tt; Strategy.realms := [] |} =
     ([],
      Raise (Strategy.AttributeError
               "'AtLeastOneRealmSuccessfulStrategy' object has no attribute 'realm_errors'")).
Proof. split; reflexivity. Qed.

(** C4: what [AtLeastOneRealmSuccessfulStrategy.execute] does when two
    realms return accounts.  The composite is created at the second
    account and only that account is appended (lines 106-109): the
    result holds one sub-account, under the name of R2, and the account
    of R1 is not in it. *)
Theorem AtLeastOne_composite_omits_first_account :
  Strategy.AtLeastOneRealmSuccessfulStrategy_execute fresh_strategy
    {| Strategy.authentication_token := tt;
       Strategy.realms := [stub_realm "R1" (Return (Some "a1"));
                           stub_realm "R2" (Return (Some "a2"))] |} =
  ([Strategy.Consulted "R1"; Strategy.Consulted "R2"],
   Return (Some (Strategy.Composite
                   {| Strategy.appended := [("R2", "a2")] |})))
  /\ Strategy.sub_accounts {| Strategy.appended := [("R2", "a2")] |} =
     [("R2", "a2")].
Proof. split; reflexivity. Qed.

(** The all-successful strategy on the same realms keeps both. *)
Lemma AllRealms_composite_keeps_first_account :
  Strategy.AllRealmsSuccessfulStrategy_execute
    {| Strategy.authentication_token := tt;
       Strategy.realms := [stub_realm "R1" (Return (Some "a1"));
                           stub_realm "R2" (Return (Some "a2"))] |} =
  ([Strategy.Consulted "R1"; Strategy.Consulted "R2"],
   Return (Some (Strategy.Composite
                   {| Strategy.appended := [("R1", "a1"); ("R2", "a2")] |}))).
Proof. reflexivity. Qed.

(** C9 does not hold as stated: R1 returns an account, R2 returns
    [None], R3 raises.  The [None] of R2 replaces the account of R1 in [account], so
    nothing is appended for R3: the strategy returns the account of R1
    itself and no composite. *)
Lemma AtLeastOne_stale_account_cleared_by_None :
  let r1 := stub_realm "R1" (Return (Some "a1")) in
  let r2 := stub_realm "R2" (Return None) in
  let r3 := stub_realm "R3" (Raise incorrect_credentials) in
  let outcome :=
    Strategy.AtLeastOneRealmSuccessfulStrategy_execute fresh_strategy
      {| Strategy.authentication_token := tt;
         Strategy.realms := [r1; r2; r3] |} in
  succeeds tt r1 "a1"
  /\ fails tt r3 incorrect_credentials
  /\ outcome =
     ([Strategy.Consulted "R1"; Strategy.Consulted "R2";
       Strategy.Consulted "R3"],
      Return (Some (Strategy.RealmAccount "a1")))
  /\ (forall t c, outcome <> (t, Return (Some (Strategy.Composite c)))).
Proof.
  repeat split; try reflexivity.
  intros t c. vm_compute. discriminate.
Qed.

Lemma AtLeastOne_stale_account_credited_witness :
  exists t c,
    Strategy.AtLeastOneRealmSuccessfulStrategy_execute fresh_strategy
      {| Strategy.authentication_token := tt;
         Strategy.realms := [stub_realm "R1" (Return (Some "a1"));
                             stub_realm "R3" (Raise incorrect_credentials)] |} =
    (t, Return (Some (Strategy.Composite c)))
    /\ ("R3", "a1") ∈ Strategy.appended c.
Proof.
  apply (AtLeastOne_stale_account_credited fresh_strategy tt []
           (stub_realm "R1" (Return (Some "a1"))) []
           (stub_realm "R3" (Raise incorrect_credentials)) []
           "a1" incorrect_credentials).
  - split; reflexivity.
  - constructor.
  - split; reflexivity.
Defined.

Lemma FirstRealmSuccessful_execute_spec_witness :
  let r1 := stub_realm "R1" (Raise incorrect_credentials) in
  let r2 := stub_realm "R2" (Return (Some "a2")) in
  let r3 := stub_realm "R3" (Raise account_error) in
  Strategy.FirstRealmSuccessfulStrategy_execute credentials_are_authc
    {| Strategy.authentication_token := tt;
       Strategy.realms := [r1; r2; r3] |} =
  ([Strategy.Consulted "R1"; Strategy.Consulted "R2"], Return (Some "a2"))
  /\ exists outcome,
       Strategy.FirstRealmSuccessfulStrategy_execute credentials_are_authc
         {| Strategy.authentication_token := tt;
            Strategy.realms := [r1; r3] |} =
       ([Strategy.Consulted "R1"; Strategy.Consulted "R3"], outcome)
       /\ outcome =
          Raise (Strategy.MultiRealmAuthenticationException
                   [("R1", incorrect_credentials); ("R3", account_error)]).
Proof.
  intros r1 r2 r3. split.
  - apply (proj1 (FirstRealmSuccessful_execute_spec credentials_are_authc tt
                    [r1; r2; r3])
             [r1] r2 [r3] "a2").
    + reflexivity.
    + repeat constructor. intros acc [_ H]. discriminate H.
    + split; reflexivity.
  - destruct (proj2 (FirstRealmSuccessful_execute_spec credentials_are_authc tt
                       [r1; r3]))
      as (outcome & Hexec & _ & _ & Hmulti).
    + repeat constructor; intros acc [_ H]; discriminate H.
    + exists outcome. split; [exact Hexec|]. apply Hmulti.
      * simpl. lia.
      * apply (bool_decide_unpack _). by vm_compute.
Defined.

(** C6 does not hold as stated: on an authenticator as [__init__] leaves
    it ([event_bus] is [None]) [notify_event] raises [AttributeError] to
    its caller. *)
Lemma notify_event_without_bus_raises :
  let self :=
    Authc.new_authenticator (EventBus := unit) (stub_settings None)
      null_strategy in
  Authc.event_bus self = None
  /\ Authc.notify_event no_subclasses self "alice" "AUTHENTICATION.SUCCEEDED" =
     ([], Raise (Authc.AttributeError
                   "Could not publish AUTHENTICATION.SUCCEEDED event")).
Proof. split; reflexivity. Qed.

Lemma notify_event_absent_bus_witness :
  Authc.notify_event no_subclasses (unwired_authenticator (alice_account []))
    "alice" "AUTHENTICATION.PROGRESS" =
  ([], Raise (Authc.AttributeError
                ("Could not publish " +:+ "AUTHENTICATION.PROGRESS" +:+ " event"))).
Proof. apply notify_event_absent_bus. reflexivity. Defined.

(** Without event bus a correct password ends in that [AttributeError]
    instead of the account's identifiers. *)
Lemma authenticate_account_without_bus :
  Authc.authenticate_account no_subclasses
    (unwired_authenticator (alice_account [])) None password_token =
  ([Authc.AuthenticateAccount "R1"],
   Raise (Authc.AttributeError
            "Could not publish AUTHENTICATION.SUCCEEDED event")).
Proof. reflexivity. Qed.

(** C7: what the code does with a registered token class that no realm
    supports.  One realm, for password tokens only; a TOTP token is
    submitted.  The resolver is a [defaultdict(list)], so the lookup of
    line 255 yields the empty list and the [KeyError] of line 257 is never
    raised; with one realm configured, line 260 takes element 0 of that
    empty list: [IndexError]. *)
Theorem do_authenticate_account_without_candidate_realm :
  let self := single_realm_authenticator (alice_account []) None in
  Authc.token_info !! "TOTPToken" =
    Some {| Authc.tier := 2; Authc.cred_type := "totp_key" |}
  /\ Authc.resolver_getitem self "TOTPToken" = Return []
  /\ (forall subclass_of,
        Authc.do_authenticate_account subclass_of self totp_token =
        ([], Raise (Authc.IndexError "list index out of range")))
  /\ Authc.authenticate_account no_subclasses self (Some alice_id)
       {| Authc.token_class := "TOTPToken";
          Authc.identifier := None;
          Authc.credentials := Authc.PyInt 123456;
          Authc.host := None;
          Authc.is_remember_me := false;
          Authc.token_info_attr := None |} =
     ([], Raise (Authc.IndexError "list index out of range")).
Proof.
  repeat split; try reflexivity.
Qed.

Lemma do_authenticate_account_mfa_gate_witness :
  Authc.do_authenticate_account no_subclasses
    (single_realm_authenticator alice_mfa_account None) password_token =
  ([Authc.AuthenticateAccount "R1";
    Authc.SendMessage "AUTHENTICATION.PROGRESS" "alice"],
   Raise (Authc.AdditionalAuthenticationRequired alice_id))
  /\ Authc.do_authenticate_account no_subclasses
       (single_realm_authenticator (alice_account []) None) password_token =
     ([Authc.AuthenticateAccount "R1"], Return (Some (alice_account []))).
Proof.
  split.
  - apply (proj1 (proj2
      (do_authenticate_account_mfa_gate no_subclasses
         (single_realm_authenticator alice_mfa_account None) password_token
         [Authc.AuthenticateAccount "R1"] alice_mfa_account
         {| Authc.tier := 1; Authc.cred_type := "password" |}
         (password_entry [])
         ltac:(reflexivity) ltac:(reflexivity) ltac:(reflexivity)
         ltac:(reflexivity)))
      ltac:(by vm_compute) "alice" tt ltac:(reflexivity) ltac:(reflexivity)).
  - apply (proj1
      (do_authenticate_account_mfa_gate no_subclasses
         (single_realm_authenticator (alice_account []) None) password_token
         [Authc.AuthenticateAccount "R1"] (alice_account [])
         {| Authc.tier := 1; Authc.cred_type := "password" |}
         (password_entry [])
         ltac:(reflexivity) ltac:(reflexivity) ltac:(reflexivity)
         ltac:(reflexivity))).
    by vm_compute.
Defined.


(** C1: the gate is not reached by every account returned.  An account
    with a single entry (tier 1) and four failed attempts, the threshold
    being 3, is not returned: the lock check raises
    [LockedAccountException] first.  An account with two entries, on an
    authenticator without event bus, does not end in
    [AdditionalAuthenticationRequired]: the publication raises
    [AttributeError] and nothing is published. *)
Lemma do_authenticate_account_gate_not_reached :
  let locked := alice_account [1; 2; 3; 4]%Z in
  Authc.token_info_attr password_token =
    Some {| Authc.tier := 1; Authc.cred_type := "password" |}
  /\ size (Authc.authc_info locked) = 1%nat
  /\ Authc.dispatch_account no_subclasses
       (single_realm_authenticator locked (Some 3%Z)) password_token =
     ([Authc.AuthenticateAccount "R1"], Return (Some locked))
  /\ Authc.do_authenticate_account no_subclasses
       (single_realm_authenticator locked (Some 3%Z)) password_token =
     ([Authc.AuthenticateAccount "R1"; Authc.LockAccount "R1" "alice";
       Authc.SendMessage "AUTHENTICATION.ACCOUNT_LOCKED" "alice"],
      Raise (Authc.LockedAccountException
               "Authentication attempts breached threshold.  Account is now locked for: alice"))
  /\ size (Authc.authc_info alice_mfa_account) = 2%nat
  /\ Authc.dispatch_account no_subclasses
       (unwired_authenticator alice_mfa_account) password_token =
     ([Authc.AuthenticateAccount "R1"], Return (Some alice_mfa_account))
  /\ Authc.do_authenticate_account no_subclasses
       (unwired_authenticator alice_mfa_account) password_token =
     ([Authc.AuthenticateAccount "R1"],
      Raise (Authc.AttributeError
               "Could not publish AUTHENTICATION.PROGRESS event")).
Proof.
  intros locked. repeat split; by vm_compute.
Qed.


(** * Further properties of the strategies *)

Section MoreStrategyFacts.
Context {Token Account : Type}.
Implicit Types (token : Token) (r : Strategy.Realm Token Account)
  (rs pre post : list (Strategy.Realm Token Account)).

(** Every list of realms either has a first realm that returns an account
    or has none that does. *)
Lemma first_success_or_none token rs :
  (exists pre r post acc,
      rs = pre ++ r :: post /\ no_success token pre /\ succeeds token r acc)
  \/ no_success token rs.
Proof.
  induction rs as [|r rs IH].
  - right. constructor.
  - destruct (Strategy.supports r token) eqn:Hs;
      [destruct (Strategy.authenticate_account r token) as [[a|]|e] eqn:Ha|].
    + left. exists [], r, rs, a. repeat split; [constructor|done|done].
    + destruct IH as [(pre & r' & post & acc & -> & Hno & Hok)|Hno].
      * left. exists (r :: pre), r', post, acc. repeat split; try apply Hok.
        constructor; [|done]. intros acc' [_ H]. congruence.
      * right. constructor; [|done]. intros acc' [_ H]. congruence.
    + destruct IH as [(pre & r' & post & acc & -> & Hno & Hok)|Hno].
      * left. exists (r :: pre), r', post, acc. repeat split; try apply Hok.
        constructor; [|done]. intros acc' [_ H]. congruence.
      * right. constructor; [|done]. intros acc' [_ H]. congruence.
    + destruct IH as [(pre & r' & post & acc & -> & Hno & Hok)|Hno].
      * left. exists (r :: pre), r', post, acc. repeat split; try apply Hok.
        constructor; [|done]. intros acc' [H _]. congruence.
      * right. constructor; [|done]. intros acc' [H _]. congruence.
Qed.

Lemma consulted_app token pre post :
  consulted token (pre ++ post) = consulted token pre ++ consulted token post.
Proof. unfold consulted. by rewrite List.filter_app, List.map_app. Qed.

(** *** All realms successful *)

Lemma all_loop_first_failure token pre r post e st :
  no_failure token pre -> fails token r e ->
  Strategy.all_loop token (pre ++ r :: post) st =
  (consulted token pre ++ [Strategy.Consulted (Strategy.name r)], Raise e).
Proof.
  unfold no_failure, consulted. intros Hno [Hs He].
  revert st. induction pre as [|p pre IH]; intros st; simpl.
  - by rewrite Hs, He.
  - apply Forall_cons in Hno as [Hp Hno].
    case_realm p token; simpl.
    + by rewrite IH.
    + by rewrite IH.
    + exfalso. by apply (Hp e0).
    + by rewrite IH.
Qed.

(** X1: [AllRealmsSuccessfulStrategy.execute] stops at the first
    exception.  When a supporting realm raises and no realm before it
    did, that exception is what the strategy raises, whatever accounts
    were returned before, and the realms consulted are the supporting
    realms up to and including that one: no later realm is asked. *)
Theorem AllRealmsSuccessful_first_failure token pre r post e :
  no_failure token pre -> fails token r e ->
  Strategy.AllRealmsSuccessfulStrategy_execute
    {| Strategy.authentication_token := token;
       Strategy.realms := pre ++ r :: post |} =
  (consulted token pre ++ [Strategy.Consulted (Strategy.name r)], Raise e).
Proof.
  intros Hno Hfail. unfold Strategy.AllRealmsSuccessfulStrategy_execute.
  simpl. by rewrite (all_loop_first_failure token pre r post e _ Hno Hfail).
Qed.

(** X2: [AllRealmsSuccessfulStrategy.execute] when no supporting realm
    raises.  Every supporting realm is consulted; if none returns an
    account the result is [None]; if exactly one does, that account
    itself; if several do, a composite to which the accounts of all of
    them were appended under their realm names, in iteration order. *)
Theorem AllRealmsSuccessful_without_failure token rs :
  no_failure token rs ->
  let outcome :=
    Strategy.AllRealmsSuccessfulStrategy_execute
      {| Strategy.authentication_token := token; Strategy.realms := rs |} in
  (returned_by token rs = [] -> outcome = (consulted token rs, Return None))
  /\ (forall n acc,
        returned_by token rs = [(n, acc)] ->
        outcome = (consulted token rs, Return (Some (Strategy.RealmAccount acc))))
  /\ ((2 <= length (returned_by token rs))%nat ->
      outcome =
      (consulted token rs,
       Return (Some (Strategy.Composite
                       {| Strategy.appended := returned_by token rs |})))).
Proof.
  intros Hno outcome. subst outcome.
  rewrite (AllRealmsSuccessful_execute_returned token rs Hno).
  repeat split.
  - by intros ->.
  - by intros n acc ->.
  - destruct (returned_by token rs) as [|[n a] [|y l]]; simpl; [lia|lia|done].
Qed.

(** *** At least one realm successful *)

Lemma alo_loop_trace token rs st :
  (Strategy.alo_loop token rs st).1 = consulted token rs.
Proof.
  unfold consulted. revert st.
  induction rs as [|r rs IH]; intros st; simpl; [done|].
  destruct (Strategy.supports r token); [|apply IH].
  specialize (IH (Strategy.alo_collect (Strategy.name r)
                    (Strategy.alo_try (Strategy.name r)
                       (Strategy.authenticate_account r token) st))).
  destruct (Strategy.alo_loop token rs _) as [t st']. simpl in *. by rewrite IH.
Qed.

(** X3: [AtLeastOneRealmSuccessfulStrategy.execute] never stops early:
    whatever the realms return or raise, and however the execution ends,
    every realm that supports the token is consulted exactly once, in
    iteration order, and no other realm is. *)
Theorem AtLeastOne_consults_every_supporting_realm
    (self : Strategy.AtLeastOneRealmSuccessfulStrategy) token rs :
  (Strategy.AtLeastOneRealmSuccessfulStrategy_execute self
     {| Strategy.authentication_token := token; Strategy.realms := rs |}).1
  = consulted token rs.
Proof.
  unfold Strategy.AtLeastOneRealmSuccessfulStrategy_execute. simpl.
  pose proof (alo_loop_trace token rs Strategy.alo_init) as Ht.
  destruct (Strategy.alo_loop token rs Strategy.alo_init) as [t st].
  simpl in Ht. subst t. simpl.
  destruct (Strategy.alo_composite st); [simpl; by rewrite app_nil_r|].
  destruct (Strategy.alo_first_account st); [simpl; by rewrite app_nil_r|].
  unfold Strategy.get_self_realm_errors.
  destruct (Strategy.self_realm_errors self) as [d|]; simpl;
    [destruct (dict_truthy d); simpl|]; by rewrite app_nil_r.
Qed.

(** X4: in [AtLeastOneRealmSuccessfulStrategy.execute] one success is
    enough.  When some supporting realm returns an account, the strategy
    returns an account (the first such realm's, or a composite) whatever
    the other realms do: their exceptions are stored and never raised. *)
Theorem AtLeastOne_success_suppresses_errors
    (self : Strategy.AtLeastOneRealmSuccessfulStrategy)
    token pre r post acc :
  no_success token pre -> succeeds token r acc ->
  exists value,
    Strategy.AtLeastOneRealmSuccessfulStrategy_execute self
      {| Strategy.authentication_token := token;
         Strategy.realms := pre ++ r :: post |} =
    (consulted token (pre ++ r :: post), Return (Some value))
    /\ (value = Strategy.RealmAccount acc
        \/ exists c, value = Strategy.Composite c).
Proof.
  intros Hno [Hs Ha].
  pose proof (Htrace0 := alo_loop_trace
                token (pre ++ r :: post) Strategy.alo_init).
  unfold Strategy.AtLeastOneRealmSuccessfulStrategy_execute. simpl.
  revert Htrace0.
  rewrite alo_loop_app. unfold Strategy.alo_init.
  rewrite (alo_loop_no_success token pre [] Hno).
  simpl. rewrite Hs, Ha. simpl.
  set (st1 := Strategy.alo_collect _ _).
  assert (Hfirst1 : Strategy.alo_first_account st1 = Some acc) by done.
  assert (Hcomp1 : Strategy.alo_composite st1 = None) by done.
  clearbody st1.
  assert (Hkeep : forall rs st,
             Strategy.alo_first_account st = Some acc ->
             Strategy.alo_first_account (Strategy.alo_loop token rs st).2
             = Some acc).
  { clear. induction rs as [|x rs IH]; intros st Hfirst; simpl; [done|].
    destruct (Strategy.supports x token); [|by apply IH].
    destruct (Strategy.alo_loop token rs _) as [t st'] eqn:Hloop.
    simpl. change st' with (t, st').2. rewrite <- Hloop. apply IH.
    unfold Strategy.alo_collect, Strategy.alo_try.
    destruct (Strategy.authenticate_account x token) as [a|e]; simpl.
    - destruct a; [|done]. by rewrite Hfirst.
    - destruct (Strategy.alo_account st); [|done]. by rewrite Hfirst. }
  specialize (Hkeep post st1 Hfirst1).
  destruct (Strategy.alo_loop token post st1) as [t2 st2]. simpl in Hkeep.
  simpl. intros Htrace. rewrite <- Htrace.
  destruct (Strategy.alo_composite st2) as [c|].
  - eexists. simpl. rewrite app_nil_r. split; [reflexivity|]. right. eauto.
  - rewrite Hkeep. eexists. simpl. rewrite app_nil_r.
    split; [reflexivity|]. by left.
Qed.

#[local] Arguments Strategy.alo_collect : simpl never.
#[local] Arguments Strategy.alo_try : simpl never.

Lemma alo_loop_no_failure token rs errs (s : list (string * Account)) account :
  no_failure token rs ->
  exists account',
    Strategy.alo_loop token rs (alo_state_after errs s account) =
    (consulted token rs,
     alo_state_after errs (s ++ returned_by token rs) account').
Proof.
  unfold no_failure, consulted.
  revert s account. induction rs as [|r rs IH]; intros s account Hno; simpl.
  - exists account. by rewrite app_nil_r.
  - apply Forall_cons in Hno as [Hr Hno].
    case_realm r token; simpl.
    + assert (Hstep :
          Strategy.alo_collect (Strategy.name r)
            (Strategy.alo_try (Strategy.name r) (Return (Some a))
               (alo_state_after errs s account)) =
          alo_state_after errs (s ++ [(Strategy.name r, a)]) (Some a)).
      { unfold Strategy.alo_collect, Strategy.alo_try, alo_state_after.
        by destruct s as [|[n0 a0] [|y s]]. }
      rewrite Hstep. destruct (IH (s ++ [(Strategy.name r, a)]) (Some a) Hno)
        as [account' ->].
      exists account'. by rewrite <- app_assoc.
    + assert (Hstep :
          Strategy.alo_collect (Strategy.name r)
            (Strategy.alo_try (Strategy.name r) (Return None)
               (alo_state_after errs s account)) =
          alo_state_after errs s None) by done.
      rewrite Hstep. destruct (IH s None Hno) as [account' ->]. eauto.
    + exfalso. by apply (Hr e).
    + by apply IH.
Qed.

(** X5: [AtLeastOneRealmSuccessfulStrategy.execute] when no supporting
    realm raises and at least one returns an account.  If exactly one
    realm returns an account, that account itself is the result.  If
    several do, the result is a composite to which the accounts of all
    of them but the first were appended, in iteration order: the first
    account returned is kept in [first_account] and is not in the
    composite. *)
Theorem AtLeastOne_without_failure
    (self : Strategy.AtLeastOneRealmSuccessfulStrategy) token rs n acc rest :
  no_failure token rs ->
  returned_by token rs = (n, acc) :: rest ->
  Strategy.AtLeastOneRealmSuccessfulStrategy_execute self
    {| Strategy.authentication_token := token; Strategy.realms := rs |} =
  (consulted token rs,
   Return (Some match rest with
                | [] => Strategy.RealmAccount acc
                | _ => Strategy.Composite {| Strategy.appended := rest |}
                end)).
Proof.
  intros Hno Hret.
  unfold Strategy.AtLeastOneRealmSuccessfulStrategy_execute. simpl.
  change Strategy.alo_init with (alo_state_after (Account := Account) [] [] None).
  destruct (alo_loop_no_failure token rs [] [] None Hno) as [account' ->].
  simpl. rewrite Hret. unfold alo_state_after. simpl.
  destruct rest; simpl; by rewrite app_nil_r.
Qed.

(** *** Realms that do not support the token *)

Lemma all_loop_filter token rs st :
  Strategy.all_loop token rs st =
  Strategy.all_loop token
    (List.filter (fun r => Strategy.supports r token) rs) st.
Proof.
  revert st. induction rs as [|r rs IH]; intros st; simpl; [done|].
  destruct (Strategy.supports r token) eqn:Hs; simpl; [|apply IH].
  rewrite Hs.
  destruct (Strategy.authenticate_account r token) as [a|e]; [|done].
  by rewrite IH.
Qed.

Lemma alo_loop_filter token rs st :
  Strategy.alo_loop token rs st =
  Strategy.alo_loop token
    (List.filter (fun r => Strategy.supports r token) rs) st.
Proof.
  revert st. induction rs as [|r rs IH]; intros st; simpl; [done|].
  destruct (Strategy.supports r token) eqn:Hs; simpl; [|apply IH].
  by rewrite Hs, IH.
Qed.

Lemma first_loop_filter token rs errs :
  Strategy.first_loop token rs errs =
  Strategy.first_loop token
    (List.filter (fun r => Strategy.supports r token) rs) errs.
Proof.
  revert errs. induction rs as [|r rs IH]; intros errs; simpl; [done|].
  destruct (Strategy.supports r token) eqn:Hs; simpl; [|apply IH].
  rewrite Hs.
  destruct (Strategy.authenticate_account r token) as [[a|]|e];
    [done|by rewrite IH|by rewrite IH].
Qed.

(** X6: a realm that does not support the token has no part in any of
    the three strategies: each strategy does on a list of realms exactly
    what it does on the realms of that list that support the token, in
    effects and in outcome. *)
Theorem strategies_ignore_unsupporting_realms
    (isinstance_AuthenticationException : Strategy.exn -> bool)
    (self : Strategy.AtLeastOneRealmSuccessfulStrategy) token rs :
  let supporting := List.filter (fun r => Strategy.supports r token) rs in
  Strategy.AllRealmsSuccessfulStrategy_execute
    {| Strategy.authentication_token := token; Strategy.realms := rs |} =
  Strategy.AllRealmsSuccessfulStrategy_execute
    {| Strategy.authentication_token := token;
       Strategy.realms := supporting |}
  /\ Strategy.AtLeastOneRealmSuccessfulStrategy_execute self
       {| Strategy.authentication_token := token; Strategy.realms := rs |} =
     Strategy.AtLeastOneRealmSuccessfulStrategy_execute self
       {| Strategy.authentication_token := token;
          Strategy.realms := supporting |}
  /\ Strategy.FirstRealmSuccessfulStrategy_execute
       isinstance_AuthenticationException
       {| Strategy.authentication_token := token; Strategy.realms := rs |} =
     Strategy.FirstRealmSuccessfulStrategy_execute
       isinstance_AuthenticationException
       {| Strategy.authentication_token := token;
          Strategy.realms := supporting |}.
Proof.
  intros supporting. subst supporting.
  unfold Strategy.AllRealmsSuccessfulStrategy_execute,
    Strategy.AtLeastOneRealmSuccessfulStrategy_execute,
    Strategy.FirstRealmSuccessfulStrategy_execute. simpl.
  by rewrite <- all_loop_filter, <- alo_loop_filter, <- first_loop_filter.
Qed.

(** *** No account without a realm that returned one *)

Lemma all_loop_no_success token rs st :
  no_success token rs ->
  exists t outcome,
    Strategy.all_loop token rs st = (t, outcome)
    /\ (outcome = Return st \/ exists e, outcome = Raise e).
Proof.
  unfold no_success.
  revert st. induction rs as [|r rs IH]; intros st Hno; simpl.
  - eexists _, _. split; [reflexivity|]. by left.
  - apply Forall_cons in Hno as [Hr Hno].
    case_realm r token; simpl.
    + exfalso. by apply (Hr a).
    + destruct (IH st Hno) as (t & outcome & -> & Hout).
      eexists _, _. split; [reflexivity|]. done.
    + eexists _, _. split; [reflexivity|]. right. eauto.
    + by apply IH.
Qed.

(** X7: no strategy makes up an account.  Whenever one of the three
    strategies returns an account (or a composite), some realm of the
    attempt supports the token and returned an account for it. *)
Theorem strategies_return_only_returned_accounts
    (isinstance_AuthenticationException : Strategy.exn -> bool)
    (self : Strategy.AtLeastOneRealmSuccessfulStrategy) token rs :
  let attempt :=
    {| Strategy.authentication_token := token; Strategy.realms := rs |} in
  let some_realm_succeeds :=
    exists r acc, r ∈ rs /\ succeeds token r acc in
  ((exists t value,
       Strategy.AllRealmsSuccessfulStrategy_execute attempt =
       (t, Return (Some value))) -> some_realm_succeeds)
  /\ ((exists t value,
         Strategy.AtLeastOneRealmSuccessfulStrategy_execute self attempt =
         (t, Return (Some value))) -> some_realm_succeeds)
  /\ ((exists t acc,
         Strategy.FirstRealmSuccessfulStrategy_execute
           isinstance_AuthenticationException attempt =
         (t, Return (Some acc))) -> some_realm_succeeds).
Proof.
  intros attempt some_realm_succeeds. subst attempt some_realm_succeeds.
  destruct (first_success_or_none token rs)
    as [(pre & r & post & acc & -> & _ & Hok)|Hno].
  { repeat split; intros _; exists r, acc; split; try done;
      apply elem_of_app; right; left. }
  repeat split; intros (t & value & Hexec); exfalso.
  - unfold Strategy.AllRealmsSuccessfulStrategy_execute in Hexec.
    simpl in Hexec.
    destruct (all_loop_no_success token rs
                {| Strategy.all_first := None; Strategy.all_composite := None |}
                Hno) as (t0 & outcome & Hloop & [-> | [e ->]]);
      rewrite Hloop in Hexec; simpl in Hexec; congruence.
  - unfold Strategy.AtLeastOneRealmSuccessfulStrategy_execute in Hexec.
    simpl in Hexec. unfold Strategy.alo_init in Hexec.
    rewrite (alo_loop_no_success token rs [] Hno) in Hexec. simpl in Hexec.
    unfold Strategy.get_self_realm_errors in Hexec.
    destruct (Strategy.self_realm_errors self) as [d|]; simpl in Hexec;
      [destruct (dict_truthy d); simpl in Hexec|]; congruence.
  - unfold Strategy.FirstRealmSuccessfulStrategy_execute in Hexec.
    simpl in Hexec. rewrite (first_loop_exhausted token rs [] Hno) in Hexec.
    unfold Strategy.first_conclude in Hexec.
    destruct (foldl _ _ _) as [|[n e] [|y l]]; try congruence.
    destruct (isinstance_AuthenticationException e); congruence.
Qed.

End MoreStrategyFacts.

(** * Further properties of the authenticator *)

Lemma bind_Return_inv {Ev E A B} (c : traced Ev E A) (k : A -> traced Ev E B)
    t b :
  bind c k = (t, Return b) ->
  exists t1 a t2, c = (t1, Return a) /\ k a = (t2, Return b) /\ t = t1 ++ t2.
Proof.
  unfold bind. destruct c as [t1 [a|e]]; [|discriminate].
  destruct (k a) as [t2 r] eqn:Hk. intros [= <- ->]. eauto 6.
Qed.

Section MoreAuthcFacts.
Context {EventBus MFAChallenger : Type}.
Variable subclass_of : string -> string -> bool.
Implicit Types (self : Authc.DefaultAuthenticator EventBus MFAChallenger)
  (authc_token : Authc.AuthenticationToken) (topic ident : string).

Lemma notify_event_unwired self ident topic :
  Authc.event_bus self = None ->
  Authc.notify_event subclass_of self ident topic =
  ([], Raise (Authc.AttributeError
                ("Could not publish " +:+ topic +:+ " event"))).
Proof. intros Hbus. unfold Authc.notify_event. by rewrite Hbus. Qed.

(** [validate_locked] returns only if the threshold is not breached, and
    then without any effect. *)
Lemma validate_locked_returns self authc_token failed_attempts t u :
  Authc.validate_locked subclass_of self authc_token failed_attempts =
  (t, Return u) ->
  t = []
  /\ (forall threshold,
        Authc.locking_limit self = Some threshold -> threshold <> 0%Z ->
        (Z.of_nat (length failed_attempts) <= threshold)%Z).
Proof.
  unfold Authc.validate_locked.
  destruct (Authc.limit_truthy (Authc.locking_limit self)
            && (default 0%Z (Authc.locking_limit self)
                <? Z.of_nat (length failed_attempts))%Z) eqn:Hcond.
  - intros H. exfalso.
    apply bind_Return_inv in H as (t1 & ident & t2 & _ & H & _).
    apply bind_Return_inv in H as (t3 & u1 & t4 & _ & H & _).
    apply bind_Return_inv in H as (t5 & u2 & t6 & _ & H & _).
    discriminate H.
  - intros [= <- _]. split; [done|].
    intros threshold Hlim Hnz. rewrite Hlim in Hcond. simpl in Hcond.
    apply Z.eqb_neq in Hnz. rewrite Hnz in Hcond. simpl in Hcond.
    by apply Z.ltb_ge.
Qed.

(** [validate_locked] on a breach, with every collaborator in place. *)
Lemma validate_locked_fires self authc_token failed_attempts
    threshold ident realm bus :
  Authc.locking_limit self = Some threshold -> threshold <> 0%Z ->
  (threshold < Z.of_nat (length failed_attempts))%Z ->
  Authc.identifier authc_token = Some ident ->
  Authc.locking_realm self = Some realm ->
  Authc.has_lock_account realm = true ->
  Authc.event_bus self = Some bus ->
  Authc.validate_locked subclass_of self authc_token failed_attempts =
  ([Authc.LockAccount (Authc.realm_name realm) ident;
    Authc.SendMessage "AUTHENTICATION.ACCOUNT_LOCKED" ident],
   Raise (Authc.LockedAccountException
            ("Authentication attempts breached threshold.  Account"
               +:+ " is now locked for: " +:+ ident))).
Proof.
  intros Hlim Hnz Hgt Hid Hrealm Hlock Hbus.
  unfold Authc.validate_locked. rewrite Hlim. simpl.
  apply Z.eqb_neq in Hnz. rewrite Hnz. apply Z.ltb_lt in Hgt. rewrite Hgt.
  simpl. unfold Authc.get_identifier. rewrite Hid. simpl.
  unfold Authc.lock_account. rewrite Hrealm, Hlock. simpl.
  by rewrite (notify_event_wired _ _ _ _ bus Hbus).
Qed.

(** X8: what [do_authenticate_account] returns.  It never returns [None]:
    whenever it returns, the value is the account that the realm or the
    strategy returned, [authc_info] of that account has an entry for the
    token's [cred_type] and at most [tier] entries in all, the failed
    attempts recorded in that entry do not exceed a lock threshold that
    is set, and nothing was published or locked on the way. *)
Theorem do_authenticate_account_returns self authc_token t value :
  Authc.do_authenticate_account subclass_of self authc_token =
  (t, Return value) ->
  exists account info entry,
    value = Some account
    /\ Authc.dispatch_account subclass_of self authc_token =
       (t, Return (Some account))
    /\ Authc.token_info_attr authc_token = Some info
    /\ Authc.authc_info account !! Authc.cred_type info = Some entry
    /\ (Z.of_nat (size (Authc.authc_info account)) <= Authc.tier info)%Z
    /\ (forall threshold,
          Authc.locking_limit self = Some threshold -> threshold <> 0%Z ->
          (Z.of_nat (length (default [] (Authc.failed_attempts entry)))
           <= threshold)%Z).
Proof.
  unfold Authc.do_authenticate_account. intros H.
  apply bind_Return_inv in H as (t1 & account & t2 & Hdisp & H & ->).
  apply bind_Return_inv in H as (t3 & info & t4 & Hinfo & H & ->).
  apply bind_Return_inv in H as (t5 & acc & t6 & Hacc & H & ->).
  apply bind_Return_inv in H as (t7 & entry & t8 & Hentry & H & ->).
  apply bind_Return_inv in H as (t9 & u & t10 & Hlock & H & ->).
  destruct (Authc.token_info_attr authc_token) as [info'|] eqn:Hattr;
    [|discriminate]. injection Hinfo as <- <-.
  destruct account as [acc'|]; [|discriminate]. injection Hacc as <- <-.
  destruct (Authc.authc_info acc' !! Authc.cred_type info') as [entry'|]
    eqn:Hlookup; [|discriminate]. injection Hentry as <- <-.
  apply validate_locked_returns in Hlock as [-> Hquiet].
  destruct (Authc.tier info' <? _)%Z eqn:Hcmp.
  - exfalso.
    apply bind_Return_inv in H as (ta & ident & tb & _ & H & _).
    apply bind_Return_inv in H as (tc & u' & td & _ & H & _).
    discriminate H.
  - injection H as <- <-. exists acc', info', entry'.
    rewrite !app_nil_r. repeat split; try done. by apply Z.ltb_ge.
Qed.

(** X9: in [do_authenticate_account] the lock check comes before the MFA
    gate.  When the account returned by the realm or the strategy records
    more failed attempts than the threshold, the account is locked
    through the locking realm, [AUTHENTICATION.ACCOUNT_LOCKED] is
    published and [LockedAccountException] is raised, whether or not the
    account has further factors: [AUTHENTICATION.PROGRESS] is not
    published and [AdditionalAuthenticationRequired] is not raised. *)
Theorem do_authenticate_account_lock_before_mfa self authc_token
    t account info entry threshold ident realm bus :
  Authc.dispatch_account subclass_of self authc_token =
  (t, Return (Some account)) ->
  Authc.token_info_attr authc_token = Some info ->
  Authc.authc_info account !! Authc.cred_type info = Some entry ->
  Authc.locking_limit self = Some threshold -> threshold <> 0%Z ->
  (threshold
   < Z.of_nat (length (default [] (Authc.failed_attempts entry))))%Z ->
  Authc.identifier authc_token = Some ident ->
  Authc.locking_realm self = Some realm ->
  Authc.has_lock_account realm = true ->
  Authc.event_bus self = Some bus ->
  Authc.do_authenticate_account subclass_of self authc_token =
  (t ++ [Authc.LockAccount (Authc.realm_name realm) ident;
         Authc.SendMessage "AUTHENTICATION.ACCOUNT_LOCKED" ident],
   Raise (Authc.LockedAccountException
            ("Authentication attempts breached threshold.  Account"
               +:+ " is now locked for: " +:+ ident))).
Proof.
  intros Hdisp Hinfo Hentry Hlim Hnz Hgt Hid Hrealm Hlock Hbus.
  unfold Authc.do_authenticate_account.
  rewrite Hdisp, Hinfo. unfold bind at 1 2. unfold ret at 1. cbn iota.
  unfold bind at 1 2. unfold ret at 1. cbn iota.
  rewrite Hentry. unfold bind at 1 2. unfold ret at 1. cbn iota.
  rewrite (validate_locked_fires _ _ _ _ _ _ _ Hlim Hnz Hgt Hid Hrealm Hlock Hbus).
  done.
Qed.

(** X10: how [do_authenticate_account] fails before the lock check.  An
    exception of the realm or of the strategy is raised unchanged.  If
    they return [None] the subscript of line 265 raises [TypeError]; if
    the account has no entry for the token's [cred_type] it raises
    [KeyError] with that [cred_type].  In each case nothing is published
    and no account is locked. *)
Theorem do_authenticate_account_failures self authc_token t :
  (forall e,
      Authc.dispatch_account subclass_of self authc_token = (t, Raise e) ->
      Authc.do_authenticate_account subclass_of self authc_token =
      (t, Raise e))
  /\ (forall info,
        Authc.dispatch_account subclass_of self authc_token =
        (t, Return None) ->
        Authc.token_info_attr authc_token = Some info ->
        Authc.do_authenticate_account subclass_of self authc_token =
        (t, Raise (Authc.TypeError "'NoneType' object is not subscriptable")))
  /\ (forall account info,
        Authc.dispatch_account subclass_of self authc_token =
        (t, Return (Some account)) ->
        Authc.token_info_attr authc_token = Some info ->
        Authc.authc_info account !! Authc.cred_type info = None ->
        Authc.do_authenticate_account subclass_of self authc_token =
        (t, Raise (Authc.KeyError [Authc.cred_type info]))).
Proof.
  unfold Authc.do_authenticate_account. repeat split.
  - by intros e ->.
  - intros info -> ->. simpl. by rewrite app_nil_r.
  - intros account info -> -> Hnone. simpl. rewrite Hnone. simpl.
    by rewrite app_nil_r.
Qed.

(** X11: a successful [authenticate_account].  When
    [do_authenticate_account] returns an account for the dispatched token
    and the event bus is in place, [AUTHENTICATION.SUCCEEDED] is
    published last, for the primary identifier of the account (not for
    the identifier of the token), and the [account_id] of the account is
    returned. *)
Theorem authenticate_account_succeeds self identifiers authc_token
    info t account bus :
  in_sequence identifiers authc_token ->
  Authc.token_info !! Authc.token_class authc_token = Some info ->
  Authc.do_authenticate_account subclass_of self
    (dispatched_token identifiers authc_token info) =
  (t, Return (Some account)) ->
  Authc.event_bus self = Some bus ->
  Authc.authenticate_account subclass_of self identifiers authc_token =
  (t ++ [Authc.SendMessage "AUTHENTICATION.SUCCEEDED"
           (Authc.primary_identifier (Authc.account_id account))],
   Return (Authc.account_id account)).
Proof.
  intros Hseq Hreg Hdo Hbus.
  enter_authenticate_account authc_token Hseq Hreg Hdo;
    unfold try_except; simpl;
    rewrite (notify_event_wired _ _ _ _ bus Hbus); simpl;
    by rewrite !app_nil_r.
Qed.

(** X12: without event bus [authenticate_account] never returns.  The only
    way to return leads through the publication of
    [AUTHENTICATION.SUCCEEDED], which raises [AttributeError] when no bus
    is set: whatever the token, the earlier identifiers, the realms and
    the strategy, the call ends in an exception. *)
Theorem authenticate_account_needs_event_bus self identifiers authc_token :
  Authc.event_bus self = None ->
  forall t account_id,
    Authc.authenticate_account subclass_of self identifiers authc_token
    <> (t, Return account_id).
Proof.
  intros Hbus t account_id H. unfold Authc.authenticate_account in H.
  apply bind_Return_inv in H as (t1 & token1 & t2 & _ & H & _).
  apply bind_Return_inv in H as (t3 & info & t4 & _ & H & _).
  apply bind_Return_inv in H as (t5 & account & t6 & _ & H & _).
  apply bind_Return_inv in H as (t7 & u & t8 & H & _ & _).
  rewrite (notify_event_unwired _ _ _ Hbus) in H. discriminate H.
Qed.


#[local] Arguments Authc.validate_locked : simpl never.
#[local] Arguments Authc.notify_event : simpl never.

(** X14: a first factor that is not enough, end to end, on an
    authenticator with its event bus.  When the realm or the strategy
    returns an account with more entries in [authc_info] than the token's
    tier and the lock check lets it pass, [authenticate_account]
    publishes [AUTHENTICATION.PROGRESS] twice for
    the token's identifier (once before raising, once when it handles the
    exception), asks the MFA challenger, if one is configured, to send
    the challenge to that identifier, and raises
    [AdditionalAuthenticationRequired] with the [account_id] of the
    account. *)
Theorem authenticate_account_additional_factor self identifiers authc_token
    info t account entry ident bus :
  in_sequence identifiers authc_token ->
  Authc.token_info !! Authc.token_class authc_token = Some info ->
  let token := dispatched_token identifiers authc_token info in
  Authc.dispatch_account subclass_of self token = (t, Return (Some account)) ->
  Authc.authc_info account !! Authc.cred_type info = Some entry ->
  Authc.validate_locked subclass_of self token
    (default [] (Authc.failed_attempts entry)) = ([], Return tt) ->
  (Authc.tier info < Z.of_nat (size (Authc.authc_info account)))%Z ->
  Authc.identifier token = Some ident ->
  Authc.event_bus self = Some bus ->
  Authc.authenticate_account subclass_of self identifiers authc_token =
  (t ++ [Authc.SendMessage "AUTHENTICATION.PROGRESS" ident;
         Authc.SendMessage "AUTHENTICATION.PROGRESS" ident]
     ++ match Authc.mfa_challenger self with
        | Some _ => [Authc.SendChallenge ident]
        | None => []
        end,
   Raise (Authc.AdditionalAuthenticationRequired (Authc.account_id account))).
Proof.
  intros Hseq Hreg token Hdisp Hentry Hlock Hlt Hident Hbus.
  pose proof (do_authenticate_account_gate subclass_of self token t account
                info entry Hdisp eq_refl Hentry Hlock) as Hdo.
  apply Z.ltb_lt in Hlt. rewrite Hlt, Hident, Hbus in Hdo.
  subst token. unfold dispatched_token in Hident. simpl in Hident.
  enter_authenticate_account authc_token Hseq Hreg Hdo;
    rewrite ?Hid in Hident; simpl in Hident;
    injection Hident as <-;
    unfold try_except, Authc.isinstance, Authc.get_identifier; simpl;
    rewrite ?Hid; simpl;
    rewrite (notify_event_wired _ _ _ _ bus Hbus); simpl;
    unfold Authc.send_challenge;
    destruct (Authc.mfa_challenger self); simpl;
    simplify_eq; by rewrite <- !app_assoc.
Qed.

(** X15: wrong credentials, end to end, on an authenticator with its
    event bus (and, for the lock, its locking realm).  When the realm
    raises [IncorrectCredentialsException] carrying the failed attempts,
    in a class hierarchy where that exception is none of the three handled
    before it, [authenticate_account] publishes [AUTHENTICATION.FAILED]
    and checks the lock with those attempts.  If the threshold is not
    breached it raises a new [IncorrectCredentialsException], which no
    longer carries the attempts; if it is breached, the account is
    locked, [AUTHENTICATION.ACCOUNT_LOCKED] is published and
    [LockedAccountException] is raised instead. *)
Theorem authenticate_account_incorrect_credentials self identifiers
    authc_token info t attempts ident bus :
  in_sequence identifiers authc_token ->
  Authc.token_info !! Authc.token_class authc_token = Some info ->
  let token := dispatched_token identifiers authc_token info in
  Authc.do_authenticate_account subclass_of self token =
  (t, Raise (Authc.IncorrectCredentialsException (Some attempts))) ->
  subclass_of "IncorrectCredentialsException"
    "AdditionalAuthenticationRequired" = false ->
  subclass_of "IncorrectCredentialsException" "AccountException" = false ->
  subclass_of "IncorrectCredentialsException" "LockedAccountException"
  = false ->
  Authc.identifier token = Some ident ->
  Authc.event_bus self = Some bus ->
  let outcome :=
    Authc.authenticate_account subclass_of self identifiers authc_token in
  (Authc.validate_locked subclass_of self token attempts = ([], Return tt) ->
   outcome =
   (t ++ [Authc.SendMessage "AUTHENTICATION.FAILED" ident],
    Raise (Authc.IncorrectCredentialsException None)))
  /\ (forall threshold realm,
        Authc.locking_limit self = Some threshold -> threshold <> 0%Z ->
        (threshold < Z.of_nat (length attempts))%Z ->
        Authc.locking_realm self = Some realm ->
        Authc.has_lock_account realm = true ->
        outcome =
        (t ++ [Authc.SendMessage "AUTHENTICATION.FAILED" ident;
               Authc.LockAccount (Authc.realm_name realm) ident;
               Authc.SendMessage "AUTHENTICATION.ACCOUNT_LOCKED" ident],
         Raise (Authc.LockedAccountException
                  ("Authentication attempts breached threshold.  Account"
                     +:+ " is now locked for: " +:+ ident)))).
Proof.
  intros Hseq Hreg token Hdo H1 H2 H3 Hident Hbus outcome.
  subst outcome. split.
  - intros Hquiet. subst token.
    unfold dispatched_token in Hident, Hquiet. simpl in Hident.
    enter_authenticate_account authc_token Hseq Hreg Hdo;
      rewrite ?Hid in Hident, Hquiet; simpl in Hident, Hquiet;
      injection Hident as <-;
      unfold try_except, Authc.isinstance, Authc.get_identifier; simpl;
      rewrite H1, H2, H3; simpl;
      rewrite ?Hid; simpl;
      rewrite (notify_event_wired _ _ _ _ bus Hbus); simpl;
      rewrite Hquiet; simpl; simplify_eq; by rewrite ?app_nil_r.
  - intros threshold realm Hlim Hnz Hgt Hrealm Hlock.
    pose proof (validate_locked_fires self token attempts threshold ident
                  realm bus Hlim Hnz Hgt Hident Hrealm Hlock Hbus) as Hfire.
    subst token. unfold dispatched_token in Hident, Hfire. simpl in Hident.
    enter_authenticate_account authc_token Hseq Hreg Hdo;
      rewrite ?Hid in Hident, Hfire; simpl in Hident, Hfire;
      injection Hident as <-;
      unfold try_except, Authc.isinstance, Authc.get_identifier; simpl;
      rewrite H1, H2, H3; simpl;
      rewrite ?Hid; simpl;
      rewrite (notify_event_wired _ _ _ _ bus Hbus); simpl;
      rewrite Hfire; simpl; simplify_eq; by rewrite ?app_nil_r.
Qed.

(** X16: no account found.  When the realm or the strategy returns
    [None], [do_authenticate_account] has already raised [TypeError]
    before [authenticate_account] tests [account is None]: in a class
    hierarchy where [TypeError] is none of the four exceptions handled,
    [authenticate_account] raises that [TypeError], and neither
    [AccountException] is raised nor
    [AUTHENTICATION.ACCOUNT_NOT_FOUND] published. *)
Theorem authenticate_account_no_account self identifiers authc_token info t :
  in_sequence identifiers authc_token ->
  Authc.token_info !! Authc.token_class authc_token = Some info ->
  Authc.dispatch_account subclass_of self
    (dispatched_token identifiers authc_token info) = (t, Return None) ->
  subclass_of "TypeError" "AdditionalAuthenticationRequired" = false ->
  subclass_of "TypeError" "AccountException" = false ->
  subclass_of "TypeError" "LockedAccountException" = false ->
  subclass_of "TypeError" "IncorrectCredentialsException" = false ->
  Authc.authenticate_account subclass_of self identifiers authc_token =
  (t, Raise (Authc.TypeError "'NoneType' object is not subscriptable")).
Proof.
  intros Hseq Hreg Hdisp H1 H2 H3 H4.
  assert (Hdo : Authc.do_authenticate_account subclass_of self
                  (dispatched_token identifiers authc_token info) =
                (t, Raise (Authc.TypeError
                             "'NoneType' object is not subscriptable"))).
  { unfold Authc.do_authenticate_account. rewrite Hdisp. simpl.
    by rewrite app_nil_r. }
  clear Hdisp.
  enter_authenticate_account authc_token Hseq Hreg Hdo;
    unfold try_except, Authc.isinstance; simpl;
    rewrite H1, H2, H3, H4; simpl; by rewrite ?app_nil_r.
Qed.

End MoreAuthcFacts.

Section HandlerFacts.
Context {EventBus MFAChallenger : Type}.
Variable subclass_of : string -> string -> bool.
Implicit Types (self : Authc.DefaultAuthenticator EventBus MFAChallenger)
  (authc_token : Authc.AuthenticationToken) (ident : string).

(** X26: a locked account, end to end, and the order of the handlers,
    on an authenticator with its event bus.  When [do_authenticate_account] raises [LockedAccountException],
    [authenticate_account] raises it unchanged, and what it publishes
    depends on the class hierarchy, which is declared outside the
    source: the handler of [AccountException] comes first, so where
    [LockedAccountException] is an [AccountException] the only event
    published is [AUTHENTICATION.ACCOUNT_NOT_FOUND] and the handler of
    [LockedAccountException] is never entered; where it is not,
    [AUTHENTICATION.FAILED] and then [AUTHENTICATION.ACCOUNT_LOCKED] are
    published. *)
Theorem authenticate_account_locked_account self identifiers authc_token
    info t msg ident bus :
  in_sequence identifiers authc_token ->
  Authc.token_info !! Authc.token_class authc_token = Some info ->
  let token := dispatched_token identifiers authc_token info in
  Authc.do_authenticate_account subclass_of self token =
  (t, Raise (Authc.LockedAccountException msg)) ->
  subclass_of "LockedAccountException" "AdditionalAuthenticationRequired"
  = false ->
  Authc.identifier token = Some ident ->
  Authc.event_bus self = Some bus ->
  let outcome :=
    Authc.authenticate_account subclass_of self identifiers authc_token in
  (subclass_of "LockedAccountException" "AccountException" = true ->
   outcome =
   (t ++ [Authc.SendMessage "AUTHENTICATION.ACCOUNT_NOT_FOUND" ident],
    Raise (Authc.LockedAccountException msg)))
  /\ (subclass_of "LockedAccountException" "AccountException" = false ->
      outcome =
      (t ++ [Authc.SendMessage "AUTHENTICATION.FAILED" ident;
             Authc.SendMessage "AUTHENTICATION.ACCOUNT_LOCKED" ident],
       Raise (Authc.LockedAccountException msg))).
Proof.
  intros Hseq Hreg token Hdo H1 Hident Hbus outcome.
  subst outcome token.
  unfold dispatched_token in Hident. simpl in Hident.
  split; intros H2;
    enter_authenticate_account authc_token Hseq Hreg Hdo;
    rewrite ?Hid in Hident; simpl in Hident;
    injection Hident as <-;
    unfold try_except, Authc.isinstance, Authc.get_identifier; simpl;
    rewrite H1, H2; simpl;
    rewrite ?Hid; simpl;
    rewrite !(notify_event_wired _ _ _ _ bus Hbus); simpl;
    simplify_eq; by rewrite ?app_nil_r.
Qed.

End HandlerFacts.

(** * Further properties of the tokens and of the initialisation *)

Lemma utf8_encode_surrogate s :
  Exists (fun c => (0xD800 <= c <= 0xDFFF)%Z) s ->
  exists e, Authc.utf8_encode s = Raise e.
Proof.
  induction s as [|c s IH]; intros Hex; [by apply Exists_nil in Hex|].
  simpl.
  destruct (Authc.utf8_encode_char c) as [b|e] eqn:Hc; [|eauto].
  apply Exists_cons in Hex as [Hsur|Hex].
  - exfalso. unfold Authc.utf8_encode_char in Hc.
    replace (c <? 128)%Z with false in Hc by (symmetry; apply Z.ltb_ge; lia).
    replace (c <? 2048)%Z with false in Hc by (symmetry; apply Z.ltb_ge; lia).
    replace (55296 <=? c)%Z with true in Hc by (symmetry; apply Z.leb_le; lia).
    replace (c <=? 57343)%Z with true in Hc by (symmetry; apply Z.leb_le; lia).
    discriminate Hc.
  - destruct (IH Hex) as [e ->]. eauto.
Qed.

(** X17: when a [UsernamePasswordToken] can be constructed.  Construction
    succeeds exactly when the user name is not empty and the password is
    a [str] whose code points can be encoded in UTF-8 (none of them a
    surrogate); the token then carries the user name as identifier, the
    encoded password as credentials, the host and the remember-me flag as
    given, and no [token_info] yet.  An empty user name is refused first,
    whatever the password. *)
Theorem UsernamePasswordToken_construction username password remember_me host :
  (forall token,
      Authc.UsernamePasswordToken username password remember_me host =
      Return token <->
      username <> ""
      /\ exists s b,
           password = Authc.PyStr s
           /\ Forall (fun c => ~ (0xD800 <= c <= 0xDFFF)%Z) s
           /\ Authc.utf8_encode s = Return b
           /\ token =
              {| Authc.token_class := "UsernamePasswordToken";
                 Authc.identifier := Some username;
                 Authc.credentials := Authc.PyBytes b;
                 Authc.host := host;
                 Authc.is_remember_me := remember_me;
                 Authc.token_info_attr := None |})
  /\ (username = "" ->
      Authc.UsernamePasswordToken username password remember_me host =
      Raise (Authc.ValueError "Username must be defined")).
Proof.
  split.
  - intros token. unfold Authc.UsernamePasswordToken,
      Authc.UsernamePasswordToken_set_identifier.
    destruct (String.eqb_spec username "") as [->|Hname].
    { split; [discriminate|]. by intros [? _]. }
    unfold Authc.UsernamePasswordToken_set_credentials.
    destruct password as [| | | |s|]; simpl; try (split; [discriminate|];
      intros (_ & ? & ? & [=] & _)).
    destruct (Authc.utf8_encode s) as [b|e] eqn:Henc.
    + split.
      * intros [= <-]. split; [done|]. exists s, b. repeat split; try done.
        apply Forall_forall. intros c Hc Hsur.
        destruct (utf8_encode_surrogate s) as [e He]; [|congruence].
        apply Exists_exists. eauto.
      * intros (_ & s' & b' & [= <-] & _ & Hb' & ->). congruence.
    + split; [discriminate|].
      intros (_ & s' & b' & [= <-] & _ & Hb' & _). congruence.
  - by intros ->.
Qed.

Lemma float_between_dec lo hi x :
  float_between lo hi x \/ ~ float_between lo hi x.
Proof.
  destruct x as [m e| |]; simpl; [|right; intros []..].
  destruct (0 <=? e)%Z.
  - destruct (decide (lo < m * 2 ^ e < hi)%Z); [by left|by right].
  - destruct (decide (lo * 2 ^ (- e) < m < hi * 2 ^ (- e))%Z);
      [by left|by right].
Qed.

(** The assertion of the [TOTPToken] setter on a [float]: it holds
    exactly for a float strictly between the two bounds. *)
Lemma TOTPToken_assert_float x :
  (float_between 99999 1000000 x ->
   Authc.TOTPToken_assert (Authc.PyFloat x) = Return tt)
  /\ (~ float_between 99999 1000000 x ->
      Authc.TOTPToken_assert (Authc.PyFloat x) =
      Raise (Authc.AssertionError "")).
Proof.
  unfold Authc.TOTPToken_assert, Authc.int_lt, Authc.lt_int.
  destruct x as [m e|negative|]; simpl.
  - destruct (Z.leb_spec 0 e) as [He|He].
    + rewrite (Z.max_l 0 (- e)), (Z.max_r 0 e) by lia.
      rewrite Z.pow_0_r, !Z.mul_1_r.
      destruct (Z.ltb_spec 99999 (m * 2 ^ e));
        [destruct (Z.ltb_spec (m * 2 ^ e) 1000000)|]; split; intros; try done;
        lia.
    + rewrite (Z.max_r 0 (- e)), (Z.max_l 0 e) by lia.
      rewrite Z.pow_0_r, !Z.mul_1_r.
      destruct (Z.ltb_spec (99999 * 2 ^ (- e)) m);
        [destruct (Z.ltb_spec m (1000000 * 2 ^ (- e)))|]; split; intros;
        try done; lia.
  - by destruct negative.
  - done.
Qed.

(** X18: when a [TOTPToken] can be constructed, for a value of the
    builtin kinds [None], [bool], [int], [float], [str] and [bytes].  The
    setter tests no type: construction succeeds exactly for an [int] from
    100000 to 999999 and for a [float] strictly between 99999 and
    1000000, so a value that is not a 6-digit int, such as 123456.5, is
    accepted; the value is stored unchanged in a token without
    identifier.  Any other [int], both [bool] values and any other
    [float] (the infinities and NaN among them) fail the assertion, and
    the other kinds fail the comparison; the exception raised is of the
    class of that failure, [AssertionError] or [TypeError]. *)
Theorem TOTPToken_construction totp_token remember_me :
  let token :=
    {| Authc.token_class := "TOTPToken";
       Authc.identifier := None;
       Authc.credentials := totp_token;
       Authc.host := None;
       Authc.is_remember_me := remember_me;
       Authc.token_info_attr := None |} in
  (Authc.TOTPToken totp_token remember_me = Return token <->
   (exists z, totp_token = Authc.PyInt z /\ (100000 <= z <= 999999)%Z)
   \/ (exists x, totp_token = Authc.PyFloat x
                 /\ float_between 99999 1000000 x))
  /\ (forall token',
        Authc.TOTPToken totp_token remember_me = Return token' ->
        token' = token)
  /\ ((exists z, totp_token = Authc.PyInt z /\ (z < 100000 \/ 999999 < z)%Z)
      \/ (exists b, totp_token = Authc.PyBool b)
      \/ (exists x, totp_token = Authc.PyFloat x
                    /\ ~ float_between 99999 1000000 x) ->
      Authc.TOTPToken totp_token remember_me =
      Raise (Authc.AssertionError "TOTPToken must be a 6-digit int. Got: "))
  /\ (totp_token = Authc.PyNone
      \/ (exists s, totp_token = Authc.PyStr s)
      \/ (exists b, totp_token = Authc.PyBytes b) ->
      Authc.TOTPToken totp_token remember_me =
      Raise (Authc.TypeError "TOTPToken must be a 6-digit int. Got: ")).
Proof.
  intros token. subst token.
  unfold Authc.TOTPToken, Authc.TOTPToken_set_credentials.
  repeat split.
  - destruct totp_token as [|b|z|x|s|b]; simpl; try discriminate.
    + by destruct b.
    + unfold Authc.TOTPToken_assert; simpl.
      destruct (Z.ltb_spec 99999 z); simpl; [|discriminate].
      destruct (Z.ltb_spec z 1000000); simpl; [|discriminate].
      intros _. left. exists z. split; [done|lia].
    + destruct (float_between_dec 99999 1000000 x) as [Hx|Hx].
      * intros _. right. by exists x.
      * by rewrite (proj2 (TOTPToken_assert_float x) Hx).
  - intros [(z & -> & Hz)|(x & -> & Hx)].
    + unfold Authc.TOTPToken_assert; simpl.
      replace (99999 <? z)%Z with true by (symmetry; apply Z.ltb_lt; lia).
      replace (z <? 1000000)%Z with true by (symmetry; apply Z.ltb_lt; lia).
      done.
    + by rewrite (proj1 (TOTPToken_assert_float x) Hx).
  - intros token'.
    by destruct (Authc.TOTPToken_assert totp_token) as [[]|[]];
      intros [= <-].
  - intros [(z & -> & Hz)|[[b ->]|(x & -> & Hx)]].
    + unfold Authc.TOTPToken_assert; simpl. destruct Hz as [Hz|Hz].
      * by replace (99999 <? z)%Z with false
          by (symmetry; apply Z.ltb_ge; lia).
      * replace (99999 <? z)%Z with true by (symmetry; apply Z.ltb_lt; lia).
        by replace (z <? 1000000)%Z with false
          by (symmetry; apply Z.ltb_ge; lia).
    + by destruct b.
    + by rewrite (proj2 (TOTPToken_assert_float x) Hx).
  - by intros [->|[[s ->]|[b ->]]].
Qed.

(** *** The resolver *)

Section ResolverFacts.
Context {EventBus MFAChallenger : Type}.
Implicit Types (self : Authc.DefaultAuthenticator EventBus MFAChallenger)
  (resolver : gmap string (list Authc.Realm)) (realm : Authc.Realm)
  (rs : list Authc.Realm) (cls : string).

Lemma resolver_append_lookup realm resolver c cls :
  default [] (Authc.resolver_append realm resolver c !! cls) =
  default [] (resolver !! cls) ++ (if String.eqb c cls then [realm] else []).
Proof.
  unfold Authc.resolver_append.
  destruct (String.eqb_spec c cls) as [->|Hne].
  - by rewrite lookup_insert_eq.
  - rewrite lookup_insert_ne by done. by rewrite app_nil_r.
Qed.

Lemma resolver_append_all_lookup realm tokens resolver cls :
  default [] (foldl (Authc.resolver_append realm) resolver tokens !! cls) =
  default [] (resolver !! cls)
  ++ flat_map (fun c => if String.eqb c cls then [realm] else []) tokens.
Proof.
  revert resolver. induction tokens as [|c tokens IH]; intros resolver; simpl.
  - by rewrite app_nil_r.
  - rewrite IH, resolver_append_lookup. by rewrite <- app_assoc.
Qed.

Lemma init_token_resolution_from rs resolver cls :
  default []
    (foldl (fun resolver realm =>
              if Authc.is_authenticating_realm realm then
                foldl (Authc.resolver_append realm) resolver
                  (Authc.supported_authc_tokens realm)
              else resolver)
           resolver rs !! cls) =
  default [] (resolver !! cls) ++ candidates cls rs.
Proof.
  unfold candidates.
  revert resolver. induction rs as [|realm rs IH]; intros resolver; simpl.
  - by rewrite app_nil_r.
  - rewrite IH. destruct (Authc.is_authenticating_realm realm).
    + rewrite resolver_append_all_lookup. by rewrite <- app_assoc.
    + done.
Qed.

Lemma candidates_authenticating cls rs :
  candidates cls (List.filter Authc.is_authenticating_realm rs) =
  candidates cls rs.
Proof.
  unfold candidates. induction rs as [|realm rs IH]; simpl; [done|].
  destruct (Authc.is_authenticating_realm realm) eqn:Hauth; simpl;
    by rewrite ?Hauth, IH.
Qed.

Lemma elem_of_candidates realm cls rs :
  realm ∈ candidates cls rs <->
  realm ∈ rs /\ Authc.is_authenticating_realm realm = true
  /\ cls ∈ Authc.supported_authc_tokens realm.
Proof.
  unfold candidates. rewrite list_elem_of_In, in_flat_map. split.
  - intros (x & Hx & Hin). destruct (Authc.is_authenticating_realm x) eqn:Ha;
      [|done].
    apply in_flat_map in Hin as (c & Hc & Hin).
    destruct (String.eqb_spec c cls) as [->|]; [|done].
    destruct Hin as [->|[]]. by rewrite !list_elem_of_In.
  - intros (Hin & Ha & Hc). exists realm. rewrite <- list_elem_of_In.
    split; [done|]. rewrite Ha. apply in_flat_map. exists cls.
    rewrite <- list_elem_of_In. split; [done|].
    rewrite String.eqb_refl. by left.
Qed.

(** X19: what [init_realms] puts into the resolver.  [init_realms] never
    raises; afterwards the authenticator's realms are the authenticating
    realms of the list given, in its order, and the candidates the
    resolver yields for a token class are the authenticating realms that
    list the class among their supported tokens, in the order given (a
    realm once for each time it lists the class).  So a realm is a
    candidate exactly if it was given, is an authenticating realm and
    supports the class, and for a class no realm supports the candidates
    are the empty list, not an error. *)
Theorem init_realms_resolver self rs cls :
  exists t self',
    Authc.init_realms self rs = (t, Return self')
    /\ Authc.realms self' = Some (List.filter Authc.is_authenticating_realm rs)
    /\ Authc.resolver_getitem self' cls = Return (candidates cls rs)
    /\ (forall realm,
          realm ∈ candidates cls rs <->
          realm ∈ rs /\ Authc.is_authenticating_realm realm = true
          /\ cls ∈ Authc.supported_authc_tokens realm).
Proof.
  unfold Authc.init_realms, Authc.register_cache_clear_listener.
  destruct (Authc.event_bus self); simpl;
    (eexists _, _; split; [reflexivity|]; simpl; split; [done|]; split;
     [|intros realm; apply elem_of_candidates]);
    unfold Authc.resolver_getitem; simpl; f_equal;
    unfold Authc.init_token_resolution;
    rewrite init_token_resolution_from, lookup_empty; simpl;
    apply candidates_authenticating.
Qed.

(** *** Locking *)

Lemma find_can_lock rs :
  Authc.locate_locking_realm (List.filter Authc.is_authenticating_realm rs) =
  List.find can_lock rs.
Proof.
  unfold Authc.locate_locking_realm, can_lock.
  induction rs as [|realm rs IH]; simpl; [done|].
  destruct (Authc.is_authenticating_realm realm); simpl; [|done].
  by destruct (Authc.has_lock_account realm).
Qed.

Lemma find_first {A} (p : A -> bool) pre x post :
  Forall (fun y => p y = false) pre -> p x = true ->
  List.find p (pre ++ x :: post) = Some x.
Proof.
  induction 1 as [|y pre Hy _ IH]; intros Hx; simpl.
  - by rewrite Hx.
  - rewrite Hy. by apply IH.
Qed.

Lemma find_none {A} (p : A -> bool) l :
  Forall (fun y => p y = false) l -> List.find p l = None.
Proof. induction 1 as [|y l Hy _ IH]; simpl; [done|]. by rewrite Hy. Qed.

(** X20: through which realm accounts are locked.  After [init_realms]
    with a lock threshold set, on an authenticator with its event bus, a
    breach of the threshold locks the account through the first realm of
    the list given that is an authenticating realm and has
    [lock_account], whichever realm authenticated, then publishes [AUTHENTICATION.ACCOUNT_LOCKED] and
    raises [LockedAccountException].  If no realm of the list is such a
    realm, a breach raises [AttributeError] instead, and nothing is
    locked or published. *)
Theorem init_realms_locking_realm
    (subclass_of : string -> string -> bool) self rs threshold
    authc_token failed_attempts ident t self' :
  Authc.init_realms self rs = (t, Return self') ->
  Authc.account_lock_threshold (Authc.authc_settings self) = Some threshold ->
  threshold <> 0%Z ->
  (threshold < Z.of_nat (length failed_attempts))%Z ->
  Authc.identifier authc_token = Some ident ->
  let outcome :=
    Authc.validate_locked subclass_of self' authc_token failed_attempts in
  (forall pre realm post bus,
      rs = pre ++ realm :: post ->
      Forall (fun r => can_lock r = false) pre ->
      can_lock realm = true ->
      Authc.event_bus self = Some bus ->
      outcome =
      ([Authc.LockAccount (Authc.realm_name realm) ident;
        Authc.SendMessage "AUTHENTICATION.ACCOUNT_LOCKED" ident],
       Raise (Authc.LockedAccountException
                ("Authentication attempts breached threshold.  Account"
                   +:+ " is now locked for: " +:+ ident))))
  /\ (Forall (fun r => can_lock r = false) rs ->
      outcome =
      ([], Raise (Authc.AttributeError
                    "'NoneType' object has no attribute 'lock_account'"))).
Proof.
  intros Hinit Hthr Hnz Hgt Hid outcome. subst outcome.
  assert (Hlim : Authc.locking_limit self' = Some threshold
                 /\ Authc.locking_realm self' = List.find can_lock rs
                 /\ Authc.event_bus self' = Authc.event_bus self).
  { unfold Authc.init_realms, Authc.register_cache_clear_listener in Hinit.
    assert (Htruthy : Authc.limit_truthy (Some threshold) = true).
    { simpl. apply Z.eqb_neq in Hnz. by rewrite Hnz. }
    destruct (Authc.event_bus self); simpl in Hinit;
      injection Hinit as <- <-; simpl; rewrite Hthr, Htruthy;
      by rewrite find_can_lock. }
  destruct Hlim as (Hlim & Hrealm & Hbus'). split.
  - intros pre realm post bus -> Hpre Hcan Hbus.
    rewrite (find_first can_lock pre realm post Hpre Hcan) in Hrealm.
    unfold can_lock in Hcan. apply andb_true_iff in Hcan as [_ Hlock].
    rewrite Hbus in Hbus'.
    unfold Authc.validate_locked. rewrite Hlim. simpl.
    apply Z.eqb_neq in Hnz. rewrite Hnz. apply Z.ltb_lt in Hgt. rewrite Hgt.
    simpl. unfold Authc.get_identifier. rewrite Hid. simpl.
    unfold Authc.lock_account. rewrite Hrealm, Hlock. simpl.
    unfold Authc.notify_event. by rewrite Hbus'.
  - intros Hnone. rewrite (find_none can_lock rs Hnone) in Hrealm.
    unfold Authc.validate_locked. rewrite Hlim. simpl.
    apply Z.eqb_neq in Hnz. rewrite Hnz. apply Z.ltb_lt in Hgt. rewrite Hgt.
    simpl. unfold Authc.get_identifier. rewrite Hid. simpl.
    unfold Authc.lock_account. by rewrite Hrealm.
Qed.

End ResolverFacts.

(** * Clearing the caches *)

Section CacheFacts.
Context {EventBus MFAChallenger Identifiers : Type}.
Variable subclass_of : string -> string -> bool.
Variable from_source : Identifiers -> string -> option string.
Implicit Types (self : Authc.DefaultAuthenticator EventBus MFAChallenger)
  (rs : list Authc.Realm) (ids : Identifiers).

Lemma clear_cache_loop_cleared ids rs :
  CacheClearing.clear_cache_loop from_source
    (Some {| CacheClearing.identifiers := Some ids |}) rs =
  (cleared from_source ids rs, Return tt).
Proof.
  induction rs as [|realm rs IH]; simpl; [done|].
  rewrite IH.
  by destruct (from_source ids (Authc.realm_name realm)) as [[|c s]|].
Qed.

Lemma cleared_names ids rs n i :
  CacheClearing.ClearCachedAuthcInfo n i ∈ cleared from_source ids rs ->
  n ∈ Authc.realm_name <$> rs.
Proof.
  induction rs as [|realm rs IH]; simpl; [by intros ?%elem_of_nil|].
  destruct (from_source ids (Authc.realm_name realm)) as [[|c s]|]; simpl;
    rewrite ?elem_of_cons; intros H; try (right; by apply IH).
  destruct H as [[= -> _]|H]; [by left|right; by apply IH].
Qed.

(** X21: [clear_cache] on a session event that carries identifiers.  For
    each realm of the authenticator for which the identifiers hold a
    non-empty identifier, [clear_cached_authc_info] is called with that
    identifier, in the order of the realms, and for no other realm;
    nothing is logged and nothing raised.  With pairwise distinct realm
    names no call is made twice. *)
Theorem clear_cache_clears_each_realm self ids rs :
  Authc.realms self = Some rs ->
  let outcome :=
    CacheClearing.clear_cache subclass_of from_source self
      (Some {| CacheClearing.identifiers := Some ids |}) in
  outcome.2 = Return tt
  /\ (forall ev,
        ev ∈ outcome.1 <->
        exists realm identifier,
          realm ∈ rs
          /\ from_source ids (Authc.realm_name realm) = Some identifier
          /\ identifier <> ""
          /\ ev = CacheClearing.ClearCachedAuthcInfo
                    (Authc.realm_name realm) identifier)
  /\ outcome.1 = cleared from_source ids rs
  /\ (NoDup (Authc.realm_name <$> rs) -> NoDup outcome.1).
Proof.
  intros Hrs outcome. subst outcome. unfold CacheClearing.clear_cache.
  rewrite Hrs, clear_cache_loop_cleared. simpl.
  split; [done|]. split; [|split; [done|]].
  - intros ev. clear Hrs. induction rs as [|realm rs IH]; simpl.
    + split; [by intros ?%elem_of_nil|].
      by intros (? & ? & ?%elem_of_nil & _).
    + destruct (from_source ids (Authc.realm_name realm)) as [[|c s]|] eqn:Hfrom;
        simpl; rewrite ?elem_of_cons, IH.
      * split.
        -- intros (r & i & Hin & H). exists r, i. split; [by right|done].
        -- intros (r & i & [->|Hin]%elem_of_cons & Hf & Hne & ->);
             [congruence|eauto 6].
      * split.
        -- intros [->|(r & i & Hin & H)].
           ++ exists realm, (String c s). repeat split; [by left|done|done].
           ++ exists r, i. split; [by right|done].
        -- intros (r & i & [->|Hin]%elem_of_cons & Hf & Hne & ->).
           ++ left. congruence.
           ++ right. eauto 6.
      * split.
        -- intros (r & i & Hin & H). exists r, i. split; [by right|done].
        -- intros (r & i & [->|Hin]%elem_of_cons & Hf & Hne & ->);
             [congruence|eauto 6].
  - clear Hrs. induction rs as [|realm rs IH]; [constructor|].
    rewrite fmap_cons, NoDup_cons. intros [Hfresh Hnd]. simpl.
    destruct (from_source ids (Authc.realm_name realm)) as [[|c s]|]; simpl;
      auto.
    apply NoDup_cons. split; [|auto].
    intros Hin. by apply Hfresh, (cleared_names ids rs _ (String c s)).
Qed.

(** X22: [clear_cache] on an event without identifiers ([items] is [None]
    or carries none).  Nothing is cleared and nothing is raised; if the
    authenticator has at least one realm, the warning is logged once, at
    the first realm, and if it has no realm nothing happens at all. *)
Theorem clear_cache_without_identifiers self rs items :
  Authc.realms self = Some rs ->
  items = None
  \/ items = Some {| CacheClearing.identifiers := None |} ->
  CacheClearing.clear_cache subclass_of from_source self items =
  (match rs with
   | [] => []
   | _ :: _ =>
       [CacheClearing.LogWarn
          "Could not clear authc_info from cache after event. items: "]
   end, Return tt).
Proof.
  intros Hrs Hitems. unfold CacheClearing.clear_cache. rewrite Hrs.
  destruct rs as [|realm rs]; [done|].
  by destruct Hitems as [-> | ->].
Qed.

End CacheFacts.

(** * The verifier *)

Section VerifierFacts.
Context {Stored : Type}.
Variable subclass_of : string -> string -> bool.
Implicit Types (self : Verifier.PasslibVerifier Stored)
  (authc_token : Authc.AuthenticationToken)
  (authc_info : gmap string (Verifier.StoredEntry Stored)).

(** X23: [verify_credentials] returns only for verified credentials.  It
    returns exactly when the token carries its [token_info], [authc_info]
    holds a stored credential under the token's [cred_type], and either
    the token is a [UsernamePasswordToken] and the password context
    verifies the submitted credentials against the stored one, or the
    token is a [TOTPToken] and the TOTP check of the submitted code
    against the stored key returns without raising. *)
Theorem verify_credentials_returns self authc_token authc_info :
  Verifier.verify_credentials subclass_of self authc_token authc_info =
  Return tt <->
  exists info entry stored,
    Authc.token_info_attr authc_token = Some info
    /\ authc_info !! Authc.cred_type info = Some entry
    /\ Verifier.entry_credential entry = Some stored
    /\ ((Authc.token_class authc_token = "UsernamePasswordToken"
         /\ Verifier.password_cc_verify self
              (Authc.credentials authc_token) stored = Return true)
        \/ (Authc.token_class authc_token = "TOTPToken"
            /\ Verifier.totp_verify self stored
                 (Authc.credentials authc_token) = Return tt)).
Proof.
  unfold Verifier.verify_credentials, Verifier.get_stored_credentials,
    Verifier.cc_token_resolver.
  split.
  - destruct (Authc.token_info_attr authc_token) as [info|]; [|discriminate].
    destruct (authc_info !! Authc.cred_type info) as [entry|] eqn:Hentry;
      simpl; [|discriminate].
    destruct (Verifier.entry_credential entry) as [stored|] eqn:Hstored;
      [|discriminate].
    destruct (String.eqb_spec (Authc.token_class authc_token)
                "UsernamePasswordToken") as [Hcls|Hcls].
    + simpl.
      destruct (Verifier.password_cc_verify self _ stored) as [[|]|e] eqn:Hv.
      * intros _. exists info, entry, stored. repeat split; try done.
        by left.
      * by destruct (_ || _).
      * by destruct (_ || _).
    + destruct (String.eqb_spec (Authc.token_class authc_token) "TOTPToken")
        as [Hcls'|Hcls']; [|discriminate].
      destruct (Verifier.totp_verify self stored _) as [[]|e] eqn:Hv.
      * intros _. exists info, entry, stored. repeat split; try done.
        by right.
      * by destruct (_ || _).
  - intros (info & entry & stored & -> & Hentry & Hstored & Hok).
    rewrite Hentry. simpl. rewrite Hstored.
    destruct Hok as [[-> Hv]|[-> Hv]]; simpl; by rewrite Hv.
Qed.

(** X24: how [verify_credentials] refuses.  Without a stored credential
    under the token's [cred_type] it raises [KeyError] with the message
    "<cred_type> is required but unavailable from authc_info", before
    the token's class or the library is looked at.  For a password token
    with a stored credential, a wrong password (the context returns
    [False]) and a [ValueError] of the library both end in
    [IncorrectCredentialsException]; for a TOTP token a [TokenError] of
    the check does.  A token of any other class raises [KeyError] with
    the class. *)
Theorem verify_credentials_refusals self authc_token authc_info info :
  Authc.token_info_attr authc_token = Some info ->
  (authc_info !! Authc.cred_type info ≫= Verifier.entry_credential = None ->
   Verifier.verify_credentials subclass_of self authc_token authc_info =
   Raise (Authc.KeyError
            [Authc.cred_type info
               +:+ " is required but unavailable from authc_info"]))
  /\ (forall stored,
        authc_info !! Authc.cred_type info ≫= Verifier.entry_credential
        = Some stored ->
        (Authc.token_class authc_token = "UsernamePasswordToken" ->
         (Verifier.password_cc_verify self (Authc.credentials authc_token)
            stored = Return false
          \/ exists msg,
               Verifier.password_cc_verify self
                 (Authc.credentials authc_token) stored
               = Raise (Authc.ValueError msg)) ->
         Verifier.verify_credentials subclass_of self authc_token authc_info =
         Raise (Authc.IncorrectCredentialsException None))
        /\ (Authc.token_class authc_token = "TOTPToken" ->
            (exists attempts,
                Verifier.totp_verify self stored
                  (Authc.credentials authc_token)
                = Raise (Authc.Raised "TokenError" attempts)) ->
            Verifier.verify_credentials subclass_of self authc_token
              authc_info =
            Raise (Authc.IncorrectCredentialsException None))
        /\ (Authc.token_class authc_token <> "UsernamePasswordToken" ->
            Authc.token_class authc_token <> "TOTPToken" ->
            Verifier.verify_credentials subclass_of self authc_token
              authc_info =
            Raise (Authc.KeyError [Authc.token_class authc_token]))).
Proof.
  intros Hinfo.
  unfold Verifier.verify_credentials, Verifier.get_stored_credentials,
    Verifier.cc_token_resolver.
  rewrite Hinfo. simpl. split.
  - by intros ->.
  - intros stored ->. repeat split.
    + intros -> [Hv|[msg Hv]]; simpl; rewrite Hv; [|done].
      by destruct (_ || _).
    + intros -> [attempts Hv]. simpl. rewrite Hv.
      unfold Authc.isinstance. simpl. by rewrite orb_true_r.
    + intros H1 H2. apply String.eqb_neq in H1, H2. by rewrite H1, H2.
Qed.

End VerifierFacts.

(** * Scenarios for the further properties *)

Lemma AllRealmsSuccessful_first_failure_witness :
  Strategy.AllRealmsSuccessfulStrategy_execute
    {| Strategy.authentication_token := tt;
       Strategy.realms := [stub_realm "R1" (Return (Some "a1"));
                           stub_realm "R2" (Raise incorrect_credentials);
                           stub_realm "R3" (Return (Some "a3"))] |} =
  ([Strategy.Consulted "R1"; Strategy.Consulted "R2"],
   Raise incorrect_credentials).
Proof.
  apply (AllRealmsSuccessful_first_failure tt
           [stub_realm "R1" (Return (Some "a1"))]
           (stub_realm "R2" (Raise incorrect_credentials))
           [stub_realm "R3" (Return (Some "a3"))] incorrect_credentials).
  - repeat constructor. intros e [_ H]. discriminate H.
  - split; reflexivity.
Defined.

Lemma AllRealmsSuccessful_without_failure_witness :
  Strategy.AllRealmsSuccessfulStrategy_execute
    {| Strategy.authentication_token := tt;
       Strategy.realms := [stub_realm "R1" (Return (Some "a1"));
                           stub_realm "R2" (Return None);
                           stub_realm "R3" (Return (Some "a3"))] |} =
  ([Strategy.Consulted "R1"; Strategy.Consulted "R2";
    Strategy.Consulted "R3"],
   Return (Some (Strategy.Composite
                   {| Strategy.appended := [("R1", "a1"); ("R3", "a3")] |}))).
Proof.
  apply (proj2 (proj2
    (AllRealmsSuccessful_without_failure tt
       [stub_realm "R1" (Return (Some "a1")); stub_realm "R2" (Return None);
        stub_realm "R3" (Return (Some "a3"))]
       ltac:(repeat constructor; intros e [_ H]; discriminate H)))).
  simpl. lia.
Defined.

Lemma AtLeastOne_success_suppresses_errors_witness :
  exists value,
    Strategy.AtLeastOneRealmSuccessfulStrategy_execute fresh_strategy
      {| Strategy.authentication_token := tt;
         Strategy.realms := [stub_realm "R1" (Raise incorrect_credentials);
                             stub_realm "R2" (Return (Some "a2"));
                             stub_realm "R3" (Raise account_error)] |} =
    ([Strategy.Consulted "R1"; Strategy.Consulted "R2";
      Strategy.Consulted "R3"], Return (Some value))
    /\ (value = Strategy.RealmAccount "a2"
        \/ exists c, value = Strategy.Composite c).
Proof.
  apply (AtLeastOne_success_suppresses_errors fresh_strategy tt
           [stub_realm "R1" (Raise incorrect_credentials)]
           (stub_realm "R2" (Return (Some "a2")))
           [stub_realm "R3" (Raise account_error)] "a2").
  - repeat constructor. intros acc [_ H]. discriminate H.
  - split; reflexivity.
Defined.

Lemma AtLeastOne_without_failure_witness :
  Strategy.AtLeastOneRealmSuccessfulStrategy_execute fresh_strategy
    {| Strategy.authentication_token := tt;
       Strategy.realms := [stub_realm "R1" (Return (Some "a1"));
                           stub_realm "R2" (Return (Some "a2"));
                           stub_realm "R3" (Return (Some "a3"))] |} =
  ([Strategy.Consulted "R1"; Strategy.Consulted "R2";
    Strategy.Consulted "R3"],
   Return (Some (Strategy.Composite
                   {| Strategy.appended := [("R2", "a2"); ("R3", "a3")] |}))).
Proof.
  apply (AtLeastOne_without_failure fresh_strategy tt
           [stub_realm "R1" (Return (Some "a1"));
            stub_realm "R2" (Return (Some "a2"));
            stub_realm "R3" (Return (Some "a3"))]
           "R1" "a1" [("R2", "a2"); ("R3", "a3")]).
  - repeat constructor; intros e [_ H]; discriminate H.
  - reflexivity.
Defined.

Lemma AtLeastOne_no_success_AttributeError_witness :
  Strategy.AtLeastOneRealmSuccessfulStrategy_execute fresh_strategy
    {| Strategy.authentication_token := tt;
       Strategy.realms := [stub_realm "R1" (Raise incorrect_credentials);
                           stub_realm "R2" (Return None);
                           stub_realm "R3" (Raise account_error)] |} =
  ([Strategy.Consulted "R1"; Strategy.Consulted "R2";
    Strategy.Consulted "R3"],
   Raise (Strategy.AttributeError
            "'AtLeastOneRealmSuccessfulStrategy' object has no attribute 'realm_errors'")).
Proof.
  apply (AtLeastOne_no_success_AttributeError tt
           [stub_realm "R1" (Raise incorrect_credentials);
            stub_realm "R2" (Return None);
            stub_realm "R3" (Raise account_error)]).
  repeat constructor; intros acc [_ H]; discriminate H.
Defined.

Lemma strategies_return_only_returned_accounts_witness :
  exists r acc,
    r ∈ [stub_realm "R1" (Raise incorrect_credentials);
         stub_realm "R2" (Return (Some "a2"))]
    /\ succeeds tt r acc.
Proof.
  apply (proj2 (proj2
    (strategies_return_only_returned_accounts credentials_are_authc
       fresh_strategy tt
       [stub_realm "R1" (Raise incorrect_credentials);
        stub_realm "R2" (Return (Some "a2"))]))).
  eexists _, _. reflexivity.
Defined.

Lemma do_authenticate_account_returns_witness :
  exists account info entry,
    Some (alice_account []) = Some account
    /\ Authc.dispatch_account no_subclasses
         (single_realm_authenticator (alice_account []) (Some 3%Z))
         password_token =
       ([Authc.AuthenticateAccount "R1"], Return (Some account))
    /\ Authc.token_info_attr password_token = Some info
    /\ Authc.authc_info account !! Authc.cred_type info = Some entry
    /\ (Z.of_nat (size (Authc.authc_info account)) <= Authc.tier info)%Z
    /\ (forall threshold,
          Authc.locking_limit
            (single_realm_authenticator (alice_account []) (Some 3%Z))
          = Some threshold -> threshold <> 0%Z ->
          (Z.of_nat (length (default [] (Authc.failed_attempts entry)))
           <= threshold)%Z).
Proof.
  apply (do_authenticate_account_returns no_subclasses
           (single_realm_authenticator (alice_account []) (Some 3%Z))
           password_token [Authc.AuthenticateAccount "R1"]
           (Some (alice_account []))).
  reflexivity.
Defined.

Lemma do_authenticate_account_lock_before_mfa_witness :
  Authc.do_authenticate_account no_subclasses
    (single_realm_authenticator (alice_mfa_account_with [1; 2; 3; 4]%Z)
       (Some 3%Z))
    password_token =
  ([Authc.AuthenticateAccount "R1"; Authc.LockAccount "R1" "alice";
    Authc.SendMessage "AUTHENTICATION.ACCOUNT_LOCKED" "alice"],
   Raise (Authc.LockedAccountException
            "Authentication attempts breached threshold.  Account is now locked for: alice")).
Proof.
  apply (do_authenticate_account_lock_before_mfa no_subclasses
           (single_realm_authenticator (alice_mfa_account_with [1; 2; 3; 4]%Z)
              (Some 3%Z))
           password_token [Authc.AuthenticateAccount "R1"]
           (alice_mfa_account_with [1; 2; 3; 4]%Z)
           {| Authc.tier := 1; Authc.cred_type := "password" |}
           (password_entry [1; 2; 3; 4]%Z) 3%Z "alice"
           (password_realm (alice_mfa_account_with [1; 2; 3; 4]%Z)) tt);
    try reflexivity.
  discriminate.
Defined.

Lemma do_authenticate_account_failures_witness :
  Authc.do_authenticate_account no_subclasses
    (authenticator_over [outcome_realm "R1" true (Return None)] None)
    password_token =
  ([Authc.AuthenticateAccount "R1"],
   Raise (Authc.TypeError "'NoneType' object is not subscriptable"))
  /\ Authc.do_authenticate_account no_subclasses
       (single_realm_authenticator (alice_account []) None) totp_token =
     ([], Raise (Authc.IndexError "list index out of range"))
  /\ Authc.do_authenticate_account no_subclasses
       (authenticator_over
          [outcome_realm "R1" true
             (Return (Some {| Authc.account_id := alice_id;
                              Authc.authc_info := ∅ |}))] None)
       password_token =
     ([Authc.AuthenticateAccount "R1"], Raise (Authc.KeyError ["password"])).
Proof.
  split; [|split].
  - apply (proj1 (proj2
      (do_authenticate_account_failures no_subclasses
         (authenticator_over [outcome_realm "R1" true (Return None)] None)
         password_token [Authc.AuthenticateAccount "R1"]))
      {| Authc.tier := 1; Authc.cred_type := "password" |});
      reflexivity.
  - apply (proj1
      (do_authenticate_account_failures no_subclasses
         (single_realm_authenticator (alice_account []) None) totp_token [])).
    reflexivity.
  - apply (proj2 (proj2
      (do_authenticate_account_failures no_subclasses
         (authenticator_over
            [outcome_realm "R1" true
               (Return (Some {| Authc.account_id := alice_id;
                                Authc.authc_info := ∅ |}))] None)
         password_token [Authc.AuthenticateAccount "R1"]))
      {| Authc.account_id := alice_id; Authc.authc_info := ∅ |}
      {| Authc.tier := 1; Authc.cred_type := "password" |});
      reflexivity.
Defined.

Lemma authenticate_account_succeeds_witness :
  Authc.authenticate_account no_subclasses
    (single_realm_authenticator (alice_account []) None) None
    fresh_password_token =
  ([Authc.AuthenticateAccount "R1";
    Authc.SendMessage "AUTHENTICATION.SUCCEEDED" "alice"],
   Return alice_id).
Proof.
  apply (authenticate_account_succeeds no_subclasses
           (single_realm_authenticator (alice_account []) None) None
           fresh_password_token
           {| Authc.tier := 1; Authc.cred_type := "password" |}
           [Authc.AuthenticateAccount "R1"] (alice_account []) tt);
    try reflexivity.
  left. eexists _, _. reflexivity.
Defined.

Lemma authenticate_account_needs_event_bus_witness :
  Authc.event_bus (unwired_authenticator (alice_account [])) = None
  /\ forall t account_id,
       Authc.authenticate_account no_subclasses
         (unwired_authenticator (alice_account [])) None fresh_password_token
       <> (t, Return account_id).
Proof.
  split; [reflexivity|].
  apply (authenticate_account_needs_event_bus no_subclasses
           (unwired_authenticator (alice_account [])) None
           fresh_password_token).
  reflexivity.
Defined.


Lemma authenticate_account_additional_factor_witness :
  Authc.authenticate_account no_subclasses
    (single_realm_authenticator alice_mfa_account None) None
    fresh_password_token =
  ([Authc.AuthenticateAccount "R1";
    Authc.SendMessage "AUTHENTICATION.PROGRESS" "alice";
    Authc.SendMessage "AUTHENTICATION.PROGRESS" "alice"],
   Raise (Authc.AdditionalAuthenticationRequired alice_id)).
Proof.
  apply (authenticate_account_additional_factor no_subclasses
           (single_realm_authenticator alice_mfa_account None) None
           fresh_password_token
           {| Authc.tier := 1; Authc.cred_type := "password" |}
           [Authc.AuthenticateAccount "R1"] alice_mfa_account
           (password_entry []) "alice" tt);
    try reflexivity.
  left. eexists _, _. reflexivity.
Defined.

Lemma authenticate_account_incorrect_credentials_witness :
  let wrong :=
    Raise (Authc.IncorrectCredentialsException (Some [1; 2; 3; 4]%Z)) in
  Authc.authenticate_account no_subclasses
    (authenticator_over [outcome_realm "R1" true wrong] None) None
    fresh_password_token =
  ([Authc.AuthenticateAccount "R1";
    Authc.SendMessage "AUTHENTICATION.FAILED" "alice"],
   Raise (Authc.IncorrectCredentialsException None))
  /\ Authc.authenticate_account no_subclasses
       (authenticator_over [outcome_realm "R1" true wrong] (Some 3%Z)) None
       fresh_password_token =
     ([Authc.AuthenticateAccount "R1";
       Authc.SendMessage "AUTHENTICATION.FAILED" "alice";
       Authc.LockAccount "R1" "alice";
       Authc.SendMessage "AUTHENTICATION.ACCOUNT_LOCKED" "alice"],
      Raise (Authc.LockedAccountException
               "Authentication attempts breached threshold.  Account is now locked for: alice")).
Proof.
  intros wrong. split.
  - apply (proj1
      (authenticate_account_incorrect_credentials no_subclasses
         (authenticator_over [outcome_realm "R1" true wrong] None) None
         fresh_password_token
         {| Authc.tier := 1; Authc.cred_type := "password" |}
         [Authc.AuthenticateAccount "R1"] [1; 2; 3; 4]%Z "alice" tt
         ltac:(left; eexists _, _; reflexivity) ltac:(reflexivity)
         ltac:(reflexivity) ltac:(reflexivity) ltac:(reflexivity)
         ltac:(reflexivity) ltac:(reflexivity) ltac:(reflexivity))).
    reflexivity.
  - apply (proj2
      (authenticate_account_incorrect_credentials no_subclasses
         (authenticator_over [outcome_realm "R1" true wrong] (Some 3%Z)) None
         fresh_password_token
         {| Authc.tier := 1; Authc.cred_type := "password" |}
         [Authc.AuthenticateAccount "R1"] [1; 2; 3; 4]%Z "alice" tt
         ltac:(left; eexists _, _; reflexivity) ltac:(reflexivity)
         ltac:(reflexivity) ltac:(reflexivity) ltac:(reflexivity)
         ltac:(reflexivity) ltac:(reflexivity) ltac:(reflexivity))
      3%Z (outcome_realm "R1" true wrong));
      try reflexivity.
    discriminate.
Defined.

Lemma authenticate_account_no_account_witness :
  Authc.authenticate_account no_subclasses
    (authenticator_over [outcome_realm "R1" true (Return None)] None) None
    fresh_password_token =
  ([Authc.AuthenticateAccount "R1"],
   Raise (Authc.TypeError "'NoneType' object is not subscriptable")).
Proof.
  apply (authenticate_account_no_account no_subclasses
           (authenticator_over [outcome_realm "R1" true (Return None)] None)
           None fresh_password_token
           {| Authc.tier := 1; Authc.cred_type := "password" |}
           [Authc.AuthenticateAccount "R1"]);
    try reflexivity.
  left. eexists _, _. reflexivity.
Defined.

Lemma UsernamePasswordToken_construction_witness :
  Authc.UsernamePasswordToken "alice" (Authc.PyStr [112; 233]%Z) true
    (Some "10.0.0.1") =
  Return {| Authc.token_class := "UsernamePasswordToken";
            Authc.identifier := Some "alice";
            Authc.credentials := Authc.PyBytes [112; 195; 169]%Z;
            Authc.host := Some "10.0.0.1";
            Authc.is_remember_me := true;
            Authc.token_info_attr := None |}.
Proof.
  apply (proj1 (UsernamePasswordToken_construction "alice"
                  (Authc.PyStr [112; 233]%Z) true (Some "10.0.0.1"))).
  split; [discriminate|].
  exists [112; 233]%Z, [112; 195; 169]%Z. repeat split.
  repeat constructor; lia.
Defined.

Lemma TOTPToken_construction_witness :
  let half := Authc.PyFloat (Authc.FloatFinite 246913 (-1)) in
  Authc.TOTPToken half false =
  Return {| Authc.token_class := "TOTPToken";
            Authc.identifier := None;
            Authc.credentials := half;
            Authc.host := None;
            Authc.is_remember_me := false;
            Authc.token_info_attr := None |}
  /\ Authc.TOTPToken (Authc.PyInt 123456) false =
     Return {| Authc.token_class := "TOTPToken";
               Authc.identifier := None;
               Authc.credentials := Authc.PyInt 123456;
               Authc.host := None;
               Authc.is_remember_me := false;
               Authc.token_info_attr := None |}
  /\ Authc.TOTPToken (Authc.PyInt 99999) false =
     Raise (Authc.AssertionError "TOTPToken must be a 6-digit int. Got: ")
  /\ Authc.TOTPToken (Authc.PyFloat (Authc.FloatInf false)) false =
     Raise (Authc.AssertionError "TOTPToken must be a 6-digit int. Got: ").
Proof.
  intros half. split; [|split; [|split]].
  - apply (proj2 (proj1 (TOTPToken_construction half false))).
    right. exists (Authc.FloatFinite 246913 (-1)). split; [done|].
    simpl. lia.
  - apply (proj2 (proj1 (TOTPToken_construction (Authc.PyInt 123456) false))).
    left. exists 123456%Z. split; [done|lia].
  - apply (proj1 (proj2 (proj2
      (TOTPToken_construction (Authc.PyInt 99999) false)))).
    left. exists 99999%Z. split; [done|lia].
  - apply (proj1 (proj2 (proj2
      (TOTPToken_construction (Authc.PyFloat (Authc.FloatInf false)) false)))).
    right. right. exists (Authc.FloatInf false). split; [done|]. intros [].
Defined.

Lemma init_realms_locking_realm_witness :
  let rs := [plain_realm "R0";
             outcome_realm "R1" false (Return None);
             outcome_realm "R2" true (Return None)] in
  let self :=
    with_event_bus (Authc.new_authenticator (stub_settings (Some 3%Z))
                      null_strategy) in
  Authc.validate_locked no_subclasses (initialised self rs) password_token
    [1; 2; 3; 4]%Z =
  ([Authc.LockAccount "R2" "alice";
    Authc.SendMessage "AUTHENTICATION.ACCOUNT_LOCKED" "alice"],
   Raise (Authc.LockedAccountException
            "Authentication attempts breached threshold.  Account is now locked for: alice"))
  /\ Authc.validate_locked no_subclasses
       (initialised self [plain_realm "R0"; outcome_realm "R1" false (Return None)])
       password_token [1; 2; 3; 4]%Z =
     ([], Raise (Authc.AttributeError
                   "'NoneType' object has no attribute 'lock_account'")).
Proof.
  intros rs self. split.
  - apply (proj1
      (init_realms_locking_realm no_subclasses self rs 3%Z password_token
         [1; 2; 3; 4]%Z "alice"
         [Authc.Subscribe "SESSION.EXPIRE"; Authc.IsSubscribed "SESSION.EXPIRE";
          Authc.Subscribe "SESSION.STOP"; Authc.IsSubscribed "SESSION.STOP"]
         (initialised self rs)
         ltac:(reflexivity) ltac:(reflexivity) ltac:(discriminate)
         ltac:(reflexivity) ltac:(reflexivity))
      [plain_realm "R0"; outcome_realm "R1" false (Return None)]
      (outcome_realm "R2" true (Return None)) [] tt);
      try reflexivity.
    repeat constructor.
  - apply (proj2
      (init_realms_locking_realm no_subclasses self
         [plain_realm "R0"; outcome_realm "R1" false (Return None)]
         3%Z password_token
         [1; 2; 3; 4]%Z "alice"
         [Authc.Subscribe "SESSION.EXPIRE"; Authc.IsSubscribed "SESSION.EXPIRE";
          Authc.Subscribe "SESSION.STOP"; Authc.IsSubscribed "SESSION.STOP"]
         (initialised self [plain_realm "R0"; outcome_realm "R1" false (Return None)])
         ltac:(reflexivity) ltac:(reflexivity) ltac:(discriminate)
         ltac:(reflexivity) ltac:(reflexivity))).
    repeat constructor.
Defined.

Lemma clear_cache_clears_each_realm_witness :
  let self :=
    authenticator_over
      [outcome_realm "R1" true (Return None);
       outcome_realm "R2" false (Return None);
       outcome_realm "R3" false (Return None)] None in
  (CacheClearing.clear_cache no_subclasses lookup_source self
     (Some {| CacheClearing.identifiers :=
                Some [("R1", "alice"); ("R3", "alice@x"); ("R2", "")] |})).1
  = [CacheClearing.ClearCachedAuthcInfo "R1" "alice";
     CacheClearing.ClearCachedAuthcInfo "R3" "alice@x"].
Proof.
  intros self.
  exact (proj1 (proj2 (proj2
    (clear_cache_clears_each_realm no_subclasses lookup_source self
       [("R1", "alice"); ("R3", "alice@x"); ("R2", "")]
       [outcome_realm "R1" true (Return None);
        outcome_realm "R2" false (Return None);
        outcome_realm "R3" false (Return None)]
       eq_refl)))).
Defined.

Lemma clear_cache_without_identifiers_witness :
  CacheClearing.clear_cache no_subclasses lookup_source
    (single_realm_authenticator (alice_account []) None) None =
  ([CacheClearing.LogWarn
      "Could not clear authc_info from cache after event. items: "],
   Return tt).
Proof.
  apply (clear_cache_without_identifiers no_subclasses lookup_source
           (single_realm_authenticator (alice_account []) None)
           [password_realm (alice_account [])] None).
  - reflexivity.
  - by left.
Defined.

Lemma verify_credentials_returns_witness :
  Verifier.verify_credentials no_subclasses stub_verifier password_token
    stored_info = Return tt.
Proof.
  apply (proj2 (verify_credentials_returns no_subclasses stub_verifier
                  password_token stored_info)).
  exists {| Authc.tier := 1; Authc.cred_type := "password" |},
    {| Verifier.entry_credential := Some [112%Z; 119%Z] |}, [112%Z; 119%Z].
  repeat split. left. split; reflexivity.
Defined.

Lemma verify_credentials_refusals_witness :
  Verifier.verify_credentials no_subclasses stub_verifier wrong_password_token
    stored_info = Raise (Authc.IncorrectCredentialsException None)
  /\ Verifier.verify_credentials no_subclasses stub_verifier totp_token
       stored_info =
     Raise (Authc.KeyError
              ["totp_key is required but unavailable from authc_info"]).
Proof.
  split.
  - apply (proj1 (proj2
      (verify_credentials_refusals no_subclasses stub_verifier
         wrong_password_token stored_info
         {| Authc.tier := 1; Authc.cred_type := "password" |} eq_refl)
      [112%Z; 119%Z] ltac:(reflexivity))); [reflexivity|].
    left. reflexivity.
  - apply (proj1
      (verify_credentials_refusals no_subclasses stub_verifier
         totp_token stored_info
         {| Authc.tier := 2; Authc.cred_type := "totp_key" |} eq_refl)).
    reflexivity.
Defined.

Lemma authenticate_account_locked_account_witness :
  let locked : result Authc.exn (option Authc.Account) :=
    Raise (Authc.LockedAccountException "locked") in
  Authc.authenticate_account locked_is_account_exception
    (authenticator_over [outcome_realm "R1" true locked] None) None
    fresh_password_token =
  ([Authc.AuthenticateAccount "R1";
    Authc.SendMessage "AUTHENTICATION.ACCOUNT_NOT_FOUND" "alice"],
   Raise (Authc.LockedAccountException "locked"))
  /\ Authc.authenticate_account no_subclasses
       (authenticator_over [outcome_realm "R1" true locked] None) None
       fresh_password_token =
     ([Authc.AuthenticateAccount "R1";
       Authc.SendMessage "AUTHENTICATION.FAILED" "alice";
       Authc.SendMessage "AUTHENTICATION.ACCOUNT_LOCKED" "alice"],
      Raise (Authc.LockedAccountException "locked")).
Proof.
  intros locked. split.
  - apply (proj1
      (authenticate_account_locked_account locked_is_account_exception
         (authenticator_over [outcome_realm "R1" true locked] None) None
         fresh_password_token
         {| Authc.tier := 1; Authc.cred_type := "password" |}
         [Authc.AuthenticateAccount "R1"] "locked" "alice" tt
         ltac:(left; eexists _, _; reflexivity) ltac:(reflexivity)
         ltac:(reflexivity) ltac:(reflexivity) ltac:(reflexivity)
         ltac:(reflexivity))).
    reflexivity.
  - apply (proj2
      (authenticate_account_locked_account no_subclasses
         (authenticator_over [outcome_realm "R1" true locked] None) None
         fresh_password_token
         {| Authc.tier := 1; Authc.cred_type := "password" |}
         [Authc.AuthenticateAccount "R1"] "locked" "alice" tt
         ltac:(left; eexists _, _; reflexivity) ltac:(reflexivity)
         ltac:(reflexivity) ltac:(reflexivity) ltac:(reflexivity)
         ltac:(reflexivity))).
    reflexivity.
Defined.
